(** * PersonalFinanceManager: Transaction, Budget and FinanceManager

    A shallow embedding of [src/transaction.py], [src/budget.py] and
    [src/finance_manager.py], followed by the properties of the
    specification, each stated and settled on the embedding, and by further
    properties of the code.

    Modelling conventions.
    - Python values that cross a dynamic type check ([isinstance], [in],
      [==], subscripting) are values of [pyval].
    - A Python [str] is a Rocq [string]; its characters are code points
      below 256.
    - A Python [float] is a [pyfloat]: the exact rational it denotes, or an
      infinity, or nan. Arithmetic on finite values is exact: binary64
      rounding and overflow are not modelled.
    - A raised exception is the [Raise] case of [result]. The methods of
      [FinanceManager] run in the monad [FinanceManager.M], whose state
      survives an exception, as a Python object does.
    - [print] appends a [message] to the [stdout] component of the state;
      the two data files are components of the state as well.
    - The methods that only show the data return the lines they print; the
      menu runs in a world with the manager, the lines the user types and
      the console. The calls of [matplotlib] are a parameter.
    - The standard library functions the code calls ([str.strip],
      [str.lower], [datetime.strptime], [strftime], [float], [repr],
      [format], [sorted], [input], [csv.writer], [csv.reader], text-mode
      [open], [json.dump], [json.load]) are modelled as far as the code
      depends on them.

    Layout: the embedding; the notions and the sample data the statements
    use; the proofs, by component. *)

From Stdlib Require Import Bool Ascii String List ZArith NArith QArith Lia Sorted.
Import ListNotations.

Local Open Scope string_scope.
Local Open Scope list_scope.

(** ** Python values, exceptions and results *)

Set Warnings "-register-all".

Inductive pyfloat : Type :=
| Fin (q : Q)
| Inf (negative : bool)
| NaN.

Record datetime : Type := mkDatetime {
  year : Z; month : Z; day : Z;
  hour : Z; minute : Z; second : Z; microsecond : Z
}.

Inductive pyval : Type :=
| PyNone
| PyBool (b : bool)
| PyInt (z : Z)
| PyFloat (f : pyfloat)
| PyStr (s : string)
| PyDatetime (d : datetime)
| PyList (l : list pyval)
| PyDict (d : list (string * pyval)).

Inductive exn : Type :=
| ValueError (msg : string)
| TypeError (msg : string)
| KeyError (key : string)
| OSError (msg : string)
| JSONDecodeError
| CsvError (msg : string).

(** [except ValueError] also catches [json.JSONDecodeError], its subclass. *)
Definition is_ValueError (e : exn) : bool :=
  match e with ValueError _ | JSONDecodeError => true | _ => false end.

Definition is_TypeError (e : exn) : bool :=
  match e with TypeError _ => true | _ => false end.

Definition is_KeyError (e : exn) : bool :=
  match e with KeyError _ => true | _ => false end.

(** [PermissionError] is a subclass of [OSError]. *)
Definition is_OSError (e : exn) : bool :=
  match e with OSError _ => true | _ => false end.

(** [csv.Error] derives from [Exception] only. *)
Definition is_CsvError (e : exn) : bool :=
  match e with CsvError _ => true | _ => false end.

Inductive result (A : Type) : Type :=
| Ok (a : A)
| Raise (e : exn).
Arguments Ok {A} a.
Arguments Raise {A} e.

Definition rbind {A B} (r : result A) (k : A -> result B) : result B :=
  match r with Ok a => k a | Raise e => Raise e end.

Declare Scope result_scope.
Delimit Scope result_scope with result.
Notation "x <- r ;; k" := (rbind r (fun x => k))
  (at level 61, r at next level, right associativity) : result_scope.

(** ** Strings *)

Definition code (c : ascii) : N := N_of_ascii c.

(** The characters [str.strip()] removes and [str.isspace()] accepts, among
    the code points below 256. *)
Definition is_space (c : ascii) : bool :=
  let n := code c in
  ((9 <=? n) && (n <=? 13) || (28 <=? n) && (n <=? 32) || (n =? 133) || (n =? 160))%N.

Definition is_digit (c : ascii) : bool :=
  let n := code c in ((48 <=? n) && (n <=? 57))%N.

Definition digit_val (c : ascii) : Z := Z.of_N (code c) - 48.

Definition digit_char (z : Z) : ascii := ascii_of_N (Z.to_N (48 + z mod 10)).

Fixpoint lstrip (space : ascii -> bool) (s : string) : string :=
  match s with
  | String c s' => if space c then lstrip space s' else s
  | EmptyString => EmptyString
  end.

Fixpoint rstrip (space : ascii -> bool) (s : string) : string :=
  match s with
  | String c s' =>
      match rstrip space s' with
      | EmptyString => if space c then EmptyString else String c EmptyString
      | r => String c r
      end
  | EmptyString => EmptyString
  end.

(** [s.strip()] *)
Definition strip (s : string) : string := rstrip is_space (lstrip is_space s).

Definition is_empty (s : string) : bool :=
  match s with EmptyString => true | _ => false end.

Fixpoint string_existsb (p : ascii -> bool) (s : string) : bool :=
  match s with
  | String c s' => p c || string_existsb p s'
  | EmptyString => false
  end.

Fixpoint repeat_char (c : ascii) (n : nat) : string :=
  match n with O => EmptyString | S n' => String c (repeat_char c n') end.

Definition lower (c : ascii) : ascii :=
  let n := code c in
  if ((65 <=? n) && (n <=? 90))%N then ascii_of_N (n + 32) else c.

Fixpoint string_lower (s : string) : string :=
  match s with
  | String c s' => String (lower c) (string_lower s')
  | EmptyString => EmptyString
  end.

(** ** Numbers *)

Definition float_zero : pyfloat := Fin 0.

Definition float_neg (a : pyfloat) : pyfloat :=
  match a with
  | Fin q => Fin (Qred (- q))
  | Inf s => Inf (negb s)
  | NaN => NaN
  end.

Definition float_add (a b : pyfloat) : pyfloat :=
  match a, b with
  | Fin x, Fin y => Fin (Qred (x + y))
  | Fin _, Inf s => Inf s
  | Inf s, Fin _ => Inf s
  | Inf s, Inf s' => if Bool.eqb s s' then Inf s else NaN
  | _, _ => NaN
  end.

Definition float_sub (a b : pyfloat) : pyfloat := float_add a (float_neg b).

Definition Qltb (x y : Q) : bool := negb (Qle_bool y x).
Arguments Qltb : simpl never.

(** [a < b] on floats; every comparison with nan is false. *)
Definition float_ltb (a b : pyfloat) : bool :=
  match a, b with
  | Fin x, Fin y => Qltb x y
  | Fin _, Inf s => negb s
  | Inf s, Fin _ => s
  | Inf s, Inf s' => s && negb s'
  | _, _ => false
  end.

Definition float_eqb (a b : pyfloat) : bool :=
  match a, b with
  | Fin x, Fin y => Qeq_bool x y
  | Inf s, Inf s' => Bool.eqb s s'
  | _, _ => false
  end.

Definition float_leb (a b : pyfloat) : bool := float_ltb a b || float_eqb a b.

Definition float_of_Z (z : Z) : pyfloat := Fin (inject_Z z).

(** [isinstance(v, (int, float))]; [bool] is a subclass of [int]. The
    numeric value is returned along with the answer. *)
Definition as_number (v : pyval) : option pyfloat :=
  match v with
  | PyBool b => Some (float_of_Z (if b then 1 else 0))
  | PyInt z => Some (float_of_Z z)
  | PyFloat f => Some f
  | _ => None
  end.

Definition is_number (v : pyval) : bool :=
  match as_number v with Some _ => true | None => false end.

(** [v + a] for a float [a], as [spent_amount += amount] computes it. *)
Definition py_add_float (v : pyval) (a : pyfloat) : result pyval :=
  match as_number v with
  | Some x => Ok (PyFloat (float_add x a))
  | None => Raise (TypeError "unsupported operand type(s) for +=")
  end.

(** [a - v] for a float [a]. *)
Definition py_float_sub (a : pyfloat) (v : pyval) : result pyval :=
  match as_number v with
  | Some x => Ok (PyFloat (float_sub a x))
  | None => Raise (TypeError "unsupported operand type(s) for -")
  end.

(** *** [float(s)] for a string [s] *)

Fixpoint digits_value (acc : Z) (s : string) : Z :=
  match s with
  | String c s' => digits_value (10 * acc + digit_val c) s'
  | EmptyString => acc
  end.

(** The longest prefix of digits, and the rest. *)
Fixpoint span_digits (s : string) : string * string :=
  match s with
  | String c s' =>
      if is_digit c then let (d, r) := span_digits s' in (String c d, r)
      else (EmptyString, s)
  | EmptyString => (EmptyString, EmptyString)
  end.

(** Underscores are dropped when each one stands between two digits; any
    other underscore makes the literal invalid. *)
Fixpoint drop_underscores (prev : ascii) (s : string) : option string :=
  match s with
  | String c s' =>
      if Ascii.eqb c "_" then
        if is_digit prev then
          match s' with
          | String c' _ => if is_digit c' then drop_underscores c s' else None
          | EmptyString => None
          end
        else None
      else option_map (String c) (drop_underscores c s')
  | EmptyString => Some EmptyString
  end.

Definition parse_sign (s : string) : bool * string :=
  match s with
  | String "-" s' => (true, s')
  | String "+" s' => (false, s')
  | _ => (false, s)
  end.

(** The optional exponent part: [e] or [E], an optional sign, digits. *)
Definition parse_exponent (s : string) : option Z :=
  match s with
  | EmptyString => Some 0%Z
  | String c s' =>
      if Ascii.eqb (lower c) "e" then
        let (neg, s'') := parse_sign s' in
        let (ds, rest) := span_digits s'' in
        if is_empty ds || negb (is_empty rest) then None
        else Some (if neg then - digits_value 0 ds else digits_value 0 ds)%Z
      else None
  end.

(** [m * 10 ^ e] as a reduced rational. *)
Definition scale10 (m e : Z) : Q :=
  if (0 <=? e)%Z then inject_Z (m * 10 ^ e)
  else Qred (Qmake m (Z.to_pos (10 ^ (- e)))).

Definition parse_decimal (neg : bool) (s : string) : option pyfloat :=
  let (ip, r1) := span_digits s in
  let (fp, r2) :=
    match r1 with
    | String "." r => span_digits r
    | _ => (EmptyString, r1)
    end in
  if is_empty ip && is_empty fp then None
  else
    match parse_exponent r2 with
    | None => None
    | Some e =>
        let m := digits_value 0 (ip ++ fp) in
        let q := scale10 m (e - Z.of_nat (String.length fp)) in
        Some (Fin (if neg then Qred (- q) else q))
    end.

(** The characters [float] skips at both ends of its argument: the
    whitespace of C, and the whitespace above code point 127. *)
Definition is_float_space (c : ascii) : bool :=
  let n := code c in
  ((9 <=? n) && (n <=? 13) || (n =? 32) || (n =? 133) || (n =? 160))%N.

Definition float_of_string (s : string) : option pyfloat :=
  match drop_underscores " " (rstrip is_float_space (lstrip is_float_space s)) with
  | None => None
  | Some t =>
      let (neg, body) := parse_sign t in
      let w := string_lower body in
      if (w =? "inf") || (w =? "infinity") then Some (Inf neg)
      else if w =? "nan" then Some NaN
      else parse_decimal neg body
  end.

(** *** [repr(x)] for a float [x] *)

Fixpoint digits_of_pos_fuel (fuel : nat) (z : Z) (acc : string) : string :=
  match fuel with
  | O => acc
  | S fuel' =>
      if (z <? 10)%Z then String (digit_char z) acc
      else digits_of_pos_fuel fuel' (z / 10) (String (digit_char z) acc)
  end.

(** The decimal digits of [z >= 0], most significant first. *)
Definition digits_of_Z (z : Z) : string :=
  digits_of_pos_fuel (S (Z.to_nat (Z.log2 z))) z EmptyString.

(** The least [k] (up to the fuel) such that [n * 10 ^ k] is a multiple of [d],
    with the quotient. *)
Fixpoint decimal_scale (fuel : nat) (n d : Z) (k : Z) : Z * Z :=
  match fuel with
  | O => ((n / d)%Z, k)
  | S fuel' =>
      if (n mod d =? 0)%Z then ((n / d)%Z, k)
      else decimal_scale fuel' (10 * n) d (k + 1)
  end.

Fixpoint rstrip_zeros (s : string) : string :=
  match s with
  | String c s' =>
      match rstrip_zeros s' with
      | EmptyString => if Ascii.eqb c "0" then EmptyString else String c EmptyString
      | r => String c r
      end
  | EmptyString => EmptyString
  end.

Fixpoint string_take (n : nat) (s : string) : string :=
  match n, s with
  | S n', String c s' => String c (string_take n' s')
  | _, _ => EmptyString
  end.

Fixpoint string_drop (n : nat) (s : string) : string :=
  match n, s with
  | S n', String _ s' => string_drop n' s'
  | _, _ => s
  end.

(** [repr] of a finite non-zero magnitude with digits [ds] (no leading or
    trailing zero) and decimal point position [decpt]: the value is
    [0.ds * 10 ^ decpt]. Exponent notation is used when [decpt > 16] or
    [decpt < -3]. *)
Definition format_digits (ds : string) (decpt : Z) : string :=
  let n := Z.of_nat (String.length ds) in
  if ((-3 <=? decpt) && (decpt <=? 16))%Z then
    if (decpt <=? 0)%Z then
      "0." ++ repeat_char "0" (Z.to_nat (- decpt)) ++ ds
    else if (n <=? decpt)%Z then
      ds ++ repeat_char "0" (Z.to_nat (decpt - n)) ++ ".0"
    else
      string_take (Z.to_nat decpt) ds ++ "." ++ string_drop (Z.to_nat decpt) ds
  else
    let e := (decpt - 1)%Z in
    let es := digits_of_Z (Z.abs e) in
    string_take 1 ds
    ++ (if (1 <? n)%Z then "." ++ string_drop 1 ds else EmptyString)
    ++ "e" ++ (if (e <? 0)%Z then "-" else "+")
    ++ (if (Z.abs e <? 10)%Z then "0" else EmptyString) ++ es.

Definition float_repr (x : pyfloat) : string :=
  match x with
  | NaN => "nan"
  | Inf s => if s then "-inf" else "inf"
  | Fin q =>
      let n := Qnum q in
      let d := Zpos (Qden q) in
      if (n =? 0)%Z then "0.0"
      else
        let (m, k) := decimal_scale (Pos.size_nat (Qden q)) (Z.abs n) d 0 in
        let all := digits_of_Z m in
        let ds := rstrip_zeros all in
        (if (n <? 0)%Z then "-" else EmptyString)
        ++ format_digits ds (Z.of_nat (String.length all) - k)
  end.

(** ** Dates *)

Definition is_leap (y : Z) : bool :=
  ((y mod 4 =? 0) && (negb (y mod 100 =? 0) || (y mod 400 =? 0)))%Z.

Definition days_in_month (y m : Z) : Z :=
  match m with
  | 2 => if is_leap y then 29 else 28
  | 4 | 6 | 9 | 11 => 30
  | _ => 31
  end%Z.

(** The values a [datetime] object can hold. *)
Definition valid_datetime (d : datetime) : bool :=
  ((1 <=? year d) && (year d <=? 9999)
   && (1 <=? month d) && (month d <=? 12)
   && (1 <=? day d) && (day d <=? days_in_month (year d) (month d))
   && (0 <=? hour d) && (hour d <=? 23)
   && (0 <=? minute d) && (minute d <=? 59)
   && (0 <=? second d) && (second d <=? 59)
   && (0 <=? microsecond d) && (microsecond d <=? 999999))%Z.

Definition pad2 (z : Z) : string :=
  String (digit_char (z / 10)) (String (digit_char z) EmptyString).

Definition pad4 (z : Z) : string :=
  String (digit_char (z / 1000)) (String (digit_char (z / 100)) (pad2 z)).

(** [d.strftime('%Y-%m-%d')], with the year padded to four digits as the
    documentation of [%Y] has it; a C library that leaves years below 1000
    unpadded is outside the model. *)
Definition strftime_ymd (d : datetime) : string :=
  pad4 (year d) ++ "-" ++ pad2 (month d) ++ "-" ++ pad2 (day d).

(** The directive [%Y] of [strptime]: exactly four digits. *)
Definition match_Y (s : string) : option (Z * string) :=
  match s with
  | String a (String b (String c (String d r))) =>
      if is_digit a && is_digit b && is_digit c && is_digit d
      then Some (digits_value 0 (String a (String b (String c (String d EmptyString)))), r)
      else None
  | _ => None
  end.

(** The directive [%m] followed by the literal [-]: the alternatives
    [1[0-2]], [0[1-9]], [[1-9]] are tried in this order, and one is kept
    when the [-] follows it. *)
Definition match_m_dash (s : string) : option (Z * string) :=
  let two_digits :=
    match s with
    | String a (String b (String "-" r)) =>
        let v := (10 * digit_val a + digit_val b)%Z in
        if is_digit a && is_digit b && (1 <=? v)%Z && (v <=? 12)%Z
        then Some (v, r) else None
    | _ => None
    end in
  match two_digits, s with
  | Some x, _ => Some x
  | None, String a (String "-" r) =>
      if is_digit a && (1 <=? digit_val a)%Z then Some (digit_val a, r) else None
  | None, _ => None
  end.

(** The directive [%d], last in the format: the alternatives [3[01]],
    [[12]\d], [0[1-9]], [[1-9]], [ [1-9]] are tried in this order and the
    first that matches is kept; the input after it is returned. *)
Definition match_d (s : string) : option (Z * string) :=
  match s with
  | String a r =>
      let one := if is_digit a && (1 <=? digit_val a)%Z
                 then Some (digit_val a, r) else None in
      match r with
      | String b r' =>
          let v := (10 * digit_val a + digit_val b)%Z in
          if is_digit a && is_digit b && (1 <=? v)%Z && (v <=? 31)%Z
          then Some (v, r')
          else
            match one with
            | Some x => Some x
            | None =>
                if Ascii.eqb a " " && is_digit b && (1 <=? digit_val b)%Z
                then Some (digit_val b, r') else None
            end
      | EmptyString => one
      end
  | EmptyString => None
  end.

(** [datetime.strptime(s, '%Y-%m-%d')]; [None] stands for its
    [ValueError]. *)
Definition strptime_ymd (s : string) : option datetime :=
  match match_Y s with
  | Some (y, String "-" r1) =>
      match match_m_dash r1 with
      | Some (m, r2) =>
          match match_d r2 with
          | Some (d, EmptyString) =>
              let dt := mkDatetime y m d 0 0 0 0 in
              if valid_datetime dt then Some dt else None
          | _ => None
          end
      | None => None
      end
  | _ => None
  end.

(** ** transaction.py *)

Module Transaction.

Record t : Type := mk {
  date : datetime;
  transaction_type : string;
  category : string;
  amount : pyfloat;
  description : string
}.

Local Open Scope result_scope.

(** [Transaction.__init__(self, date, transaction_type, category, amount,
    description)] *)
Definition init (date transaction_type category amount description : pyval)
  : result t :=
  (* Validate date *)
  d <- match date with
       | PyStr s =>
           match strptime_ymd s with
           | Some d => Ok d
           | None => Raise (ValueError "Invalid date format. Use YYYY-MM-DD")
           end
       | PyDatetime d => Ok d
       | _ => Raise (TypeError "Date must be datetime or string in YYYY-MM-DD format")
       end ;;
  (* Validate income *)
  ty <- match transaction_type with
        | PyStr s =>
            if (s =? "income") || (s =? "expense") then Ok s
            else Raise (ValueError "Transaction type must be 'income' or 'expense'")
        | _ => Raise (ValueError "Transaction type must be 'income' or 'expense'")
        end ;;
  (* Validate category *)
  c <- match category with
       | PyStr s =>
           if is_empty (strip s)
           then Raise (ValueError "Category must be a non-empty string")
           else Ok s
       | _ => Raise (ValueError "Category must be a non-empty string")
       end ;;
  (* Validate amount *)
  a <- match as_number amount with
       | None => Raise (TypeError "Amount must be a number")
       | Some a =>
           if float_ltb a float_zero
           then Raise (ValueError "Amount must be a non-negative number")
           else Ok a
       end ;;
  (* Validate description *)
  ds <- match description with
        | PyStr s => Ok s
        | _ => Raise (ValueError "Description must be a string.")
        end ;;
  Ok (mk d ty c a ds).

(** [Transaction.get_details(self)]: the dictionary, keys in the order of
    the source. *)
Definition get_details (self : t) : list (string * pyval) :=
  [ ("date", PyStr (strftime_ymd (date self)));
    ("transaction_type", PyStr (transaction_type self));
    ("category", PyStr (category self));
    ("amount", PyFloat (amount self));
    ("description", PyStr (description self)) ].

End Transaction.

(** An argument of [Budget.add_expense]: a [Transaction] object or any other
    value. *)
Inductive pyobj : Type :=
| Obj (t : Transaction.t)
| Val (v : pyval).

(** ** budget.py *)

Module Budget.

(** [spent_amount] holds whatever was last assigned to it:
    [load_budgets] stores the value found in the file as it is. *)
Record t : Type := mk {
  category : string;
  allocated_amount : pyfloat;
  spent_amount : pyval;
  period : string
}.

Local Open Scope result_scope.

(** [Budget.__init__(self, category, allocated_amount, period)] *)
Definition init (category allocated_amount period : pyval) : result t :=
  (* Validate category *)
  c <- match category with
       | PyStr s =>
           if is_empty (strip s)
           then Raise (ValueError "Category must be a non-empty string")
           else Ok s
       | _ => Raise (ValueError "Category must be a non-empty string")
       end ;;
  (* Validate allocated_amount *)
  a <- match as_number allocated_amount with
       | None => Raise (TypeError "Allocated amount must be a number")
       | Some a =>
           if float_leb a float_zero
           then Raise (ValueError "Allocated amount must be positive")
           else Ok a
       end ;;
  (* Validate period *)
  p <- match period with
       | PyStr s => Ok s
       | _ => Raise (TypeError "Period must be a string")
       end ;;
  (* Initialize spent_amount *)
  Ok (mk c a (PyFloat float_zero) p).

(** [Budget.add_expense(self, transaction)]: the outcome and [self] after
    the call. *)
Definition add_expense (self : t) (transaction : pyobj) : result unit * t :=
  match transaction with
  | Val _ => (Raise (TypeError "Input must be a Transaction object"), self)
  | Obj tr =>
      if negb (Transaction.transaction_type tr =? "expense")
      then (Raise (ValueError "Transaction must be an expense"), self)
      else if negb (Transaction.category tr =? category self)
      then (Raise (ValueError "Transaction category must match budget category"), self)
      else
        (* Update spent_amount *)
        match py_add_float (spent_amount self) (Transaction.amount tr) with
        | Ok s => (Ok tt, mk (category self) (allocated_amount self) s (period self))
        | Raise e => (Raise e, self)
        end
  end.

(** [Budget.get_remaining(self)] *)
Definition get_remaining (self : t) : result pyval :=
  py_float_sub (allocated_amount self) (spent_amount self).

(** [Budget.get_details(self)] *)
Definition get_details (self : t) : result (list (string * pyval)) :=
  r <- get_remaining self ;;
  Ok [ ("category", PyStr (category self));
       ("allocated_amount", PyFloat (allocated_amount self));
       ("spent_amount", spent_amount self);
       ("remaining", r);
       ("period", PyStr (period self)) ].

End Budget.

(** ** The [csv] module, dialect [excel]

    [delimiter] is a comma, [quotechar] a double quote, [doublequote] is on,
    [escapechar] is unset, [skipinitialspace] and [strict] are off,
    [lineterminator] is CR LF and [quoting] is [QUOTE_MINIMAL]. *)

Module csv.

Definition delimiter : ascii := ",".
Definition quotechar : ascii := ascii_of_N 34.
Definition CR : ascii := ascii_of_N 13.
Definition LF : ascii := ascii_of_N 10.
Definition lineterminator : string := String CR (String LF EmptyString).
Definition field_size_limit : N := 131072.

(** *** [csv.writer] *)

(** A field is quoted when it holds the delimiter, the quote character or
    a character of the line terminator. *)
Definition special (c : ascii) : bool :=
  Ascii.eqb c delimiter || Ascii.eqb c quotechar
  || Ascii.eqb c CR || Ascii.eqb c LF.

Fixpoint double_quotes (s : string) : string :=
  match s with
  | String c s' =>
      if Ascii.eqb c quotechar
      then String quotechar (String quotechar (double_quotes s'))
      else String c (double_quotes s')
  | EmptyString => EmptyString
  end.

Definition join_append (field : string) : string :=
  if string_existsb special field
  then String quotechar (double_quotes field ++ String quotechar EmptyString)
  else field.

Fixpoint join_fields (fields : list string) : string :=
  match fields with
  | [] => EmptyString
  | [f] => join_append f
  | f :: fs => join_append f ++ String delimiter (join_fields fs)
  end.

(** [writer.writerow(fields)]: the text written. A record that would be
    empty, for a single empty field, is written as two quote characters. *)
Definition writerow (fields : list string) : string :=
  let rec := join_fields fields in
  (match fields, rec with
   | _ :: _, EmptyString => String quotechar (String quotechar EmptyString)
   | _, _ => rec
   end) ++ lineterminator.

(** *** [csv.reader] *)

(** The states of the parser that can be reached when no escape character
    is set. *)
Inductive parser_state : Type :=
| START_RECORD | START_FIELD | IN_FIELD | IN_QUOTED_FIELD
| QUOTE_IN_QUOTED_FIELD | EAT_CRNL.

Record reader : Type := mkReader {
  state : parser_state;
  fields : list string;
  field : string;
  field_len : N
}.

Definition parse_reset : reader := mkReader START_RECORD [] EmptyString 0.

Definition parse_save_field (r : reader) : reader :=
  mkReader (state r) (fields r ++ [field r]) EmptyString 0.

Definition parse_add_char (r : reader) (c : ascii) : result reader :=
  if (field_size_limit <=? field_len r)%N
  then Raise (CsvError "field larger than field limit (131072)")
  else Ok (mkReader (state r) (fields r) (field r ++ String c EmptyString)
             (field_len r + 1)).

Definition set_state (s : parser_state) (r : reader) : reader :=
  mkReader s (fields r) (field r) (field_len r).

Definition is_newline (c : ascii) : bool := Ascii.eqb c LF || Ascii.eqb c CR.

(** [parse_process_char]; [None] is the end-of-line mark the reader feeds
    after the last character of each line. *)
Definition parse_process_char (r : reader) (c : option ascii) : result reader :=
  let end_of_line (r : reader) :=
    Ok (set_state (match c with None => START_RECORD | Some _ => EAT_CRNL end)
          (parse_save_field r)) in
  let start_field (r : reader) :=
    match c with
    | None => end_of_line r
    | Some ch =>
        if is_newline ch then end_of_line r
        else if Ascii.eqb ch quotechar then Ok (set_state IN_QUOTED_FIELD r)
        else if Ascii.eqb ch delimiter then Ok (parse_save_field r)
        else rbind (parse_add_char r ch) (fun r' => Ok (set_state IN_FIELD r'))
    end in
  match state r with
  | START_RECORD =>
      match c with
      | None => Ok r
      | Some ch =>
          if is_newline ch then Ok (set_state EAT_CRNL r)
          else start_field (set_state START_FIELD r)
      end
  | START_FIELD => start_field r
  | IN_FIELD =>
      match c with
      | None => end_of_line r
      | Some ch =>
          if is_newline ch then end_of_line r
          else if Ascii.eqb ch delimiter
          then Ok (set_state START_FIELD (parse_save_field r))
          else parse_add_char r ch
      end
  | IN_QUOTED_FIELD =>
      match c with
      | None => Ok r
      | Some ch =>
          if Ascii.eqb ch quotechar then Ok (set_state QUOTE_IN_QUOTED_FIELD r)
          else parse_add_char r ch
      end
  | QUOTE_IN_QUOTED_FIELD =>
      match c with
      | None => end_of_line r
      | Some ch =>
          if Ascii.eqb ch quotechar
          then rbind (parse_add_char r ch) (fun r' => Ok (set_state IN_QUOTED_FIELD r'))
          else if Ascii.eqb ch delimiter
          then Ok (set_state START_FIELD (parse_save_field r))
          else if is_newline ch then end_of_line r
          else rbind (parse_add_char r ch) (fun r' => Ok (set_state IN_FIELD r'))
      end
  | EAT_CRNL =>
      match c with
      | None => Ok (set_state START_RECORD r)
      | Some ch =>
          if is_newline ch then Ok r
          else Raise (CsvError "new-line character seen in unquoted field")
      end
  end.

(** One line of input: its characters, then the end-of-line mark. *)
Fixpoint parse_line (r : reader) (line : string) : result reader :=
  match line with
  | String c line' => rbind (parse_process_char r (Some c)) (fun r' => parse_line r' line')
  | EmptyString => parse_process_char r None
  end.

Definition at_start (r : reader) : bool :=
  match state r with START_RECORD => true | _ => false end.

(** The rows [csv.reader(lines)] yields, in order, and the exception that
    ends the iteration, if one does. A row is complete when the parser is
    back in [START_RECORD] at the end of a line; input that ends inside a
    quoted field yields the row read so far. *)
Fixpoint rows_from (r : reader) (lines : list string)
  : list (list string) * option exn :=
  match lines with
  | [] =>
      if negb (field_len r =? 0)%N
         || match state r with IN_QUOTED_FIELD => true | _ => false end
      then ([fields (parse_save_field r)], None)
      else ([], None)
  | line :: lines' =>
      match parse_line r line with
      | Raise e => ([], Some e)
      | Ok r' =>
          if at_start r' then
            let (rows, e) := rows_from parse_reset lines' in
            (fields r' :: rows, e)
          else rows_from r' lines'
      end
  end.

Definition reader_rows (lines : list string) : list (list string) * option exn :=
  rows_from parse_reset lines.

End csv.

(** ** Text files *)

(** What a file opened in text mode without [newline] yields when read:
    universal newlines, so CR LF and a lone CR both arrive as LF. *)
Fixpoint translate_newlines (s : string) : string :=
  match s with
  | String c s' =>
      if Ascii.eqb c csv.CR then
        match s' with
        | String c' s'' =>
            if Ascii.eqb c' csv.LF then String csv.LF (translate_newlines s'')
            else String csv.LF (translate_newlines s')
        | EmptyString => String csv.LF EmptyString
        end
      else String c (translate_newlines s')
  | EmptyString => EmptyString
  end.

(** The lines an iteration over the file yields: each ends with its LF,
    except possibly the last. *)
Fixpoint split_lines (cur : string) (s : string) : list string :=
  match s with
  | String c s' =>
      if Ascii.eqb c csv.LF
      then (cur ++ String c EmptyString)%string :: split_lines EmptyString s'
      else split_lines (cur ++ String c EmptyString) s'
  | EmptyString => if is_empty cur then [] else [cur]
  end.

Definition read_lines (text : string) : list string :=
  split_lines EmptyString (translate_newlines text).

(** ** The [json] module

    [json.dump] and [json.load] are modelled at the level of the document:
    a file written by [json.dump(v, f)] holds the document [v], and
    [json.load] returns the document a file holds, or raises
    [JSONDecodeError] when the file holds no JSON document. *)

Module json.

Inductive text : Type :=
| Malformed
| Document (v : pyval).

(** The values [json.dump] can write: a [datetime] is not among them. *)
Fixpoint serializable (v : pyval) : bool :=
  match v with
  | PyDatetime _ => false
  | PyList l => forallb serializable l
  | PyDict d => forallb (fun kv => serializable (snd kv)) d
  | _ => true
  end.

(** [json.dump(v, f)]: what the file holds afterwards, and the outcome. A
    value that cannot be written leaves a truncated document behind and
    raises [TypeError]. *)
Definition dump (v : pyval) : text * result unit :=
  if serializable v then (Document v, Ok tt)
  else (Malformed, Raise (TypeError "Object is not JSON serializable")).

Definition load (t : text) : result pyval :=
  match t with
  | Malformed => Raise JSONDecodeError
  | Document v => Ok v
  end.

End json.

(** [for x in v] *)
Fixpoint chars (s : string) : list pyval :=
  match s with
  | String c s' => PyStr (String c EmptyString) :: chars s'
  | EmptyString => []
  end.

Definition py_iter (v : pyval) : result (list pyval) :=
  match v with
  | PyList l => Ok l
  | PyDict d => Ok (map (fun kv => PyStr (fst kv)) d)
  | PyStr s => Ok (chars s)
  | _ => Raise (TypeError "object is not iterable")
  end.

Fixpoint assoc_lookup (k : string) (d : list (string * pyval)) : option pyval :=
  match d with
  | (k', v) :: d' => if k' =? k then Some v else assoc_lookup k d'
  | [] => None
  end.

(** [v[k]] for a string [k] *)
Definition py_getitem (v : pyval) (k : string) : result pyval :=
  match v with
  | PyDict d =>
      match assoc_lookup k d with
      | Some x => Ok x
      | None => Raise (KeyError k)
      end
  | PyStr _ | PyList _ => Raise (TypeError "indices must be integers or slices, not str")
  | _ => Raise (TypeError "object is not subscriptable")
  end.

(** ** The file system and the console *)

(** A path names no file, or a file with its content and whether [open]
    succeeds on it for reading and for writing. *)
Inductive file (A : Type) : Type :=
| NoFile
| File (readable writable : bool) (content : A).
Arguments NoFile {A}.
Arguments File {A} readable writable content.

Definition exists_ {A} (f : file A) : bool :=
  match f with NoFile => false | File _ _ _ => true end.

Definition open_read {A} (f : file A) : result A :=
  match f with
  | NoFile => Raise (OSError "No such file or directory")
  | File r _ c => if r then Ok c else Raise (OSError "Permission denied")
  end.

(** [open(path, mode='w')] followed by writing [c] *)
Definition open_write {A} (f : file A) (c : A) : result (file A) :=
  match f with
  | NoFile => Ok (File true true c)
  | File r w _ => if w then Ok (File r w c) else Raise (OSError "Permission denied")
  end.

(** What [print] is called with. *)
Inductive message : Type :=
| NoBudgetFound (category : string)
| SkippingTransactionRow (row : list string)
| SkippingBudgetEntry (entry : pyval)
| ErrorSavingTransactions (e : exn)
| ErrorLoadingTransactions (e : exn)
| ErrorSavingBudgets (e : exn)
| ErrorLoadingBudgets (e : exn)
| ErrorLoadingOnStartup (e : exn).

(** [s == v] for a string [s] and any value [v] *)
Definition str_eq (s : string) (v : pyval) : bool :=
  match v with PyStr s' => s =? s' | _ => false end.

(** ** finance_manager.py *)

Module FinanceManager.

(** The manager with the world it acts on: [transaction_file] and
    [budget_file] stand for the files at the paths of these names, and
    [stdout] for what has been printed. *)
Record t : Type := mk {
  transactions : list Transaction.t;
  budgets : list Budget.t;
  transaction_file : file string;
  budget_file : file json.text;
  stdout : list message
}.

(** *** Methods as state transformers that may raise *)

Definition M (A : Type) : Type := t -> result A * t.

Definition ret {A} (a : A) : M A := fun self => (Ok a, self).

Definition bind {A B} (m : M A) (k : A -> M B) : M B :=
  fun self =>
    match m self with
    | (Ok a, self') => k a self'
    | (Raise e, self') => (Raise e, self')
    end.

Definition raise {A} (e : exn) : M A := fun self => (Raise e, self).

Definition lift {A} (r : result A) : M A := fun self => (r, self).

Definition gets {A} (f : t -> A) : M A := fun self => (Ok (f self), self).

(** [try: body except (classes): handler] *)
Definition try_except {A} (body : M A) (classes : exn -> bool)
  (handler : exn -> M A) : M A :=
  fun self =>
    match body self with
    | (Raise e, self') => if classes e then handler e self' else (Raise e, self')
    | r => r
    end.

Declare Scope M_scope.
Delimit Scope M_scope with M.
Bind Scope M_scope with M.
Notation "x <- m ;; k" := (bind m (fun x => k))
  (at level 61, m at next level, right associativity) : M_scope.
Notation "m ;; k" := (bind m (fun _ => k))
  (at level 61, right associativity) : M_scope.
Local Open Scope M_scope.

Fixpoint for_each {A} (l : list A) (body : A -> M unit) : M unit :=
  match l with
  | [] => ret tt
  | x :: l' => body x ;; for_each l' body
  end.

Definition set_transactions (l : list Transaction.t) : M unit :=
  fun self => (Ok tt, mk l (budgets self) (transaction_file self)
                        (budget_file self) (stdout self)).

Definition set_budgets (l : list Budget.t) : M unit :=
  fun self => (Ok tt, mk (transactions self) l (transaction_file self)
                        (budget_file self) (stdout self)).

Definition set_transaction_file (f : file string) : M unit :=
  fun self => (Ok tt, mk (transactions self) (budgets self) f
                        (budget_file self) (stdout self)).

Definition set_budget_file (f : file json.text) : M unit :=
  fun self => (Ok tt, mk (transactions self) (budgets self)
                        (transaction_file self) f (stdout self)).

Definition print (m : message) : M unit :=
  fun self => (Ok tt, mk (transactions self) (budgets self)
                        (transaction_file self) (budget_file self)
                        (stdout self ++ [m])).

Definition append_transaction (tr : Transaction.t) : M unit :=
  l <- gets transactions ;; set_transactions (l ++ [tr]).

Definition append_budget (b : Budget.t) : M unit :=
  l <- gets budgets ;; set_budgets (l ++ [b]).

(** *** add_transaction *)

(** The loop [for budget in self.budgets: if budget.category == category:
    budget.add_expense(new_transaction); break]. [None] when the loop ends
    without [break]; otherwise the outcome of [add_expense] and the
    budgets after the call. *)
Fixpoint add_expense_first (bs : list Budget.t) (category : pyval)
  (new_transaction : Transaction.t) : option (result unit * list Budget.t) :=
  match bs with
  | [] => None
  | budget :: bs' =>
      if str_eq (Budget.category budget) category
      then
        let (r, budget') := Budget.add_expense budget (Obj new_transaction) in
        Some (r, budget' :: bs')
      else
        option_map (fun '(r, l) => (r, budget :: l))
          (add_expense_first bs' category new_transaction)
  end.

Definition category_text (category : pyval) : string :=
  match category with PyStr s => s | _ => EmptyString end.

Definition add_transaction (date transaction_type category amount description : pyval)
  : M unit :=
  new_transaction <- lift (Transaction.init date transaction_type category
                             amount description) ;;
  append_transaction new_transaction ;;
  if str_eq "expense" transaction_type then
    bs <- gets budgets ;;
    match add_expense_first bs category new_transaction with
    | Some (r, bs') => set_budgets bs' ;; lift r
    | None => print (NoBudgetFound (category_text category))
    end
  else ret tt.

(** *** add_budget *)

Definition add_budget (category allocated_amount period : pyval) : M unit :=
  bs <- gets budgets ;;
  if existsb (fun budget => str_eq (Budget.category budget) category) bs
  then raise (ValueError ("Budget for category '" ++ category_text category
                            ++ "' already exists"))
  else
    new_budget <- lift (Budget.init category allocated_amount period) ;;
    append_budget new_budget.

(** *** save_transactions *)

Definition header : list string :=
  ["date"; "transaction_type"; "category"; "amount"; "description"].

(** The row written for a transaction: the entries of [get_details], the
    amount as [str(amount)], which the writer applies to a field that is
    not a string. *)
Definition transaction_row (tr : Transaction.t) : list string :=
  [ strftime_ymd (Transaction.date tr);
    Transaction.transaction_type tr;
    Transaction.category tr;
    float_repr (Transaction.amount tr);
    Transaction.description tr ].

Fixpoint write_rows (l : list Transaction.t) : string :=
  match l with
  | [] => EmptyString
  | tr :: l' => (csv.writerow (transaction_row tr) ++ write_rows l')%string
  end.

Definition save_transactions : M unit :=
  try_except
    (f <- gets transaction_file ;;
     l <- gets transactions ;;
     f' <- lift (open_write f (csv.writerow header ++ write_rows l)%string) ;;
     set_transaction_file f')
    is_OSError
    (fun e => print (ErrorSavingTransactions e)).

(** *** load_transactions *)

(** The body of [for row in reader]. *)
Definition load_row (row : list string) : M unit :=
  match row with
  | [r0; r1; r2; r3; r4] =>
      try_except
        (parsed_date <- lift (match strptime_ymd r0 with
                              | Some d => Ok d
                              | None => Raise (ValueError "time data does not match format")
                              end) ;;
         amount <- lift (match float_of_string r3 with
                         | Some a => Ok a
                         | None => Raise (ValueError "could not convert string to float")
                         end) ;;
         transaction <- lift (Transaction.init (PyDatetime parsed_date) (PyStr r1)
                                (PyStr r2) (PyFloat amount) (PyStr r4)) ;;
         append_transaction transaction)
        (fun e => is_ValueError e || is_TypeError e)
        (fun _ => print (SkippingTransactionRow row))
  | _ => print (SkippingTransactionRow row)
  end.

Definition load_transactions : M unit :=
  set_transactions [] ;;
  f <- gets transaction_file ;;
  if negb (exists_ f) then ret tt
  else
    try_except
      (text <- lift (open_read f) ;;
       match csv.reader_rows (read_lines text) with
       | ([], None) => ret tt  (* next(reader) raises StopIteration *)
       | ([], Some e) => raise e
       | (_ :: rows, err) =>
           for_each rows load_row ;;
           match err with
           | Some e => raise e
           | None => ret tt
           end
       end)
      is_OSError
      (fun e => print (ErrorLoadingTransactions e)).

(** *** save_budgets *)

Fixpoint budget_data (bs : list Budget.t) : result (list pyval) :=
  match bs with
  | [] => Ok []
  | budget :: bs' =>
      rbind (Budget.get_details budget) (fun details =>
      rbind (budget_data bs') (fun l => Ok (PyDict details :: l)))
  end.

Definition save_budgets : M unit :=
  bs <- gets budgets ;;
  data <- lift (budget_data bs) ;;
  try_except
    (f <- gets budget_file ;;
     let (document, outcome) := json.dump (PyList data) in
     f' <- lift (open_write f document) ;;
     set_budget_file f' ;;
     lift outcome)
    is_OSError
    (fun e => print (ErrorSavingBudgets e)).

(** *** load_budgets *)

(** The body of [for budget_dict in budget_data]. *)
Definition load_entry (budget_dict : pyval) : M unit :=
  try_except
    (budget <- lift (
       rbind (py_getitem budget_dict "category") (fun c =>
       rbind (py_getitem budget_dict "allocated_amount") (fun a =>
       rbind (py_getitem budget_dict "period") (fun p =>
       rbind (Budget.init c a p) (fun budget =>
       rbind (py_getitem budget_dict "spent_amount") (fun s =>
       Ok (Budget.mk (Budget.category budget) (Budget.allocated_amount budget)
             s (Budget.period budget)))))))) ;;
     append_budget budget)
    (fun e => is_KeyError e || is_ValueError e)
    (fun _ => print (SkippingBudgetEntry budget_dict)).

Definition load_budgets : M unit :=
  set_budgets [] ;;
  f <- gets budget_file ;;
  if negb (exists_ f) then ret tt
  else
    try_except
      (text <- lift (open_read f) ;;
       budget_data <- lift (json.load text) ;;
       entries <- lift (py_iter budget_data) ;;
       for_each entries load_entry)
      is_OSError
      (fun e => print (ErrorLoadingBudgets e)).

(** *** __init__ *)

(** The manager created in a world with the two files as given. *)
Definition init (tf : file string) (bf : file json.text) : t :=
  snd (try_except (load_transactions ;; load_budgets)
         (fun _ => true)
         (fun e => print (ErrorLoadingOnStartup e))
         (mk [] [] tf bf [])).

End FinanceManager.


(** ** Formatting with [.2f] *)

(** The integer nearest to [n / d], for [n >= 0] and [d > 0]; of two
    integers equally near, the even one. *)
Definition round_half_even (n d : Z) : Z :=
  let f := (n / d)%Z in
  let r := (n mod d)%Z in
  if (2 * r <? d)%Z then f
  else if (d <? 2 * r)%Z then (f + 1)%Z
  else if Z.even f then f else (f + 1)%Z.

(** [format(x, '.2f')] for a float [x]: the value rounded to two decimals,
    all the digits of the integer part, and the sign of [x] even when the
    digits are all zero. *)
Definition format_2f (x : pyfloat) : string :=
  match x with
  | Fin q =>
      let n := round_half_even (Z.abs (Qnum q) * 100) (Z.pos (Qden q)) in
      (if Qltb q 0%Q then "-" else EmptyString)
      ++ digits_of_Z (n / 100) ++ "." ++ pad2 (n mod 100)
  | Inf s => if s then "-inf" else "inf"
  | NaN => "nan"
  end.

(** [format(v, '.2f')] for any value: an [int] or a [bool] is formatted as
    the float of the same value, a [str] rejects the format code, a
    [datetime] takes the format for a [strftime] format, and the other
    types take no format at all. *)
Definition py_format_2f (v : pyval) : result string :=
  match v with
  | PyStr _ => Raise (ValueError "Unknown format code 'f' for object of type 'str'")
  | PyDatetime _ => Ok ".2f"
  | _ =>
      match as_number v with
      | Some x => Ok (format_2f x)
      | None => Raise (TypeError "unsupported format string passed to __format__")
      end
  end.

(** ** [__str__] of the two classes *)

(** [Transaction.__str__(self)] *)
Definition Transaction_str (self : Transaction.t) : string :=
  strftime_ymd (Transaction.date self) ++ " | "
  ++ Transaction.transaction_type self ++ " | "
  ++ Transaction.category self ++ " | $"
  ++ format_2f (Transaction.amount self) ++ " | "
  ++ Transaction.description self.

(** [Budget.__str__(self)] *)
Definition Budget_str (self : Budget.t) : result string :=
  rbind (Budget.get_remaining self) (fun remaining =>
  rbind (py_format_2f (Budget.spent_amount self)) (fun spent =>
  rbind (py_format_2f remaining) (fun rest =>
  let result :=
    (Budget.category self ++ ": $" ++ format_2f (Budget.allocated_amount self)
     ++ " allocated, $" ++ spent ++ " spent, $" ++ rest ++ " remaining")%string in
  Ok (if is_empty (Budget.period self) then result
      else (result ++ ", Period: " ++ Budget.period self)%string)))).

(** ** Dictionaries with string keys

    A [dict] is kept as the list of its items in insertion order: a new key
    goes to the end, a key that is present keeps its place. *)

Fixpoint dict_get {V} (d : list (string * V)) (k : string) (default : V) : V :=
  match d with
  | (k', v) :: d' => if k' =? k then v else dict_get d' k default
  | [] => default
  end.

Fixpoint dict_contains {V} (d : list (string * V)) (k : string) : bool :=
  match d with
  | (k', _) :: d' => (k' =? k) || dict_contains d' k
  | [] => false
  end.

Fixpoint dict_set {V} (d : list (string * V)) (k : string) (v : V)
  : list (string * V) :=
  match d with
  | (k', v') :: d' =>
      if k' =? k then (k', v) :: d' else (k', v') :: dict_set d' k v
  | [] => [(k, v)]
  end.

(** [sorted(l)] for a list of strings, which compare by code points. Equal
    strings cannot be told apart, so the result does not depend on the
    sorting method; insertion is used here. *)
Fixpoint insert_sorted (s : string) (l : list string) : list string :=
  match l with
  | x :: l' => if String.leb s x then s :: l else x :: insert_sorted s l'
  | [] => [s]
  end.

Fixpoint sorted (l : list string) : list string :=
  match l with
  | x :: l' => insert_sorted x (sorted l')
  | [] => []
  end.

(** [d.strftime('%Y-%m')], the year padded as in [strftime_ymd]. *)
Definition strftime_ym (d : datetime) : string :=
  pad4 (year d) ++ "-" ++ pad2 (month d).

(** [s.lower()] on the code points below 256: the letters A to Z and the
    capital letters of Latin-1. *)
Definition lower_latin1 (c : ascii) : ascii :=
  let n := code c in
  if ((65 <=? n) && (n <=? 90) || (192 <=? n) && (n <=? 222) && negb (n =? 215))%N
  then ascii_of_N (n + 32) else c.

Fixpoint str_lower (s : string) : string :=
  match s with
  | String c s' => String (lower_latin1 c) (str_lower s')
  | EmptyString => EmptyString
  end.

(** ** finance_manager.py: the methods that show the data *)

Module Console.

(** What a method prints, one string for each call of [print], and how it
    ends. These methods leave the manager as it is. *)
Definition printed : Type := list string * result unit.

Definition say (s : string) : printed := ([s], Ok tt).

(** *** view_transactions *)

Definition view_transactions (self : FinanceManager.t) : printed :=
  match FinanceManager.transactions self with
  | [] => say "No transactions found"
  | ts => (map Transaction_str ts, Ok tt)
  end.

(** *** view_budgets *)

(** [for budget in self.budgets: print(budget)] *)
Fixpoint print_budgets (bs : list Budget.t) : printed :=
  match bs with
  | [] => ([], Ok tt)
  | budget :: bs' =>
      match Budget_str budget with
      | Ok s => let (out, r) := print_budgets bs' in (s :: out, r)
      | Raise e => ([], Raise e)
      end
  end.

Definition view_budgets (self : FinanceManager.t) : printed :=
  match FinanceManager.budgets self with
  | [] => say "No budgets found"
  | bs => print_budgets bs
  end.

(** *** report_totals *)

(** The loop over the transactions, from the totals so far. *)
Fixpoint totals (ts : list Transaction.t) (total_income total_expenses : pyfloat)
  : pyfloat * pyfloat :=
  match ts with
  | [] => (total_income, total_expenses)
  | transaction :: ts' =>
      if Transaction.transaction_type transaction =? "income" then
        totals ts' (float_add total_income (Transaction.amount transaction))
          total_expenses
      else if Transaction.transaction_type transaction =? "expense" then
        totals ts' total_income
          (float_add total_expenses (Transaction.amount transaction))
      else totals ts' total_income total_expenses
  end.

Definition report_totals (self : FinanceManager.t) : printed :=
  let (total_income, total_expenses) :=
    totals (FinanceManager.transactions self) float_zero float_zero in
  if float_eqb total_income float_zero && float_eqb total_expenses float_zero
  then say "No transactions available for report"
  else
    let net := float_sub total_income total_expenses in
    say ("Total Income: $" ++ format_2f total_income
         ++ ", Total Expenses: $" ++ format_2f total_expenses
         ++ ", Net: $" ++ format_2f net).

(** *** report_category_spending *)

(** The loop that fills [category_totals]. *)
Fixpoint category_totals (ts : list Transaction.t)
  (acc : list (string * pyfloat)) : list (string * pyfloat) :=
  match ts with
  | [] => acc
  | transaction :: ts' =>
      if Transaction.transaction_type transaction =? "expense" then
        let category := Transaction.category transaction in
        let amount := Transaction.amount transaction in
        category_totals ts'
          (dict_set acc category (float_add (dict_get acc category float_zero) amount))
      else category_totals ts' acc
  end.

Definition category_line (item : string * pyfloat) : string :=
  fst item ++ ": $" ++ format_2f (snd item).

Definition report_category_spending (self : FinanceManager.t) : printed :=
  match category_totals (FinanceManager.transactions self) [] with
  | [] => say "No expenses available for report"
  | items => ("Category Spending Breakdown:" :: map category_line items, Ok tt)
  end.

(** *** report_monthly_summary *)

(** The inner dictionary of a month, with its two keys. *)
Record month_totals : Type := mkTotals {
  income : pyfloat;
  expenses : pyfloat
}.

(** The loop that fills [monthly_totals]. *)
Fixpoint monthly_totals (ts : list Transaction.t)
  (acc : list (string * month_totals)) : list (string * month_totals) :=
  match ts with
  | [] => acc
  | transaction :: ts' =>
      let month := strftime_ym (Transaction.date transaction) in
      let acc1 :=
        if dict_contains acc month then acc
        else dict_set acc month (mkTotals float_zero float_zero) in
      let entry := dict_get acc1 month (mkTotals float_zero float_zero) in
      let amount := Transaction.amount transaction in
      monthly_totals ts'
        (if Transaction.transaction_type transaction =? "income" then
           dict_set acc1 month (mkTotals (float_add (income entry) amount) (expenses entry))
         else if Transaction.transaction_type transaction =? "expense" then
           dict_set acc1 month (mkTotals (income entry) (float_add (expenses entry) amount))
         else acc1)
  end.

Definition month_line (d : list (string * month_totals)) (month : string) : string :=
  let totals := dict_get d month (mkTotals float_zero float_zero) in
  (month ++ ": Income: $" ++ format_2f (income totals)
   ++ ", Expenses: $" ++ format_2f (expenses totals))%string.

Definition report_monthly_summary (self : FinanceManager.t) : printed :=
  match monthly_totals (FinanceManager.transactions self) [] with
  | [] => say "No transactions available for report"
  | d => ("Monthly Summary:" :: map (month_line d) (sorted (map fst d)), Ok tt)
  end.

(** *** visualize_category_spending *)

Section Chart.

(** The calls of [matplotlib.pyplot] that draw the pie of the amounts with
    the categories as labels and save it as an image: they are not
    modelled, they succeed or raise. *)
Variable pie_chart : list pyfloat -> list string -> result unit.

Definition visualize_category_spending (self : FinanceManager.t) : printed :=
  match category_totals (FinanceManager.transactions self) [] with
  | [] => say "No expenses available for visualization"
  | items =>
      match pie_chart (map snd items) (map fst items) with
      | Ok _ => say "Pie chart saved to data/category_spending_pie.png"
      | Raise e => ([], Raise e)
      end
  end.

End Chart.

End Console.

(** ** finance_manager.py: the menu *)

Module Menu.

(** What appears on the console while the menu runs. *)
Inductive output : Type :=
| Said (m : message)       (* what a method of the manager prints *)
| Line (s : string)        (* [print(s)] *)
| InvalidInput (e : exn)   (* [print(f"Invalid input: {e}")] *)
| Prompt (s : string).     (* the prompt of [input(s)] *)

(** The manager, the lines the user is still to type, and the console. *)
Record world : Type := mkWorld {
  manager : FinanceManager.t;
  stdin : list string;
  console : list output
}.

(** What ends a computation early: [input] at the end of the input, or an
    exception of the manager. *)
Inductive interrupt : Type :=
| EOFError
| Uncaught (e : exn).

Inductive outcome (A : Type) : Type :=
| Value (a : A)
| Stop (i : interrupt).
Arguments Value {A} a.
Arguments Stop {A} i.

Definition IO (A : Type) : Type := world -> outcome A * world.

Definition ret {A} (a : A) : IO A := fun w => (Value a, w).

Definition bind {A B} (m : IO A) (k : A -> IO B) : IO B :=
  fun w =>
    match m w with
    | (Value a, w') => k a w'
    | (Stop i, w') => (Stop i, w')
    end.

Declare Scope IO_scope.
Delimit Scope IO_scope with IO.
Bind Scope IO_scope with IO.
Notation "x <- m ;; k" := (bind m (fun x => k))
  (at level 61, m at next level, right associativity) : IO_scope.
Notation "m ;; k" := (bind m (fun _ => k))
  (at level 61, right associativity) : IO_scope.
Local Open Scope IO_scope.

Definition put (o : output) : IO unit :=
  fun w => (Value tt, mkWorld (manager w) (stdin w) (console w ++ [o])).

Definition print (s : string) : IO unit := put (Line s).

Fixpoint print_all (l : list string) : IO unit :=
  match l with
  | [] => ret tt
  | s :: l' => print s ;; print_all l'
  end.

(** [input(prompt)] *)
Definition input (prompt : string) : IO string :=
  fun w =>
    match stdin w with
    | line :: rest =>
        (Value line, mkWorld (manager w) rest (console w ++ [Prompt prompt]))
    | [] =>
        (Stop EOFError, mkWorld (manager w) [] (console w ++ [Prompt prompt]))
    end.

Definition raise {A} (e : exn) : IO A := fun w => (Stop (Uncaught e), w).

(** A call of a method of the manager: what the method adds to [stdout]
    appears on the console. *)
Definition call {A} (m : FinanceManager.M A) : IO A :=
  fun w =>
    let (r, manager') := m (manager w) in
    let said := skipn (length (FinanceManager.stdout (manager w)))
                  (FinanceManager.stdout manager') in
    (match r with Ok a => Value a | Raise e => Stop (Uncaught e) end,
     mkWorld manager' (stdin w) (console w ++ map Said said)).

(** A call of a method that only prints. *)
Definition show (m : FinanceManager.t -> Console.printed) : IO unit :=
  fun w =>
    let (lines, r) := m (manager w) in
    (match r with Ok a => Value a | Raise e => Stop (Uncaught e) end,
     mkWorld (manager w) (stdin w) (console w ++ map Line lines)).

(** [try: body except ValueError as e: print(f"Invalid input: {e}")] *)
Definition try_ValueError (body : IO unit) : IO unit :=
  fun w =>
    match body w with
    | (Stop (Uncaught e), w') =>
        if is_ValueError e then put (InvalidInput e) w'
        else (Stop (Uncaught e), w')
    | r => r
    end.

Definition menu : list string :=
  [ String csv.LF "--- Personal Finance Manager ---";
    "1. Add transaction";
    "2. Add budget";
    "3. View transactions";
    "4. View budgets";
    "5. Save data";
    "6. Load data";
    "7. Report: Total Income and Expenses";
    "8. Report: Category Spending Breakdown";
    "9. Report: Monthly Summary";
    "10. Visualize: Category Spending Pie Chart";
    "11. Exit" ].

(** The branch of choice 1. *)
Definition enter_transaction : IO unit :=
  try_ValueError
    (date_str <- input "Enter date (YYYY-MM-DD): " ;;
     date <- match strptime_ymd (strip date_str) with
             | Some d => ret d
             | None => raise (ValueError "time data does not match format")
             end ;;
     transaction_type <- input "Enter type (income/expense): " ;;
     category <- input "Enter category: " ;;
     amount_str <- input "Enter amount: " ;;
     amount <- match float_of_string amount_str with
               | Some a => ret a
               | None => raise (ValueError "could not convert string to float")
               end ;;
     description <- input "Enter description (optional): " ;;
     call (FinanceManager.add_transaction (PyDatetime date)
             (PyStr (strip (str_lower transaction_type)))
             (PyStr (strip category)) (PyFloat amount)
             (PyStr (strip description)))).

(** The branch of choice 2. *)
Definition enter_budget : IO unit :=
  try_ValueError
    (category <- input "Enter budget category: " ;;
     amount_str <- input "Enter allocated amount: " ;;
     allocated_amount <- match float_of_string amount_str with
                         | Some a => ret a
                         | None => raise (ValueError "could not convert string to float")
                         end ;;
     period <- input "Enter budget period (optional): " ;;
     call (FinanceManager.add_budget (PyStr (strip category))
             (PyFloat allocated_amount) (PyStr (strip period)))).

Section Loop.

Variable pie_chart : list pyfloat -> list string -> result unit.

(** One round of [while True]: [true] when the loop goes on, [false] after
    [break]. *)
Definition round : IO bool :=
  print_all menu ;;
  line <- input "Enter your choice: " ;;
  let choice := strip line in
  if choice =? "1" then enter_transaction ;; ret true
  else if choice =? "2" then enter_budget ;; ret true
  else if choice =? "3" then show Console.view_transactions ;; ret true
  else if choice =? "4" then show Console.view_budgets ;; ret true
  else if choice =? "5" then
    call FinanceManager.save_transactions ;;
    call FinanceManager.save_budgets ;;
    print "Data saved successfully" ;; ret true
  else if choice =? "6" then
    call FinanceManager.load_transactions ;;
    call FinanceManager.load_budgets ;;
    print "Data loaded successfully" ;; ret true
  else if choice =? "7" then show Console.report_totals ;; ret true
  else if choice =? "8" then show Console.report_category_spending ;; ret true
  else if choice =? "9" then show Console.report_monthly_summary ;; ret true
  else if choice =? "10" then
    show (Console.visualize_category_spending pie_chart) ;; ret true
  else if choice =? "11" then print "Exiting. Goodbye!" ;; ret false
  else print "Invalid choice. Please try again." ;; ret true.

(** The loop, for at most [fuel] rounds; [None] when they do not suffice. *)
Fixpoint loop (fuel : nat) (w : world) : option (outcome unit * world) :=
  match fuel with
  | O => None
  | S fuel' =>
      match round w with
      | (Value true, w') => loop fuel' w'
      | (Value false, w') => Some (Value tt, w')
      | (Stop i, w') => Some (Stop i, w')
      end
  end.

(** [FinanceManager.run_menu(self)]: every round reads a line, so one round
    more than there are lines to read is enough. *)
Definition run_menu (w : world) : option (outcome unit * world) :=
  loop (S (length (stdin w))) w.

End Loop.

End Menu.
(** * Notions used in the statements *)

(** ** Arguments and invariants of the two classes *)

(** The errors a constructor reports for a bad argument. *)
Definition validation_error (e : exn) : bool :=
  match e with ValueError _ | TypeError _ => true | _ => false end.

(** The date a [date] argument stands for: a [datetime] object, or a
    string that [strptime(_, '%Y-%m-%d')] parses. *)
Definition date_of (date : pyval) : option datetime :=
  match date with
  | PyDatetime d => Some d
  | PyStr s => strptime_ymd s
  | _ => None
  end.

(** The strings of the form YYYY-MM-DD: ten characters, digits but for the
    two dashes. *)
Definition iso_form (s : string) : bool :=
  match s with
  | String y1 (String y2 (String y3 (String y4 (String a (String m1 (String m2
      (String b (String d1 (String d2 EmptyString))))))))) =>
      is_digit y1 && is_digit y2 && is_digit y3 && is_digit y4
      && Ascii.eqb a "-" && is_digit m1 && is_digit m2
      && Ascii.eqb b "-" && is_digit d1 && is_digit d2
  | _ => false
  end.

(** What holds of every [Transaction] the constructor returns. *)
Definition transaction_ok (t : Transaction.t) : Prop :=
  (Transaction.transaction_type t = "income"
   \/ Transaction.transaction_type t = "expense")
  /\ is_empty (strip (Transaction.category t)) = false
  /\ float_ltb (Transaction.amount t) float_zero = false.

(** What holds of every [Budget] built by the constructor and updated by
    [add_expense]. *)
Definition budget_ok (b : Budget.t) : Prop :=
  is_empty (strip (Budget.category b)) = false
  /\ float_leb (Budget.allocated_amount b) float_zero = false
  /\ is_number (Budget.spent_amount b) = true.

(** A file on which both [open(_, 'w')] and [open(_, 'r')] succeed. *)
Definition usable {A} (f : file A) : bool :=
  match f with
  | NoFile => true
  | File r w _ => r && w
  end.

Definition categories (self : FinanceManager.t) : list string :=
  map Budget.category (FinanceManager.budgets self).

(** ** The budget file *)

(** The record [save_budgets] writes for a budget, with [remaining] under
    the key of this name. *)
Definition budget_entry (b : Budget.t) (remaining : pyval) : pyval :=
  PyDict [ ("category", PyStr (Budget.category b));
           ("allocated_amount", PyFloat (Budget.allocated_amount b));
           ("spent_amount", Budget.spent_amount b);
           ("remaining", remaining);
           ("period", PyStr (Budget.period b)) ].

(** The records of a budget file that holds the budgets [bs], the i-th one
    with the i-th value of [rs] under the key [remaining]. *)
Fixpoint budget_entries (bs : list Budget.t) (rs : list pyval) : list pyval :=
  match bs, rs with
  | b :: bs', r :: rs' => budget_entry b r :: budget_entries bs' rs'
  | _, _ => []
  end.

(** The manager [self] next to a budget file that holds [doc]. *)
Definition with_budget_file (self : FinanceManager.t) (doc : pyval)
  : FinanceManager.t :=
  FinanceManager.mk (FinanceManager.transactions self)
    (FinanceManager.budgets self) (FinanceManager.transaction_file self)
    (File true true (json.Document doc)) (FinanceManager.stdout self).

(** ** Rows of the transaction file *)

(** The transaction a row of the file stands for, if any: what the [try]
    block of [load_transactions] computes. *)
Definition parse_row (row : list string) : option Transaction.t :=
  match row with
  | [r0; r1; r2; r3; r4] =>
      match strptime_ymd r0, float_of_string r3 with
      | Some d, Some a =>
          match Transaction.init (PyDatetime d) (PyStr r1) (PyStr r2)
                  (PyFloat a) (PyStr r4) with
          | Ok t => Some t
          | Raise _ => None
          end
      | _, _ => None
      end
  | _ => None
  end.

Fixpoint parsed_rows (rows : list (list string)) : list Transaction.t :=
  match rows with
  | [] => []
  | row :: rows' =>
      match parse_row row with
      | Some t => t :: parsed_rows rows'
      | None => parsed_rows rows'
      end
  end.

Fixpoint skipped_rows (rows : list (list string)) : list message :=
  match rows with
  | [] => []
  | row :: rows' =>
      match parse_row row with
      | Some _ => skipped_rows rows'
      | None => SkippingTransactionRow row :: skipped_rows rows'
      end
  end.

(** ** Managers whose budgets are in order *)

(** The budgets of a manager are in order, no two of them have the same
    category, and its budget file, when there is one, holds the records of
    such budgets. *)
Definition budgets_unique (bs : list Budget.t) : Prop :=
  Forall budget_ok bs /\ NoDup (map Budget.category bs).

Definition own_budget_file (f : file json.text) : Prop :=
  match f with
  | NoFile => True
  | File _ _ t =>
      exists bs rs,
        t = json.Document (PyList (budget_entries bs rs))
        /\ length rs = length bs
        /\ budgets_unique bs
  end.

Definition invariant (self : FinanceManager.t) : Prop :=
  budgets_unique (FinanceManager.budgets self)
  /\ own_budget_file (FinanceManager.budget_file self).

(** One call of a method of the manager. *)
Inductive step : FinanceManager.t -> FinanceManager.t -> Prop :=
| step_add_transaction (date transaction_type category amount description : pyval)
    (self : FinanceManager.t) :
    step self (snd (FinanceManager.add_transaction date transaction_type category
                      amount description self))
| step_add_budget (category allocated_amount period : pyval)
    (self : FinanceManager.t) :
    step self (snd (FinanceManager.add_budget category allocated_amount period self))
| step_save_transactions (self : FinanceManager.t) :
    step self (snd (FinanceManager.save_transactions self))
| step_save_budgets (self : FinanceManager.t) :
    step self (snd (FinanceManager.save_budgets self))
| step_load_transactions (self : FinanceManager.t) :
    step self (snd (FinanceManager.load_transactions self))
| step_load_budgets (self : FinanceManager.t) :
    step self (snd (FinanceManager.load_budgets self)).

Inductive reachable (start : FinanceManager.t) : FinanceManager.t -> Prop :=
| reachable_start : reachable start start
| reachable_step (self self' : FinanceManager.t) :
    reachable start self -> step self self' -> reachable start self'.

(** ** The reader, one character at a time *)

(** The characters of (a part of) a line, without the end-of-line mark. *)
Fixpoint feed (r : csv.reader) (s : string) : result csv.reader :=
  match s with
  | String c s' => rbind (csv.parse_process_char r (Some c)) (fun r' => feed r' s')
  | EmptyString => Ok r
  end.

(** The rows read from a text whose lines end with LF, by a reader that
    has already taken the characters before [s] on the current line;
    [open_line] tells whether there are such characters. *)
Fixpoint scan (r : csv.reader) (open_line : bool) (s : string)
  : list (list string) * option exn :=
  match s with
  | String c s' =>
      match csv.parse_process_char r (Some c) with
      | Raise e => ([], Some e)
      | Ok r1 =>
          if Ascii.eqb c csv.LF then
            match csv.parse_process_char r1 None with
            | Raise e => ([], Some e)
            | Ok r2 =>
                if csv.at_start r2 then
                  let (rows, e) := scan csv.parse_reset false s' in
                  (csv.fields r2 :: rows, e)
                else scan r2 false s'
            end
          else scan r1 true s'
      end
  | EmptyString =>
      if open_line then
        match csv.parse_process_char r None with
        | Raise e => ([], Some e)
        | Ok r2 =>
            if csv.at_start r2 then
              let (rows, e) := csv.rows_from csv.parse_reset [] in
              (csv.fields r2 :: rows, e)
            else csv.rows_from r2 []
        end
      else csv.rows_from r []
  end.

Definition no_CR (s : string) : Prop :=
  string_existsb (Ascii.eqb csv.CR) s = false.

Definition fits (s : string) : Prop :=
  (N.of_nat (String.length s) <= csv.field_size_limit)%N.

(** A field the writer and the reader agree on. *)
Definition good_field (f : string) : Prop := no_CR f /\ fits f.

(** A field the writer leaves unquoted. *)
Definition plain (s : string) : Prop := string_existsb csv.special s = false.

(** The states in which the reader expects a field. *)
Definition start_state (st : csv.parser_state) : Prop :=
  st = csv.START_RECORD \/ st = csv.START_FIELD.

(** The text of rows as the reader receives it, each record ended by LF,
    and as the writer writes it. *)
Fixpoint rows_text (rows : list (list string)) : string :=
  match rows with
  | [] => EmptyString
  | row :: rows' => (csv.join_fields row ++ String csv.LF (rows_text rows'))%string
  end.

Fixpoint written (rows : list (list string)) : string :=
  match rows with
  | [] => EmptyString
  | row :: rows' => (csv.writerow row ++ written rows')%string
  end.

(** Rows of at least two good fields. *)
Definition good_row (row : list string) : Prop :=
  (2 <= length row)%nat /\ Forall good_field row.

(** ** Transactions through the file *)

Definition midnight (d : datetime) : datetime :=
  mkDatetime (year d) (month d) (day d) 0 0 0 0.

(** A transaction as it is read back: the time of day is not saved. *)
Definition at_midnight (t : Transaction.t) : Transaction.t :=
  Transaction.mk (midnight (Transaction.date t)) (Transaction.transaction_type t)
    (Transaction.category t) (Transaction.amount t) (Transaction.description t).

(** A transaction whose fields the file takes: a valid date with a year of
    four digits, the invariants of the constructor, no carriage return in
    the category and the description, fields within the size limit of the
    reader, and an amount that [float] reads back from its [repr]. *)
Definition saves_well (t : Transaction.t) : Prop :=
  valid_datetime (Transaction.date t) = true
  /\ (1000 <=? year (Transaction.date t))%Z = true
  /\ transaction_ok t
  /\ good_field (Transaction.category t)
  /\ good_field (Transaction.description t)
  /\ good_field (float_repr (Transaction.amount t))
  /\ float_of_string (float_repr (Transaction.amount t)) = Some (Transaction.amount t).

(** ** Sample data, after the scenarios of the tests and of the
    specification *)

Definition june_25 : datetime := mkDatetime 2025 6 25 0 0 0 0.

Definition groceries : Transaction.t :=
  Transaction.mk june_25 "expense" "Food" (Fin 50) "Groceries".

Definition paycheck : Transaction.t :=
  Transaction.mk june_25 "income" "Salary" (Fin 1000) "Paycheck".

Definition food_budget : Budget.t :=
  Budget.mk "Food" (Fin 500) (PyFloat (Fin 0)) "June 2025".

Definition rent_budget : Budget.t :=
  Budget.mk "Rent" (Fin 900) (PyFloat (Fin 0)) EmptyString.

(** A manager that holds one transaction and one budget, and whose files
    exist but cannot be opened for reading. *)
Definition locked_manager : FinanceManager.t :=
  FinanceManager.mk [groceries] [food_budget]
    (File false true EmptyString) (File false true json.Malformed) [].

(** A manager whose budget has a spent amount that is not zero. *)
Definition spending_manager : FinanceManager.t :=
  FinanceManager.mk [groceries]
    [Budget.mk "Food" (Fin 500) (PyFloat (Fin 50)) "June 2025"; rent_budget]
    NoFile NoFile [].

(** A budget file with a record whose [allocated_amount] is a string,
    followed by a well-formed record. *)
Definition budgets_with_bad_amount : json.text :=
  json.Document (PyList
    [ PyDict [ ("category", PyStr "Food");
               ("allocated_amount", PyStr "abc");
               ("spent_amount", PyFloat (Fin 0));
               ("remaining", PyFloat (Fin 0));
               ("period", PyStr "June 2025") ];
      budget_entry rent_budget (PyFloat (Fin 900)) ]).

(** A budget file with two records of the same category. *)
Definition budgets_with_duplicate : json.text :=
  json.Document (PyList
    [ budget_entry food_budget (PyFloat (Fin 500));
      budget_entry (Budget.mk "Food" (Fin 200) (PyFloat (Fin 20)) "July 2025")
        (PyFloat (Fin 180)) ]).

(** A transaction whose description holds a carriage return, and what it
    is read back as. *)
Definition note_with_CR : Transaction.t :=
  Transaction.mk june_25 "expense" "Food" (Fin 50)
    (String "a" (String csv.CR (String "b" EmptyString))).

Definition note_with_LF : Transaction.t :=
  Transaction.mk june_25 "expense" "Food" (Fin 50)
    (String "a" (String csv.LF (String "b" EmptyString))).

(** A transaction file with one well-formed row and one row whose amount
    is not a number. *)
Definition file_with_bad_amount : string :=
  ("date,transaction_type,category,amount,description" ++ String csv.LF
   ("2025-06-25,expense,Food,50.0,Groceries" ++ String csv.LF
    ("2025-06-26,expense,Food,abc,Lunch" ++ String csv.LF EmptyString)))%string.


(** ** Notions for the methods that show the data and for the menu *)

(** A budget after [add_expense] has been called with each transaction in
    turn, up to the first call that raises. *)
Fixpoint add_expenses (b : Budget.t) (ts : list Transaction.t)
  : result unit * Budget.t :=
  match ts with
  | [] => (Ok tt, b)
  | t :: ts' =>
      match Budget.add_expense b (Obj t) with
      | (Ok _, b') => add_expenses b' ts'
      | (Raise e, b') => (Raise e, b')
      end
  end.

(** The amounts added up in the order of the list, from [x]. *)
Definition sum_from (x : pyfloat) (amounts : list pyfloat) : pyfloat :=
  fold_left float_add amounts x.

(** A manager with other budgets. *)
Definition with_budgets (self : FinanceManager.t) (bs : list Budget.t)
  : FinanceManager.t :=
  FinanceManager.mk (FinanceManager.transactions self) bs
    (FinanceManager.transaction_file self) (FinanceManager.budget_file self)
    (FinanceManager.stdout self).

(** A manager with other transactions. *)
Definition with_transactions (self : FinanceManager.t) (ts : list Transaction.t)
  : FinanceManager.t :=
  FinanceManager.mk ts (FinanceManager.budgets self)
    (FinanceManager.transaction_file self) (FinanceManager.budget_file self)
    (FinanceManager.stdout self).

(** A budget with another spent amount. *)
Definition with_spent (b : Budget.t) (spent : pyval) : Budget.t :=
  Budget.mk (Budget.category b) (Budget.allocated_amount b) spent (Budget.period b).

(** A total that is nan, or not below [x]. *)
Definition not_below (x y : pyfloat) : Prop :=
  match x, y with
  | _, NaN => True
  | NaN, _ => True
  | Fin p, Fin q => (p <= q)%Q
  | Fin _, Inf s => s = false
  | Inf s, Fin _ => s = true
  | Inf s, Inf s' => s = true \/ s' = false
  end.

(** A file on which [open(_, 'w')] succeeds. *)
Definition writable {A} (f : file A) : bool :=
  match f with
  | NoFile => true
  | File _ w _ => w
  end.

(** What a file holds. *)
Definition stored {A} (f : file A) : option A :=
  match f with
  | NoFile => None
  | File _ _ c => Some c
  end.

(** A manager next to other files. *)
Definition with_files (self : FinanceManager.t) (tf : file string)
  (bf : file json.text) : FinanceManager.t :=
  FinanceManager.mk (FinanceManager.transactions self)
    (FinanceManager.budgets self) tf bf (FinanceManager.stdout self).

(** A manager after more has been printed. *)
Definition with_printed (self : FinanceManager.t) (out : list message)
  : FinanceManager.t :=
  FinanceManager.mk (FinanceManager.transactions self)
    (FinanceManager.budgets self) (FinanceManager.transaction_file self)
    (FinanceManager.budget_file self) (FinanceManager.stdout self ++ out).

(** The text [save_transactions] writes for the transactions [l]. *)
Definition transactions_text (l : list Transaction.t) : string :=
  (csv.writerow FinanceManager.header ++ FinanceManager.write_rows l)%string.

(** Choice 5 of the menu, and what [save_transactions(); save_budgets()]
    does. *)
Definition save_data : FinanceManager.M unit :=
  FinanceManager.bind FinanceManager.save_transactions
    (fun _ => FinanceManager.save_budgets).

(** The amounts of the transactions of one type, in their order. *)
Definition amounts_of (type : string) (ts : list Transaction.t) : list pyfloat :=
  map Transaction.amount
    (filter (fun t => Transaction.transaction_type t =? type) ts).

Definition zero_amount (t : Transaction.t) : bool :=
  float_eqb (Transaction.amount t) float_zero.

(** The strings of a list without repetition, each at the place where it
    comes first. *)
Fixpoint distinct (l : list string) : list string :=
  match l with
  | [] => []
  | x :: l' => x :: filter (fun y => negb (y =? x)) (distinct l')
  end.

(** Grouping by a key: the items of a list are taken in turn, and each one
    updates the value its key has in the dictionary, or the initial value
    when the key is new. *)
Section Grouping.

Context {T V : Type}.
Variable key : T -> string.
Variable update : V -> T -> V.
Variable initial : V.

Fixpoint grouped (ts : list T) (acc : list (string * V)) : list (string * V) :=
  match ts with
  | [] => acc
  | t :: ts' =>
      grouped ts' (dict_set acc (key t) (update (dict_get acc (key t) initial) t))
  end.

(** The items with the key [k], in their order. *)
Definition group_of (k : string) (ts : list T) : list T :=
  filter (fun t => key t =? k) ts.

End Grouping.

(** The expenses among the transactions, and those of one category. *)
Definition expenses_in (ts : list Transaction.t) : list Transaction.t :=
  filter (fun t => Transaction.transaction_type t =? "expense") ts.

Definition spent_on (category : string) (ts : list Transaction.t) : pyfloat :=
  sum_from float_zero
    (map Transaction.amount (group_of Transaction.category category (expenses_in ts))).

(** The month of a transaction as the summary names it, and the
    transactions of one month. *)
Definition month_of (t : Transaction.t) : string :=
  strftime_ym (Transaction.date t).

Definition in_month (month : string) (ts : list Transaction.t) : list Transaction.t :=
  group_of month_of month ts.

(** What a transaction adds to the totals of its month. *)
Definition add_to_month (totals : Console.month_totals) (t : Transaction.t)
  : Console.month_totals :=
  if Transaction.transaction_type t =? "income" then
    Console.mkTotals (float_add (Console.income totals) (Transaction.amount t))
      (Console.expenses totals)
  else if Transaction.transaction_type t =? "expense" then
    Console.mkTotals (Console.income totals)
      (float_add (Console.expenses totals) (Transaction.amount t))
  else totals.

(** Months in the order of time. *)
Definition month_before (d1 d2 : datetime) : Prop :=
  (year d1 < year d2 \/ (year d1 = year d2 /\ month d1 < month d2))%Z.

(** ** Notions for the menu *)

(** A line of input that chooses neither to load the data nor to draw the
    chart. *)
Definition no_load_no_chart (line : string) : Prop :=
  strip line <> "6" /\ strip line <> "10".

(** A world in which the budgets are in order and the user is to type such
    lines only. *)
Definition in_order (w : Menu.world) : Prop :=
  Forall budget_ok (FinanceManager.budgets (Menu.manager w))
  /\ Forall no_load_no_chart (Menu.stdin w).

(** A computation that keeps the world in order, reads its input from the
    front, at least [n] lines of it when it returns, is stopped by
    [EOFError] only when no input is left, and by no exception, those of
    [handled] apart. *)
Definition safe {A} (handled : exn -> bool) (n : nat) (m : Menu.IO A) : Prop :=
  forall w, in_order w ->
    in_order (snd (m w))
    /\ (exists used,
          Menu.stdin w = used ++ Menu.stdin (snd (m w))
          /\ match fst (m w) with
             | Menu.Value _ => (n <= length used)%nat
             | _ => True
             end)
    /\ match fst (m w) with
       | Menu.Value _ => True
       | Menu.Stop Menu.EOFError => Menu.stdin (snd (m w)) = []
       | Menu.Stop (Menu.Uncaught e) => handled e = true
       end.

Definition nothing : exn -> bool := fun _ => false.

(** A session: a budget, an expense, a date that does not parse, the
    budgets, the totals, saving, a choice that is none, leaving; the last
    line is not read. *)
Definition sample_session : list string :=
  [ "2"; "Food"; "500"; "June 2025";
    "1"; "2025-06-25"; "Expense"; " Food "; "50"; "Groceries";
    "1"; "2025-13-01";
    "4"; "7"; "5"; "0"; "11"; "3" ].

(** A computation that reads its input from the front, at least [n] lines
    of it when it returns. *)
Definition reads {A} (n : nat) (m : Menu.IO A) : Prop :=
  forall w,
    exists used,
      Menu.stdin w = used ++ Menu.stdin (snd (m w))
      /\ match fst (m w) with
         | Menu.Value _ => (n <= length used)%nat
         | _ => True
         end.

(** The file at a path after [text] has been written to it. *)
Definition overwritten {A} (f : file A) (content : A) : file A :=
  match f with
  | NoFile => File true true content
  | File r w _ => File r w content
  end.

(** What saving reports about a file. *)
Definition save_report {A} (f : file A) (report : exn -> message) : list message :=
  if writable f then [] else [report (OSError "Permission denied")].

(** ** Notions for the text of an amount *)

Definition digits_only (s : string) : Prop :=
  string_existsb (fun c => negb (is_digit c)) s = false.

Definition no_underscore (s : string) : Prop :=
  string_existsb (fun c => Ascii.eqb c "_") s = false.

(** A value read back from the text of an amount: within half a cent of the
    amount, or the same infinity, or nan for nan. *)
Definition to_the_cent (amount shown : pyfloat) : Prop :=
  match amount, shown with
  | Fin q, Fin q' => (q - (1 # 200) <= q' <= q + (1 # 200))%Q
  | Inf s, Inf s' => s = s'
  | NaN, NaN => True
  | _, _ => False
  end.
(** * Proofs *)

(** ** Numbers *)

Lemma Qltb_false (x y : Q) : Qltb x y = false <-> (y <= x)%Q.
Proof.
  unfold Qltb. rewrite negb_false_iff. apply Qle_bool_iff.
Qed.

Lemma Qltb_true (x y : Q) : Qltb x y = true <-> (x < y)%Q.
Proof.
  unfold Qltb. rewrite negb_true_iff. split; intros H.
  - apply Qnot_le_lt. intros L. apply Qle_bool_iff in L. congruence.
  - destruct (Qle_bool y x) eqn:E; [|reflexivity].
    apply Qle_bool_iff in E. exfalso. exact (Qlt_not_le _ _ H E).
Qed.

Lemma float_leb_zero_not_negative (a : pyfloat) :
  float_leb float_zero a = true -> float_ltb a float_zero = false.
Proof.
  destruct a as [q | s | ]; unfold float_leb, float_zero; simpl; try discriminate.
  - intros H. apply Qltb_false. apply orb_true_iff in H. destruct H as [H | H].
    + apply Qltb_true in H. apply Qlt_le_weak. exact H.
    + apply Qeq_bool_iff in H. rewrite <- H. apply Qle_refl.
  - destruct s; simpl; [discriminate | reflexivity].
Qed.

Lemma float_add_finite (p q : Q) :
  exists r, float_add (Fin p) (Fin q) = Fin r /\ (r == p + q)%Q.
Proof.
  exists (Qred (p + q)). split; [reflexivity | apply Qred_correct].
Qed.

(** Adding an amount that is not negative never gives less. *)
Lemma float_add_not_less (x a : pyfloat) :
  float_ltb a float_zero = false -> float_ltb (float_add x a) x = false.
Proof.
  destruct x as [p | s | ], a as [q | s' | ];
    cbn [float_add float_ltb float_zero]; try reflexivity.
  - intros H. apply Qltb_false in H. apply Qltb_false.
    apply Qle_trans with (p + q)%Q.
    + rewrite <- (Qplus_0_r p) at 1. apply Qplus_le_r. exact H.
    + apply Qle_lteq. right. symmetry. apply Qred_correct.
  - intros ->. reflexivity.
  - intros _. destruct s; reflexivity.
  - intros ->. destruct s; reflexivity.
Qed.

(** ** Dates *)

Local Open Scope Z_scope.

Lemma digit_char_spec (z : Z) :
  is_digit (digit_char z) = true /\ digit_val (digit_char z) = z mod 10.
Proof.
  unfold digit_char.
  assert (H : 0 <= z mod 10 < 10) by (apply Z.mod_pos_bound; lia).
  destruct (z mod 10) as [| p | p]; try lia.
  - split; reflexivity.
  - assert (Hp : (p = 1 \/ p = 2 \/ p = 3 \/ p = 4 \/ p = 5 \/ p = 6 \/ p = 7 \/ p = 8 \/ p = 9)%positive) by lia.
    repeat (destruct Hp as [-> | Hp]; [split; reflexivity|]). subst. split; reflexivity.
Qed.

Lemma valid_datetime_bounds (d : datetime) :
  valid_datetime d = true ->
  1 <= year d <= 9999 /\ 1 <= month d <= 12
  /\ 1 <= day d <= days_in_month (year d) (month d).
Proof.
  unfold valid_datetime. rewrite !andb_true_iff, !Z.leb_le. tauto.
Qed.

Lemma days_in_month_le (y m : Z) : days_in_month y m <= 31.
Proof.
  unfold days_in_month.
  repeat match goal with
         | |- context [match ?x with _ => _ end] => destruct x
         end; lia.
Qed.

Lemma valid_midnight (y m d : Z) :
  1 <= y <= 9999 -> 1 <= m <= 12 -> 1 <= d <= days_in_month y m ->
  valid_datetime (mkDatetime y m d 0 0 0 0) = true.
Proof.
  intros Hy Hm Hd. unfold valid_datetime. cbn [year month day hour minute second microsecond].
  rewrite !andb_true_iff, !Z.leb_le. lia.
Qed.

Lemma strptime_strftime (d : datetime) :
  valid_datetime d = true ->
  strptime_ymd (strftime_ymd d)
  = Some (mkDatetime (year d) (month d) (day d) 0 0 0 0).
Proof.
  intros Hv. destruct (valid_datetime_bounds d Hv) as (Hy & Hm & Hd).
  pose proof (days_in_month_le (year d) (month d)) as Hd31.
  unfold strftime_ymd, pad4, pad2. cbn [append].
  unfold strptime_ymd, match_Y.
  destruct (digit_char_spec (year d / 1000)) as [D1 V1].
  destruct (digit_char_spec (year d / 100)) as [D2 V2].
  destruct (digit_char_spec (year d / 10)) as [D3 V3].
  destruct (digit_char_spec (year d)) as [D4 V4].
  rewrite D1, D2, D3, D4. cbn [andb digits_value].
  rewrite V1, V2, V3, V4.
  replace (10 * (10 * (10 * (10 * 0 + (year d / 1000) mod 10)
                       + (year d / 100) mod 10) + (year d / 10) mod 10)
           + year d mod 10) with (year d)
    by (Z.div_mod_to_equations; lia).
  unfold match_m_dash.
  destruct (digit_char_spec (month d / 10)) as [D5 V5].
  destruct (digit_char_spec (month d)) as [D6 V6].
  rewrite D5, D6, V5, V6.
  replace (10 * ((month d / 10) mod 10) + month d mod 10) with (month d)
    by (Z.div_mod_to_equations; lia).
  replace (1 <=? month d) with true by (symmetry; apply Z.leb_le; lia).
  replace (month d <=? 12) with true by (symmetry; apply Z.leb_le; lia).
  cbn [andb]. unfold match_d.
  destruct (digit_char_spec (day d / 10)) as [D7 V7].
  destruct (digit_char_spec (day d)) as [D8 V8].
  rewrite D7, D8, V7, V8.
  replace (10 * ((day d / 10) mod 10) + day d mod 10) with (day d)
    by (Z.div_mod_to_equations; lia).
  replace (1 <=? day d) with true by (symmetry; apply Z.leb_le; lia).
  replace (day d <=? 31) with true by (symmetry; apply Z.leb_le; lia).
  cbn [andb].
  rewrite (valid_midnight _ _ _ Hy Hm Hd). reflexivity.
Qed.

Lemma digit_val_range (c : ascii) : is_digit c = true -> 0 <= digit_val c <= 9.
Proof.
  unfold is_digit, digit_val. intros H. apply andb_true_iff in H.
  destruct H as [H1 H2]. apply N.leb_le in H1, H2. lia.
Qed.

Lemma digit_char_val (c : ascii) (z : Z) :
  is_digit c = true -> z mod 10 = digit_val c -> digit_char z = c.
Proof.
  intros Hc Hz. pose proof (digit_val_range c Hc) as Hr.
  unfold digit_char. rewrite Hz. unfold digit_val in *.
  replace (48 + (Z.of_N (code c) - 48)) with (Z.of_N (code c)) by lia.
  rewrite N2Z.id. apply ascii_N_embedding.
Qed.

Lemma digit_not_space (c : ascii) : is_digit c = true -> Ascii.eqb c " " = false.
Proof.
  intros H. destruct (Ascii.eqb c " ") eqn:E; [|reflexivity].
  apply Ascii.eqb_eq in E. subst c. discriminate.
Qed.

Lemma strftime_strptime (s : string) (d : datetime) :
  iso_form s = true -> strptime_ymd s = Some d -> strftime_ymd d = s.
Proof.
  intros Hiso.
  destruct s as [| y1 [| y2 [| y3 [| y4 [| a [| m1 [| m2 [| b [| d1 [| d2 [| ? ?]]]]]]]]]]];
    try discriminate Hiso.
  cbn [iso_form] in Hiso. rewrite !andb_true_iff in Hiso.
  destruct Hiso as (((((((((H1 & H2) & H3) & H4) & Ha) & H5) & H6) & Hb) & H7) & H8).
  apply Ascii.eqb_eq in Ha, Hb. subst a b.
  pose proof (digit_val_range _ H1). pose proof (digit_val_range _ H2).
  pose proof (digit_val_range _ H3). pose proof (digit_val_range _ H4).
  pose proof (digit_val_range _ H5). pose proof (digit_val_range _ H6).
  pose proof (digit_val_range _ H7). pose proof (digit_val_range _ H8).
  unfold strptime_ymd, match_Y. rewrite H1, H2, H3, H4. cbn [andb digits_value].
  unfold match_m_dash. rewrite H5, H6. cbn [andb].
  destruct ((1 <=? 10 * digit_val m1 + digit_val m2)
            && (10 * digit_val m1 + digit_val m2 <=? 12)) eqn:Em.
  2:{ clear - H6. destruct m2 as [b0 b1 b2 b3 b4 b5 b6 b7].
      destruct b0, b1, b2, b3, b4, b5, b6, b7; try discriminate H6.
        all: intros Habs; discriminate Habs. }
  unfold match_d. rewrite H7, H8. cbn [andb].
  destruct ((1 <=? 10 * digit_val d1 + digit_val d2)
            && (10 * digit_val d1 + digit_val d2 <=? 31)) eqn:Ed.
  2:{ destruct (1 <=? digit_val d1); [discriminate|].
      rewrite (digit_not_space d1 H7). discriminate. }
  destruct (valid_datetime _); [|discriminate].
  set (Y := 10 * (10 * (10 * (10 * 0 + digit_val y1) + digit_val y2)
                  + digit_val y3) + digit_val y4).
  set (M := 10 * digit_val m1 + digit_val m2).
  set (D := 10 * digit_val d1 + digit_val d2).
  intros [= <-]. unfold strftime_ymd, pad4, pad2. cbn [year month day append].
  subst Y M D.
  repeat (f_equal;
          try (apply digit_char_val; [assumption | Z.div_mod_to_equations; lia])).
Qed.

Local Close Scope Z_scope.

(** ** Transaction: the constructor and [get_details] *)

Lemma rbind_Ok {A B} (r : result A) (k : A -> result B) (b : B) :
  rbind r k = Ok b -> exists a, r = Ok a /\ k a = Ok b.
Proof.
  destruct r as [a | e]; simpl; [|discriminate]. intros H. exists a. auto.
Qed.

Lemma rbind_Raise {A B} (r : result A) (k : A -> result B) (e : exn) :
  rbind r k = Raise e -> r = Raise e \/ exists a, r = Ok a /\ k a = Raise e.
Proof.
  destruct r as [a | e']; simpl; intros H;
    [right; exists a; auto | left; congruence].
Qed.

(** What a successful call of the constructor says about its arguments. *)
Lemma init_inv (date transaction_type category amount description : pyval)
  (t : Transaction.t) :
  Transaction.init date transaction_type category amount description = Ok t ->
  date_of date = Some (Transaction.date t)
  /\ transaction_type = PyStr (Transaction.transaction_type t)
  /\ category = PyStr (Transaction.category t)
  /\ as_number amount = Some (Transaction.amount t)
  /\ description = PyStr (Transaction.description t)
  /\ transaction_ok t.
Proof.
  unfold Transaction.init. intros H.
  apply rbind_Ok in H as (d & Hd & H).
  apply rbind_Ok in H as (ty & Hty & H).
  apply rbind_Ok in H as (c & Hc & H).
  apply rbind_Ok in H as (a & Ha & H).
  apply rbind_Ok in H as (ds & Hds & H).
  injection H as <-. unfold transaction_ok. cbn.
  assert (Ed : date_of date = Some d).
  { destruct date; try discriminate; simpl.
    - destruct (strptime_ymd s); congruence.
    - congruence. }
  assert (Ety : transaction_type = PyStr ty /\ (ty = "income" \/ ty = "expense")).
  { destruct transaction_type as [ | | | | s | | | ]; try discriminate.
    destruct ((s =? "income") || (s =? "expense")) eqn:E; [|discriminate].
    injection Hty as ->. split; [reflexivity|].
    apply orb_true_iff in E. destruct E as [E | E]; apply String.eqb_eq in E; auto. }
  assert (Ec : category = PyStr c /\ is_empty (strip c) = false).
  { destruct category as [ | | | | s | | | ]; try discriminate.
    destruct (is_empty (strip s)) eqn:E; [discriminate|].
    injection Hc as ->. auto. }
  assert (Ea : as_number amount = Some a /\ float_ltb a float_zero = false).
  { destruct (as_number amount) as [x|]; [|discriminate].
    destruct (float_ltb x float_zero) eqn:E; [discriminate|].
    injection Ha as ->. auto. }
  assert (Eds : description = PyStr ds).
  { destruct description; try discriminate. congruence. }
  tauto.
Qed.

(** The constructor raises nothing but [ValueError] and [TypeError]. *)
Lemma init_raises (date transaction_type category amount description : pyval)
  (e : exn) :
  Transaction.init date transaction_type category amount description = Raise e ->
  validation_error e = true.
Proof.
  unfold Transaction.init. intros H.
  apply rbind_Raise in H as [H | (d & _ & H)].
  { destruct date; try discriminate; try (injection H as <-; reflexivity).
    destruct (strptime_ymd s); [discriminate | injection H as <-; reflexivity]. }
  apply rbind_Raise in H as [H | (ty & _ & H)].
  { destruct transaction_type; try (injection H as <-; reflexivity).
    destruct ((s =? "income") || (s =? "expense"));
      [discriminate | injection H as <-; reflexivity]. }
  apply rbind_Raise in H as [H | (c & _ & H)].
  { destruct category; try (injection H as <-; reflexivity).
    destruct (is_empty (strip s)); [injection H as <-; reflexivity | discriminate]. }
  apply rbind_Raise in H as [H | (a & _ & H)].
  { destruct (as_number amount) as [x|]; [|injection H as <-; reflexivity].
    destruct (float_ltb x float_zero); [injection H as <-; reflexivity | discriminate]. }
  apply rbind_Raise in H as [H | (ds & _ & H)].
  { destruct description; try discriminate; injection H as <-; reflexivity. }
  discriminate.
Qed.





(** ** Budget: [add_expense] *)



(** ** FinanceManager: [add_budget] and [add_transaction] *)

Lemma existsb_category (bs : list Budget.t) (category : pyval) :
  existsb (fun budget => str_eq (Budget.category budget) category) bs = true
  <-> exists b, In b bs /\ category = PyStr (Budget.category b).
Proof.
  rewrite existsb_exists. split; intros (b & Hin & H); exists b; split; auto.
  - destruct category; simpl in H; try discriminate.
    apply String.eqb_eq in H. congruence.
  - subst category. simpl. apply String.eqb_refl.
Qed.

(** C8. When the manager already holds a budget whose category is exactly
    the one asked for, [add_budget] raises the duplicate-category error and
    the manager is as before. Otherwise the budget is built by the
    constructor: its validation error, if any, is raised and the manager is
    as before, else the new budget is appended to the budgets. *)
Theorem C8_add_budget (self : FinanceManager.t)
  (category allocated_amount period : pyval) :
  (forall b, In b (FinanceManager.budgets self) ->
     category = PyStr (Budget.category b) ->
     FinanceManager.add_budget category allocated_amount period self
     = (Raise (ValueError ("Budget for category '" ++ Budget.category b
                            ++ "' already exists")), self))
  /\ ((forall b, In b (FinanceManager.budgets self) ->
         category <> PyStr (Budget.category b)) ->
      match Budget.init category allocated_amount period with
      | Ok new_budget =>
          FinanceManager.add_budget category allocated_amount period self
          = (Ok tt,
             FinanceManager.mk (FinanceManager.transactions self)
               (FinanceManager.budgets self ++ [new_budget])
               (FinanceManager.transaction_file self)
               (FinanceManager.budget_file self)
               (FinanceManager.stdout self))
      | Raise e =>
          FinanceManager.add_budget category allocated_amount period self
          = (Raise e, self)
      end).
Proof.
  unfold FinanceManager.add_budget, FinanceManager.bind, FinanceManager.gets,
    FinanceManager.raise, FinanceManager.lift, FinanceManager.append_budget,
    FinanceManager.set_budgets.
  split.
  - intros b Hin Hc.
    assert (E : existsb (fun budget => str_eq (Budget.category budget) category)
                  (FinanceManager.budgets self) = true).
    { apply existsb_category. exists b. auto. }
    rewrite E. subst category. reflexivity.
  - intros Hnone.
    assert (E : existsb (fun budget => str_eq (Budget.category budget) category)
                  (FinanceManager.budgets self) = false).
    { apply not_true_is_false. intros H. apply existsb_category in H.
      destruct H as (b & Hin & Hc). exact (Hnone b Hin Hc). }
    rewrite E.
    destruct (Budget.init category allocated_amount period); reflexivity.
Qed.

Lemma C8_add_budget_witness :
  FinanceManager.add_budget (PyStr "Food") (PyFloat (Fin 500)) (PyStr EmptyString)
    locked_manager
  = (Raise (ValueError "Budget for category 'Food' already exists"), locked_manager)
  /\ FinanceManager.add_budget (PyStr "Rent") (PyFloat (Fin 900)) (PyStr EmptyString)
       locked_manager
     = (Ok tt,
        FinanceManager.mk [groceries] [food_budget; rent_budget]
          (File false true EmptyString) (File false true json.Malformed) []).
Proof.
  split.
  - apply (proj1 (C8_add_budget locked_manager (PyStr "Food") (PyFloat (Fin 500))
                    (PyStr EmptyString)) food_budget).
    + simpl. left. reflexivity.
    + reflexivity.
  - apply (proj2 (C8_add_budget locked_manager (PyStr "Rent") (PyFloat (Fin 900))
                    (PyStr EmptyString))).
    intros b [<- | []]. discriminate.
Defined.

Lemma add_expense_first_none (bs : list Budget.t) (c : string)
  (tr : Transaction.t) :
  (forall b, In b bs -> Budget.category b <> c) ->
  FinanceManager.add_expense_first bs (PyStr c) tr = None.
Proof.
  induction bs as [| b bs IH]; intros H; simpl; [reflexivity|].
  destruct (Budget.category b =? c) eqn:E.
  - apply String.eqb_eq in E. exfalso. apply (H b); [left; reflexivity | exact E].
  - rewrite IH; [reflexivity|]. intros b' Hin. apply H. right. exact Hin.
Qed.

(** C9. Adding a valid expense whose category no budget of the manager
    has does not fail: the notice is printed, the transaction is appended,
    and the budgets, hence every [spent_amount], are as before. *)
Theorem C9_expense_without_budget (self : FinanceManager.t)
  (date : pyval) (c : string) (amount description : pyval) (tr : Transaction.t) :
  Transaction.init date (PyStr "expense") (PyStr c) amount description = Ok tr ->
  (forall b, In b (FinanceManager.budgets self) -> Budget.category b <> c) ->
  FinanceManager.add_transaction date (PyStr "expense") (PyStr c) amount
    description self
  = (Ok tt,
     FinanceManager.mk (FinanceManager.transactions self ++ [tr])
       (FinanceManager.budgets self)
       (FinanceManager.transaction_file self)
       (FinanceManager.budget_file self)
       (FinanceManager.stdout self ++ [NoBudgetFound c])).
Proof.
  intros Hinit Hnone.
  unfold FinanceManager.add_transaction, FinanceManager.bind, FinanceManager.lift.
  rewrite Hinit. simpl.
  rewrite (add_expense_first_none _ c tr Hnone). reflexivity.
Qed.

Lemma C9_expense_without_budget_witness :
  FinanceManager.add_transaction (PyDatetime june_25) (PyStr "expense")
    (PyStr "Rent") (PyInt 300) (PyStr "Apartment") locked_manager
  = (Ok tt,
     FinanceManager.mk
       [groceries;
        Transaction.mk june_25 "expense" "Rent" (float_of_Z 300) "Apartment"]
       [food_budget]
       (File false true EmptyString) (File false true json.Malformed)
       [NoBudgetFound "Rent"]).
Proof.
  apply (C9_expense_without_budget locked_manager (PyDatetime june_25) "Rent"
           (PyInt 300) (PyStr "Apartment")
           (Transaction.mk june_25 "expense" "Rent" (float_of_Z 300) "Apartment")).
  - reflexivity.
  - intros b [<- | []]. discriminate.
Defined.

(** ** Failed reads *)

(** The claim that a failed read leaves the collections as they were does
    not hold: [load_transactions] clears the transactions before it opens
    the file. *)
Lemma C3_failed_read_counterexample :
  FinanceManager.transaction_file locked_manager = File false true EmptyString
  /\ FinanceManager.transactions locked_manager = [groceries]
  /\ fst (FinanceManager.load_transactions locked_manager) = Ok tt
  /\ FinanceManager.stdout (snd (FinanceManager.load_transactions locked_manager))
     = [ErrorLoadingTransactions (OSError "Permission denied")]
  /\ FinanceManager.transactions (snd (FinanceManager.load_transactions locked_manager))
     = []
  /\ FinanceManager.transactions (snd (FinanceManager.load_transactions locked_manager))
     <> FinanceManager.transactions locked_manager.
Proof.
  split; [reflexivity|]. split; [reflexivity|]. split; [reflexivity|].
  split; [reflexivity|]. split; [reflexivity | discriminate].
Qed.

(** C3, amended. When the file of a collection exists and opening it for
    reading raises an I/O error, the load returns normally, the error is
    printed, the collection being loaded is left empty, and the other
    collection and both files are as before. *)
Theorem C3_failed_read (self : FinanceManager.t) :
  (forall w c, FinanceManager.transaction_file self = File false w c ->
     FinanceManager.load_transactions self
     = (Ok tt,
        FinanceManager.mk [] (FinanceManager.budgets self)
          (FinanceManager.transaction_file self)
          (FinanceManager.budget_file self)
          (FinanceManager.stdout self
             ++ [ErrorLoadingTransactions (OSError "Permission denied")])))
  /\ (forall w c, FinanceManager.budget_file self = File false w c ->
        FinanceManager.load_budgets self
        = (Ok tt,
           FinanceManager.mk (FinanceManager.transactions self) []
             (FinanceManager.transaction_file self)
             (FinanceManager.budget_file self)
             (FinanceManager.stdout self
                ++ [ErrorLoadingBudgets (OSError "Permission denied")]))).
Proof.
  split; intros w c Hf.
  - unfold FinanceManager.load_transactions, FinanceManager.bind,
      FinanceManager.try_except, FinanceManager.gets, FinanceManager.lift,
      FinanceManager.set_transactions. simpl.
    rewrite Hf. reflexivity.
  - unfold FinanceManager.load_budgets, FinanceManager.bind,
      FinanceManager.try_except, FinanceManager.gets, FinanceManager.lift,
      FinanceManager.set_budgets. simpl.
    rewrite Hf. reflexivity.
Qed.

Lemma C3_failed_read_witness :
  FinanceManager.load_transactions locked_manager
  = (Ok tt,
     FinanceManager.mk [] [food_budget]
       (File false true EmptyString) (File false true json.Malformed)
       [ErrorLoadingTransactions (OSError "Permission denied")])
  /\ FinanceManager.load_budgets locked_manager
     = (Ok tt,
        FinanceManager.mk [groceries] []
          (File false true EmptyString) (File false true json.Malformed)
          [ErrorLoadingBudgets (OSError "Permission denied")]).
Proof.
  split.
  - apply (proj1 (C3_failed_read locked_manager) true EmptyString). reflexivity.
  - apply (proj2 (C3_failed_read locked_manager) true json.Malformed). reflexivity.
Defined.

(** ** Loading, record by record *)

(** A row never makes [load_transactions] fail: it is appended when it
    stands for a transaction, and reported otherwise. *)
Lemma load_row_spec (row : list string) (self : FinanceManager.t) :
  FinanceManager.load_row row self
  = (Ok tt,
     match parse_row row with
     | Some t =>
         FinanceManager.mk (FinanceManager.transactions self ++ [t])
           (FinanceManager.budgets self) (FinanceManager.transaction_file self)
           (FinanceManager.budget_file self) (FinanceManager.stdout self)
     | None =>
         FinanceManager.mk (FinanceManager.transactions self)
           (FinanceManager.budgets self) (FinanceManager.transaction_file self)
           (FinanceManager.budget_file self)
           (FinanceManager.stdout self ++ [SkippingTransactionRow row])
     end).
Proof.
  destruct row as [| r0 [| r1 [| r2 [| r3 [| r4 [| r5 row]]]]]]; try reflexivity.
  unfold FinanceManager.load_row, parse_row, FinanceManager.try_except,
    FinanceManager.bind, FinanceManager.lift.
  destruct (strptime_ymd r0) as [d|]; [|reflexivity].
  destruct (float_of_string r3) as [a|]; [|reflexivity].
  destruct (Transaction.init (PyDatetime d) (PyStr r1) (PyStr r2) (PyFloat a)
              (PyStr r4)) as [t | e] eqn:E.
  - reflexivity.
  - apply init_raises in E. destruct e; try discriminate; reflexivity.
Qed.

Lemma load_rows_spec (rows : list (list string)) :
  forall self : FinanceManager.t,
    FinanceManager.for_each rows FinanceManager.load_row self
    = (Ok tt,
       FinanceManager.mk (FinanceManager.transactions self ++ parsed_rows rows)
         (FinanceManager.budgets self) (FinanceManager.transaction_file self)
         (FinanceManager.budget_file self)
         (FinanceManager.stdout self ++ skipped_rows rows)).
Proof.
  induction rows as [| row rows IH]; intros self.
  - simpl. rewrite !app_nil_r. destruct self. reflexivity.
  - simpl. unfold FinanceManager.bind. rewrite load_row_spec.
    destruct (parse_row row) as [t|]; rewrite IH; simpl;
      rewrite <- ?app_assoc; reflexivity.
Qed.

(** The reader raises nothing but its own error. *)
Lemma parse_add_char_raises (r : csv.reader) (c : ascii) (e : exn) :
  csv.parse_add_char r c = Raise e -> is_CsvError e = true.
Proof.
  unfold csv.parse_add_char. destruct (_ <=? _)%N; [|discriminate].
  intros [= <-]. reflexivity.
Qed.

Lemma parse_process_char_raises (r : csv.reader) (c : option ascii) (e : exn) :
  csv.parse_process_char r c = Raise e -> is_CsvError e = true.
Proof.
  unfold csv.parse_process_char, rbind.
  destruct (csv.state r), c as [ch|];
    repeat match goal with
           | |- context [if ?b then _ else _] => destruct b
           | |- context [match csv.parse_add_char ?x ?y with _ => _ end] =>
               destruct (csv.parse_add_char x y) eqn:?
           end;
    try discriminate;
    try (intros [= <-]; reflexivity);
    try (intros [= <-]; eapply parse_add_char_raises; eassumption);
    try (intros H; eapply parse_add_char_raises; eassumption).
Qed.

Lemma parse_line_raises (line : string) :
  forall r e, csv.parse_line r line = Raise e -> is_CsvError e = true.
Proof.
  induction line as [| c line IH]; intros r e; cbn [csv.parse_line].
  - apply parse_process_char_raises.
  - destruct (csv.parse_process_char r (Some c)) as [r'|e'] eqn:E; cbn [rbind].
    + apply IH.
    + intros [= <-]. exact (parse_process_char_raises _ _ _ E).
Qed.

Lemma rows_from_raises (lines : list string) :
  forall r rows e, csv.rows_from r lines = (rows, Some e) -> is_CsvError e = true.
Proof.
  induction lines as [| line lines IH]; intros r rows e; cbn [csv.rows_from].
  - destruct (_ || _); discriminate.
  - destruct (csv.parse_line r line) as [r'|e'] eqn:E.
    + destruct (csv.at_start r').
      * destruct (csv.rows_from csv.parse_reset lines) as [rows' e''] eqn:E'.
        intros [= _ ->]. exact (IH _ _ _ E').
      * apply IH.
    + intros [= _ <-]. exact (parse_line_raises _ _ _ E).
Qed.

Lemma is_not_OSError (e : exn) : is_CsvError e = true -> is_OSError e = false.
Proof. destruct e; try discriminate. reflexivity. Qed.

(** What [load_transactions] does with a file it can read, whatever the
    file holds. *)
Theorem load_transactions_spec (self : FinanceManager.t) (w : bool) (text : string) :
  FinanceManager.transaction_file self = File true w text ->
  FinanceManager.load_transactions self
  = match csv.reader_rows (read_lines text) with
    | ([], err) =>
        (match err with Some e => Raise e | None => Ok tt end,
         FinanceManager.mk [] (FinanceManager.budgets self)
           (FinanceManager.transaction_file self)
           (FinanceManager.budget_file self) (FinanceManager.stdout self))
    | (_ :: rows, err) =>
        (match err with Some e => Raise e | None => Ok tt end,
         FinanceManager.mk (parsed_rows rows) (FinanceManager.budgets self)
           (FinanceManager.transaction_file self)
           (FinanceManager.budget_file self)
           (FinanceManager.stdout self ++ skipped_rows rows))
    end.
Proof.
  intros Hf.
  unfold FinanceManager.load_transactions, FinanceManager.try_except,
    FinanceManager.bind, FinanceManager.gets, FinanceManager.lift,
    FinanceManager.set_transactions, FinanceManager.raise, FinanceManager.ret.
  cbn [FinanceManager.transaction_file]. rewrite Hf. cbn [exists_ negb open_read].
  destruct (csv.reader_rows (read_lines text)) as [[| hd rows] [e|]] eqn:E.
  - rewrite (is_not_OSError e); [reflexivity|].
    exact (rows_from_raises _ _ _ _ E).
  - reflexivity.
  - rewrite load_rows_spec. rewrite (is_not_OSError e); [reflexivity|].
    exact (rows_from_raises _ _ _ _ E).
  - rewrite load_rows_spec. reflexivity.
Qed.

(** A record of the budget file is loaded, or skipped with a warning, or
    ends the load with a [TypeError]. *)
Lemma load_entry_outcomes (entry : pyval) (self : FinanceManager.t) :
  (exists b,
     FinanceManager.load_entry entry self
     = (Ok tt,
        FinanceManager.mk (FinanceManager.transactions self)
          (FinanceManager.budgets self ++ [b])
          (FinanceManager.transaction_file self)
          (FinanceManager.budget_file self) (FinanceManager.stdout self)))
  \/ FinanceManager.load_entry entry self
     = (Ok tt,
        FinanceManager.mk (FinanceManager.transactions self)
          (FinanceManager.budgets self) (FinanceManager.transaction_file self)
          (FinanceManager.budget_file self)
          (FinanceManager.stdout self ++ [SkippingBudgetEntry entry]))
  \/ exists msg,
       FinanceManager.load_entry entry self = (Raise (TypeError msg), self).
Proof.
  unfold FinanceManager.load_entry, FinanceManager.try_except,
    FinanceManager.bind, FinanceManager.lift, FinanceManager.append_budget,
    FinanceManager.gets, FinanceManager.set_budgets, Budget.init, rbind,
    py_getitem.
  destruct entry as [ | | | | | | | d];
    try (right; right; eexists; reflexivity).
  destruct (assoc_lookup "category" d) as [c|]; [|right; left; reflexivity].
  destruct (assoc_lookup "allocated_amount" d) as [a|]; [|right; left; reflexivity].
  destruct (assoc_lookup "period" d) as [p|]; [|right; left; reflexivity].
  destruct c; try (right; left; reflexivity).
  destruct (is_empty (strip s)); [right; left; reflexivity|].
  destruct (as_number a) as [x|]; [|right; right; eexists; reflexivity].
  destruct (float_leb x float_zero); [right; left; reflexivity|].
  destruct p; try (right; right; eexists; reflexivity).
  destruct (assoc_lookup "spent_amount" d) as [sp|]; [|right; left; reflexivity].
  left. eexists. reflexivity.
Qed.

(** C4, at a failing input. The first record of the file has a string for
    [allocated_amount]: the constructor raises [TypeError], which neither
    [except] clause of [load_budgets] catches. The load is aborted with this
    exception, no warning is printed, and the well-formed record that
    follows is not loaded. *)
Theorem C4_load_budgets_aborts_on_TypeError :
  FinanceManager.load_budgets
    (FinanceManager.mk [] [] NoFile (File true true budgets_with_bad_amount) [])
  = (Raise (TypeError "Allocated amount must be a number"),
     FinanceManager.mk [] [] NoFile (File true true budgets_with_bad_amount) []).
Proof. reflexivity. Qed.

(** ** The budget file: what is saved is loaded back *)

Lemma number_serializable (v : pyval) :
  is_number v = true -> json.serializable v = true.
Proof. destruct v; simpl; intros H; try reflexivity; discriminate. Qed.

Lemma get_remaining_number (b : Budget.t) (x : pyfloat) :
  as_number (Budget.spent_amount b) = Some x ->
  Budget.get_remaining b = Ok (PyFloat (float_sub (Budget.allocated_amount b) x)).
Proof.
  intros H. unfold Budget.get_remaining, py_float_sub. rewrite H. reflexivity.
Qed.

Lemma budget_ok_number (b : Budget.t) :
  budget_ok b -> exists x, as_number (Budget.spent_amount b) = Some x.
Proof.
  intros (_ & _ & H). unfold is_number in H.
  destruct (as_number (Budget.spent_amount b)) as [x|]; [|discriminate].
  exists x. reflexivity.
Qed.

(** What [save_budgets] collects for budgets that are in order: one record
    per budget, with some value under [remaining]. *)
Lemma budget_data_ok (bs : list Budget.t) :
  Forall budget_ok bs ->
  exists rs,
    length rs = length bs
    /\ FinanceManager.budget_data bs = Ok (budget_entries bs rs)
    /\ json.serializable (PyList (budget_entries bs rs)) = true.
Proof.
  induction 1 as [| b bs Hb Hbs IH].
  - exists []. repeat split.
  - destruct IH as (rs & Hlen & Hdata & Hser).
    destruct (budget_ok_number b Hb) as (x & Hx).
    exists (PyFloat (float_sub (Budget.allocated_amount b) x) :: rs).
    split; [simpl; congruence|]. split.
    + simpl. unfold Budget.get_details. rewrite (get_remaining_number b x Hx).
      simpl. rewrite Hdata. reflexivity.
    + simpl in *. rewrite Hser.
      destruct Hb as (_ & _ & Hn). rewrite (number_serializable _ Hn). reflexivity.
Qed.

(** A record written for a budget in order is loaded back as this budget,
    whatever stands under [remaining]. *)
Lemma load_entry_ok (b : Budget.t) (r : pyval) (self : FinanceManager.t) :
  budget_ok b ->
  FinanceManager.load_entry (budget_entry b r) self
  = (Ok tt,
     FinanceManager.mk (FinanceManager.transactions self)
       (FinanceManager.budgets self ++ [b])
       (FinanceManager.transaction_file self)
       (FinanceManager.budget_file self)
       (FinanceManager.stdout self)).
Proof.
  intros (Hc & Ha & _).
  unfold FinanceManager.load_entry, FinanceManager.try_except,
    FinanceManager.bind, FinanceManager.lift, budget_entry,
    FinanceManager.append_budget, FinanceManager.gets,
    FinanceManager.set_budgets.
  simpl. unfold Budget.init. simpl. rewrite Hc, Ha. simpl.
  destruct b. reflexivity.
Qed.

Lemma load_entries_ok (bs : list Budget.t) :
  forall (rs : list pyval) (self : FinanceManager.t),
    Forall budget_ok bs ->
    length rs = length bs ->
    FinanceManager.for_each (budget_entries bs rs) FinanceManager.load_entry self
    = (Ok tt,
       FinanceManager.mk (FinanceManager.transactions self)
         (FinanceManager.budgets self ++ bs)
         (FinanceManager.transaction_file self)
         (FinanceManager.budget_file self)
         (FinanceManager.stdout self)).
Proof.
  induction bs as [| b bs IH]; intros rs self Hok Hlen.
  - simpl. rewrite app_nil_r. destruct self. reflexivity.
  - destruct rs as [| r rs]; [discriminate|]. inversion Hok as [| ? ? Hb Hbs]; subst.
    simpl. unfold FinanceManager.bind. rewrite (load_entry_ok b r self Hb).
    rewrite IH; [| assumption | simpl in Hlen; congruence].
    simpl. rewrite <- app_assoc. reflexivity.
Qed.

(** Loading a file that holds records of budgets in order. *)
Lemma load_budgets_entries (self : FinanceManager.t) (bs : list Budget.t)
  (rs : list pyval) (w : bool) :
  Forall budget_ok bs ->
  length rs = length bs ->
  FinanceManager.budget_file self
  = File true w (json.Document (PyList (budget_entries bs rs))) ->
  FinanceManager.load_budgets self
  = (Ok tt,
     FinanceManager.mk (FinanceManager.transactions self) bs
       (FinanceManager.transaction_file self)
       (FinanceManager.budget_file self)
       (FinanceManager.stdout self)).
Proof.
  intros Hok Hlen Hf.
  unfold FinanceManager.load_budgets, FinanceManager.bind,
    FinanceManager.try_except, FinanceManager.gets, FinanceManager.lift,
    FinanceManager.set_budgets. simpl.
  rewrite Hf. simpl.
  rewrite (load_entries_ok bs rs _ Hok Hlen). reflexivity.
Qed.



(** ** One budget per category *)

(** C10, at a failing input. Loading a file with two records of the
    category "Food" yields two budgets of this category: [load_budgets]
    appends each record without the check [add_budget] makes. A manager
    created next to this file starts in this state. *)
Theorem C10_load_budgets_keeps_duplicates :
  let self :=
    snd (FinanceManager.load_budgets
           (FinanceManager.mk [] [] NoFile (File true true budgets_with_duplicate) [])) in
  FinanceManager.budgets self
  = [ food_budget; Budget.mk "Food" (Fin 200) (PyFloat (Fin 20)) "July 2025" ]
  /\ categories self = ["Food"; "Food"]
  /\ ~ NoDup (categories self)
  /\ FinanceManager.budgets
       (FinanceManager.init NoFile (File true true budgets_with_duplicate))
     = FinanceManager.budgets self.
Proof.
  split; [reflexivity|]. split; [reflexivity|]. split; [|reflexivity].
  intros H. inversion H as [| c l Hnotin _]. apply Hnotin. left. reflexivity.
Qed.

Lemma Budget_init_ok (category allocated_amount period : pyval) (b : Budget.t) :
  Budget.init category allocated_amount period = Ok b ->
  budget_ok b /\ category = PyStr (Budget.category b).
Proof.
  unfold Budget.init, rbind, budget_ok.
  destruct category as [ | | | | c | | | ]; try discriminate.
  destruct (is_empty (strip c)) eqn:Ec; [discriminate|].
  destruct (as_number allocated_amount) as [a|]; [|discriminate].
  destruct (float_leb a float_zero) eqn:Ea; [discriminate|].
  destruct period; try discriminate.
  intros [= <-]. simpl. auto.
Qed.

Lemma add_expense_ok (b b' : Budget.t) (o : pyobj) (r : result unit) :
  Budget.add_expense b o = (r, b') ->
  Budget.category b' = Budget.category b
  /\ (budget_ok b -> budget_ok b').
Proof.
  unfold Budget.add_expense, py_add_float.
  destruct o as [tr | v]; [| intros [= _ <-]; auto].
  destruct (negb (Transaction.transaction_type tr =? "expense"));
    [intros [= _ <-]; auto|].
  destruct (negb (Transaction.category tr =? Budget.category b));
    [intros [= _ <-]; auto|].
  destruct (as_number (Budget.spent_amount b)); intros [= _ <-]; auto.
  split; [reflexivity|]. intros (Hc & Ha & _). repeat split; assumption.
Qed.

Lemma add_expense_first_ok (bs : list Budget.t) (category : pyval)
  (tr : Transaction.t) :
  forall (r : result unit) (bs' : list Budget.t),
    FinanceManager.add_expense_first bs category tr = Some (r, bs') ->
    map Budget.category bs' = map Budget.category bs
    /\ (Forall budget_ok bs -> Forall budget_ok bs').
Proof.
  induction bs as [| b bs IH]; intros r bs';
    cbn [FinanceManager.add_expense_first]; [discriminate|].
  destruct (str_eq (Budget.category b) category).
  - destruct (Budget.add_expense b (Obj tr)) as [r0 b0] eqn:E.
    intros Heq. inversion Heq; subst; clear Heq.
    destruct (add_expense_ok _ _ _ _ E) as (Hc & Hok).
    split; [simpl; rewrite Hc; reflexivity|].
    intros H. inversion H; subst. constructor; auto.
  - destruct (FinanceManager.add_expense_first bs category tr) as [[r0 l]|];
      [|discriminate].
    intros Heq. inversion Heq; subst; clear Heq.
    destruct (IH r l eq_refl) as (Hc & Hok).
    split; [simpl; rewrite Hc; reflexivity|].
    intros H. inversion H; subst. constructor; auto.
Qed.

Lemma add_transaction_budgets
  (date transaction_type category amount description : pyval)
  (self : FinanceManager.t) :
  let self' := snd (FinanceManager.add_transaction date transaction_type category
                      amount description self) in
  FinanceManager.budget_file self' = FinanceManager.budget_file self
  /\ categories self' = categories self
  /\ (Forall budget_ok (FinanceManager.budgets self) ->
      Forall budget_ok (FinanceManager.budgets self')).
Proof.
  unfold FinanceManager.add_transaction, FinanceManager.bind, FinanceManager.lift,
    categories.
  destruct (Transaction.init date transaction_type category amount description)
    as [tr | e]; simpl; [|auto].
  destruct (str_eq "expense" transaction_type); simpl; [|auto].
  destruct (FinanceManager.add_expense_first (FinanceManager.budgets self)
              category tr) as [[r bs']|] eqn:E; simpl; [|auto].
  destruct (add_expense_first_ok _ _ _ _ _ E) as (Hc & Hok).
  destruct r; simpl; auto.
Qed.

Lemma add_budget_budgets (category allocated_amount period : pyval)
  (self : FinanceManager.t) :
  let self' := snd (FinanceManager.add_budget category allocated_amount period
                      self) in
  FinanceManager.budget_file self' = FinanceManager.budget_file self
  /\ (budgets_unique (FinanceManager.budgets self) ->
      budgets_unique (FinanceManager.budgets self')).
Proof.
  unfold FinanceManager.add_budget, FinanceManager.bind, FinanceManager.gets,
    FinanceManager.raise, FinanceManager.lift, budgets_unique.
  destruct (existsb (fun budget => str_eq (Budget.category budget) category)
              (FinanceManager.budgets self)) eqn:E; simpl; [auto|].
  destruct (Budget.init category allocated_amount period) as [b | e] eqn:Eb;
    simpl; [|auto].
  split; [reflexivity|]. intros (Hok & Hnd).
  destruct (Budget_init_ok _ _ _ _ Eb) as (Hb & Hc).
  split.
  - apply Forall_app. split; [exact Hok | constructor; [exact Hb | constructor]].
  - rewrite map_app. simpl.
    apply NoDup_app; [exact Hnd | constructor; [intros [] | constructor] | ].
    intros c Hin [<- | []]. apply in_map_iff in Hin.
    destruct Hin as (b0 & Hb0 & Hin).
    assert (Hex : existsb (fun budget => str_eq (Budget.category budget) category)
                    (FinanceManager.budgets self) = true).
    { apply existsb_category. exists b0. split; [exact Hin | congruence]. }
    congruence.
Qed.

Lemma save_transactions_budgets (self : FinanceManager.t) :
  let self' := snd (FinanceManager.save_transactions self) in
  FinanceManager.budgets self' = FinanceManager.budgets self
  /\ FinanceManager.budget_file self' = FinanceManager.budget_file self.
Proof.
  unfold FinanceManager.save_transactions, FinanceManager.try_except,
    FinanceManager.bind, FinanceManager.gets, FinanceManager.lift.
  destruct (open_write (FinanceManager.transaction_file self) _) as [f | e];
    simpl; [auto | destruct (is_OSError e); simpl; auto].
Qed.

Lemma load_transactions_budgets (self : FinanceManager.t) :
  let self' := snd (FinanceManager.load_transactions self) in
  FinanceManager.budgets self' = FinanceManager.budgets self
  /\ FinanceManager.budget_file self' = FinanceManager.budget_file self.
Proof.
  unfold FinanceManager.load_transactions, FinanceManager.try_except,
    FinanceManager.bind, FinanceManager.gets, FinanceManager.lift,
    FinanceManager.set_transactions, FinanceManager.raise, FinanceManager.ret.
  cbn [FinanceManager.transaction_file FinanceManager.budgets
       FinanceManager.budget_file fst snd].
  destruct (FinanceManager.transaction_file self) as [| r w text];
    cbn [exists_ negb open_read]; [split; reflexivity|].
  destruct r; [|split; reflexivity].
  destruct (csv.reader_rows (read_lines text)) as [[| hd rows] [e|]].

  - destruct (is_OSError e); split; reflexivity.
  - split; reflexivity.
  - rewrite load_rows_spec. destruct (is_OSError e); split; reflexivity.
  - rewrite load_rows_spec. split; reflexivity.
Qed.

Lemma save_budgets_invariant (self : FinanceManager.t) :
  invariant self -> invariant (snd (FinanceManager.save_budgets self)).
Proof.
  intros ((Hok & Hnd) & Hfile). unfold invariant.
  destruct (budget_data_ok _ Hok) as (rs & Hlen & Hdata & Hser).
  unfold FinanceManager.save_budgets, FinanceManager.bind,
    FinanceManager.try_except, FinanceManager.gets, FinanceManager.lift,
    FinanceManager.set_budget_file, json.dump.
  rewrite Hdata, Hser.
  assert (Hown : forall r w, own_budget_file
            (File r w (json.Document
                         (PyList (budget_entries (FinanceManager.budgets self) rs))))).
  { intros r w. exists (FinanceManager.budgets self), rs. repeat split; auto. }
  destruct (FinanceManager.budget_file self) as [| r w c] eqn:Ef; simpl.
  - split; [split; assumption | exact (Hown true true)].
  - destruct w; simpl.
    + split; [split; assumption | exact (Hown r true)].
    + rewrite Ef. split; [split; assumption | exact Hfile].
Qed.

Lemma load_budgets_invariant (self : FinanceManager.t) :
  invariant self -> invariant (snd (FinanceManager.load_budgets self)).
Proof.
  intros (_ & Hfile). unfold invariant.
  destruct (FinanceManager.budget_file self) as [| r w c] eqn:Ef.
  - unfold FinanceManager.load_budgets, FinanceManager.bind,
      FinanceManager.gets, FinanceManager.set_budgets.
    cbn [FinanceManager.budget_file]. rewrite Ef.
    split; [split; constructor | exact I].
  - destruct Hfile as (bs & rs & -> & Hlen & Hok & Hnd).
    assert (Hown : own_budget_file
              (File r w (json.Document (PyList (budget_entries bs rs))))).
    { exists bs, rs. repeat split; auto. }
    destruct r.
    + rewrite (load_budgets_entries self bs rs w Hok Hlen Ef).
      cbn [snd FinanceManager.budgets FinanceManager.budget_file]. rewrite Ef.
      split; [split; assumption | exact Hown].
    + unfold FinanceManager.load_budgets, FinanceManager.bind,
        FinanceManager.try_except, FinanceManager.gets, FinanceManager.lift,
        FinanceManager.set_budgets.
      cbn [FinanceManager.budget_file]. rewrite Ef.
      split; [split; constructor | exact Hown].
Qed.

Lemma step_invariant (self self' : FinanceManager.t) :
  step self self' -> invariant self -> invariant self'.
Proof.
  intros Hstep (Hu & Hfile). destruct Hstep.
  - destruct (add_transaction_budgets date transaction_type category amount
                description self) as (Hf & Hc & Hok).
    destruct Hu as (Hbs & Hnd). unfold invariant, budgets_unique.
    rewrite Hf. unfold categories in Hc. rewrite Hc. auto.
  - destruct (add_budget_budgets category allocated_amount period self)
      as (Hf & Hb).
    unfold invariant. rewrite Hf. auto.
  - destruct (save_transactions_budgets self) as (Hb & Hf).
    unfold invariant. rewrite Hb, Hf. auto.
  - apply save_budgets_invariant. split; assumption.
  - destruct (load_transactions_budgets self) as (Hb & Hf).
    unfold invariant. rewrite Hb, Hf. auto.
  - apply load_budgets_invariant. split; assumption.
Qed.

(** From a manager whose budgets are in order and distinct and whose budget
    file, if any, was written by [save_budgets] for such budgets: after any
    sequence of calls of [add_transaction], [add_budget], the two saves and
    the two loads, at most one budget exists per category. *)
Theorem unique_categories_preserved (start self : FinanceManager.t) :
  invariant start ->
  reachable start self ->
  NoDup (categories self).
Proof.
  intros Hstart Hreach.
  assert (Hinv : invariant self).
  { induction Hreach as [| self self' _ IH Hstep]; [exact Hstart|].
    exact (step_invariant self self' Hstep IH). }
  destruct Hinv as ((_ & Hnd) & _). exact Hnd.
Qed.

(** The manager created where no file exists is such a start. *)
Lemma invariant_fresh : invariant (FinanceManager.init NoFile NoFile).
Proof.
  split; [split; constructor | exact I].
Qed.

(** ** The transaction file: what is written is read back, carriage
    returns apart *)

(** *** Lines and characters *)

Lemma parse_line_feed (s : string) :
  forall r, csv.parse_line r s
            = rbind (feed r s) (fun r' => csv.parse_process_char r' None).
Proof.
  induction s as [| c s IH]; intros r; simpl; [reflexivity|].
  destruct (csv.parse_process_char r (Some c)) as [r'|e]; simpl; [apply IH | reflexivity].
Qed.

Lemma feed_app (a b : string) :
  forall r, feed r (a ++ b) = rbind (feed r a) (fun r' => feed r' b).
Proof.
  induction a as [| c a IH]; intros r; simpl; [reflexivity|].
  destruct (csv.parse_process_char r (Some c)) as [r'|e]; simpl; [apply IH | reflexivity].
Qed.

Lemma append_assoc (a b c : string) : ((a ++ b) ++ c = a ++ (b ++ c))%string.
Proof. induction a as [| x a IH]; simpl; [reflexivity | rewrite IH; reflexivity]. Qed.

Lemma append_empty_r (a : string) : (a ++ EmptyString)%string = a.
Proof. induction a as [| x a IH]; simpl; [reflexivity | rewrite IH; reflexivity]. Qed.

Lemma is_empty_app (a : string) (c : ascii) :
  is_empty (a ++ String c EmptyString) = false.
Proof. destruct a; reflexivity. Qed.

Lemma split_lines_head (s : string) :
  forall cur, is_empty cur = false ->
    exists x rest, split_lines cur s = (cur ++ x)%string :: rest.
Proof.
  induction s as [| c s IH]; intros cur Hcur; simpl.
  - rewrite Hcur. exists EmptyString, []. rewrite append_empty_r. reflexivity.
  - destruct (Ascii.eqb c csv.LF).
    + eexists. eexists. reflexivity.
    + destruct (IH (cur ++ String c EmptyString)%string (is_empty_app cur c))
        as (x & rest & H).
      exists (String c x), rest. rewrite H, append_assoc. reflexivity.
Qed.

Lemma rows_from_split (s : string) :
  forall r cur r1,
    feed r cur = Ok r1 ->
    csv.rows_from r (split_lines cur s) = scan r1 (negb (is_empty cur)) s.
Proof.
  induction s as [| c s IH]; intros r cur r1 Hfeed.
  - cbn [split_lines scan]. destruct (is_empty cur) eqn:Ecur; cbn [negb].
    + destruct cur; [|discriminate]. simpl in Hfeed. injection Hfeed as <-. reflexivity.
    + cbn [csv.rows_from]. rewrite parse_line_feed, Hfeed. reflexivity.
  - cbn [split_lines scan]. destruct (Ascii.eqb c csv.LF) eqn:Ec.
    + cbn [csv.rows_from].
      rewrite parse_line_feed, feed_app, Hfeed. cbn [rbind feed].
      destruct (csv.parse_process_char r1 (Some c)) as [r2|e]; cbn [rbind]; [|reflexivity].
      destruct (csv.parse_process_char r2 None) as [r3|e]; [|reflexivity].
      rewrite (IH csv.parse_reset EmptyString csv.parse_reset eq_refl).
      rewrite (IH r3 EmptyString r3 eq_refl). reflexivity.
    + destruct (csv.parse_process_char r1 (Some c)) as [r2|e] eqn:E.
      * rewrite (IH r (cur ++ String c EmptyString)%string r2).
        -- rewrite is_empty_app. reflexivity.
        -- rewrite feed_app, Hfeed. simpl. rewrite E. reflexivity.
      * destruct (split_lines_head s (cur ++ String c EmptyString)%string
                    (is_empty_app cur c)) as (x & rest & H).
        rewrite H. cbn [csv.rows_from].
        rewrite parse_line_feed, !feed_app, Hfeed. simpl. rewrite E. reflexivity.
Qed.

(** *** One step of the reader *)

Lemma special_false (c : ascii) :
  csv.special c = false ->
  Ascii.eqb c csv.delimiter = false /\ Ascii.eqb c csv.quotechar = false
  /\ Ascii.eqb c csv.CR = false /\ Ascii.eqb c csv.LF = false.
Proof.
  unfold csv.special. rewrite !orb_false_iff. tauto.
Qed.

Section Steps.

Variables (acc : list string) (fd : string) (n : N).

Lemma add_char_ok (st : csv.parser_state) (c : ascii) :
  (n < csv.field_size_limit)%N ->
  csv.parse_add_char (csv.mkReader st acc fd n) c
  = Ok (csv.mkReader st acc (fd ++ String c EmptyString) (n + 1)).
Proof.
  intros H. unfold csv.parse_add_char. cbn [csv.field_len].
  apply N.leb_gt in H. rewrite H. reflexivity.
Qed.

Lemma step_field_char (c : ascii) :
  csv.special c = false ->
  (n < csv.field_size_limit)%N ->
  csv.parse_process_char (csv.mkReader csv.IN_FIELD acc fd n) (Some c)
  = Ok (csv.mkReader csv.IN_FIELD acc (fd ++ String c EmptyString) (n + 1)).
Proof.
  intros Hc Hn. destruct (special_false c Hc) as (Hd & Hq & Hcr & Hlf).
  unfold csv.parse_process_char, csv.is_newline. cbn [csv.state].
  rewrite Hlf, Hcr, Hd. cbn [orb]. apply add_char_ok. exact Hn.
Qed.

Lemma step_field_delimiter :
  csv.parse_process_char (csv.mkReader csv.IN_FIELD acc fd n) (Some csv.delimiter)
  = Ok (csv.mkReader csv.START_FIELD (acc ++ [fd]) EmptyString 0).
Proof. reflexivity. Qed.

Lemma step_field_LF :
  csv.parse_process_char (csv.mkReader csv.IN_FIELD acc fd n) (Some csv.LF)
  = Ok (csv.mkReader csv.EAT_CRNL (acc ++ [fd]) EmptyString 0).
Proof. reflexivity. Qed.

Lemma step_quoted_quote :
  csv.parse_process_char (csv.mkReader csv.IN_QUOTED_FIELD acc fd n)
    (Some csv.quotechar)
  = Ok (csv.mkReader csv.QUOTE_IN_QUOTED_FIELD acc fd n).
Proof. reflexivity. Qed.

Lemma step_quoted_char (c : ascii) :
  Ascii.eqb c csv.quotechar = false ->
  (n < csv.field_size_limit)%N ->
  csv.parse_process_char (csv.mkReader csv.IN_QUOTED_FIELD acc fd n) (Some c)
  = Ok (csv.mkReader csv.IN_QUOTED_FIELD acc (fd ++ String c EmptyString) (n + 1)).
Proof.
  intros Hq Hn. unfold csv.parse_process_char. cbn [csv.state].
  rewrite Hq. apply add_char_ok. exact Hn.
Qed.

Lemma step_quoted_end_of_line :
  csv.parse_process_char (csv.mkReader csv.IN_QUOTED_FIELD acc fd n) None
  = Ok (csv.mkReader csv.IN_QUOTED_FIELD acc fd n).
Proof. reflexivity. Qed.

Lemma step_quote_quote :
  (n < csv.field_size_limit)%N ->
  csv.parse_process_char (csv.mkReader csv.QUOTE_IN_QUOTED_FIELD acc fd n)
    (Some csv.quotechar)
  = Ok (csv.mkReader csv.IN_QUOTED_FIELD acc
          (fd ++ String csv.quotechar EmptyString) (n + 1)).
Proof.
  intros Hn. unfold csv.parse_process_char. cbn [csv.state].
  rewrite Ascii.eqb_refl, add_char_ok by exact Hn. reflexivity.
Qed.

Lemma step_quote_delimiter :
  csv.parse_process_char (csv.mkReader csv.QUOTE_IN_QUOTED_FIELD acc fd n)
    (Some csv.delimiter)
  = Ok (csv.mkReader csv.START_FIELD (acc ++ [fd]) EmptyString 0).
Proof. reflexivity. Qed.

Lemma step_quote_LF :
  csv.parse_process_char (csv.mkReader csv.QUOTE_IN_QUOTED_FIELD acc fd n)
    (Some csv.LF)
  = Ok (csv.mkReader csv.EAT_CRNL (acc ++ [fd]) EmptyString 0).
Proof. reflexivity. Qed.

Lemma step_eat_end_of_line :
  csv.parse_process_char (csv.mkReader csv.EAT_CRNL acc fd n) None
  = Ok (csv.mkReader csv.START_RECORD acc fd n).
Proof. reflexivity. Qed.

Lemma step_start_quote (st : csv.parser_state) :
  start_state st ->
  csv.parse_process_char (csv.mkReader st acc fd n) (Some csv.quotechar)
  = Ok (csv.mkReader csv.IN_QUOTED_FIELD acc fd n).
Proof. intros [-> | ->]; reflexivity. Qed.

Lemma step_start_delimiter (st : csv.parser_state) :
  start_state st ->
  csv.parse_process_char (csv.mkReader st acc fd n) (Some csv.delimiter)
  = Ok (csv.mkReader csv.START_FIELD (acc ++ [fd]) EmptyString 0).
Proof. intros [-> | ->]; reflexivity. Qed.

Lemma step_start_char (st : csv.parser_state) (c : ascii) :
  start_state st ->
  csv.special c = false ->
  (n < csv.field_size_limit)%N ->
  csv.parse_process_char (csv.mkReader st acc fd n) (Some c)
  = Ok (csv.mkReader csv.IN_FIELD acc (fd ++ String c EmptyString) (n + 1)).
Proof.
  intros Hst Hc Hn. destruct (special_false c Hc) as (Hd & Hq & Hcr & Hlf).
  destruct Hst as [-> | ->]; unfold csv.parse_process_char, csv.is_newline;
    cbn [csv.state]; rewrite Hlf, Hcr, Hq, Hd; cbn [orb];
    unfold csv.set_state; cbn [csv.fields csv.field csv.field_len];
    rewrite add_char_ok by exact Hn; reflexivity.
Qed.

Lemma step_start_field_LF :
  csv.parse_process_char (csv.mkReader csv.START_FIELD acc fd n) (Some csv.LF)
  = Ok (csv.mkReader csv.EAT_CRNL (acc ++ [fd]) EmptyString 0).
Proof. reflexivity. Qed.

End Steps.

(** *** Fields, records and rows *)

Lemma scan_plain (s : string) :
  forall acc fd n rest,
    plain s ->
    (n + N.of_nat (String.length s) <= csv.field_size_limit)%N ->
    scan (csv.mkReader csv.IN_FIELD acc fd n) true (s ++ rest)
    = scan (csv.mkReader csv.IN_FIELD acc (fd ++ s) (n + N.of_nat (String.length s)))
        true rest.
Proof.
  induction s as [| c s IH]; intros acc fd n rest Hp Hlen.
  - cbn [append String.length N.of_nat]. rewrite append_empty_r, N.add_0_r. reflexivity.
  - unfold plain in Hp. cbn [string_existsb] in Hp. apply orb_false_iff in Hp.
    destruct Hp as [Hc Hs]. cbn [String.length] in Hlen.
    cbn [append scan].
    rewrite step_field_char by (assumption || lia).
    rewrite (proj2 (proj2 (proj2 (special_false c Hc)))).
    rewrite IH; [| exact Hs | lia].
    cbn [String.length]. rewrite append_assoc. cbn [append].
    do 2 f_equal. lia.
Qed.

Lemma scan_quoted (s : string) :
  forall acc fd n p rest,
    (n + N.of_nat (String.length s) <= csv.field_size_limit)%N ->
    scan (csv.mkReader csv.IN_QUOTED_FIELD acc fd n) p
      (csv.double_quotes s ++ String csv.quotechar rest)
    = scan (csv.mkReader csv.QUOTE_IN_QUOTED_FIELD acc (fd ++ s)
              (n + N.of_nat (String.length s))) true rest.
Proof.
  induction s as [| c s IH]; intros acc fd n p rest Hlen.
  - cbn [csv.double_quotes append String.length N.of_nat scan].
    rewrite step_quoted_quote, append_empty_r, N.add_0_r. reflexivity.
  - cbn [String.length] in Hlen.
    assert (Hn : (n < csv.field_size_limit)%N) by lia.
    assert (Hlen' : (n + 1 + N.of_nat (String.length s) <= csv.field_size_limit)%N) by lia.
    assert (Hsum : (n + 1 + N.of_nat (String.length s)
                    = n + N.of_nat (String.length (String c s)))%N)
      by (cbn [String.length]; lia).
    cbn [csv.double_quotes]. destruct (Ascii.eqb c csv.quotechar) eqn:Eq.
    + apply Ascii.eqb_eq in Eq. subst c.
      cbn [append scan]. rewrite step_quoted_quote.
      replace (Ascii.eqb csv.quotechar csv.LF) with false by reflexivity.
      rewrite step_quote_quote by exact Hn.
      rewrite (IH acc _ _ true rest Hlen'), append_assoc, Hsum. reflexivity.
    + cbn [append scan]. rewrite step_quoted_char by assumption.
      destruct (Ascii.eqb c csv.LF) eqn:Elf.
      * rewrite step_quoted_end_of_line. unfold csv.at_start. cbn [csv.state].
        rewrite (IH acc _ _ false rest Hlen'), append_assoc, Hsum. reflexivity.
      * rewrite (IH acc _ _ true rest Hlen'), append_assoc, Hsum. reflexivity.
Qed.

Lemma fits_lt (f : string) (c : ascii) :
  fits (String c f) -> (0 < csv.field_size_limit)%N
  /\ (0 + 1 + N.of_nat (String.length f) <= csv.field_size_limit)%N.
Proof. unfold fits. cbn [String.length]. lia. Qed.

(** A field and the delimiter that follows it. *)
Lemma scan_field_delimiter (f : string) (st : csv.parser_state)
  (acc : list string) (p : bool) (rest : string) :
  start_state st ->
  fits f ->
  scan (csv.mkReader st acc EmptyString 0) p
    (csv.join_append f ++ String csv.delimiter rest)
  = scan (csv.mkReader csv.START_FIELD (acc ++ [f]) EmptyString 0) true rest.
Proof.
  intros Hst Hfit. unfold csv.join_append.
  destruct (string_existsb csv.special f) eqn:Esp.
  - cbn [append]. rewrite append_assoc. cbn [append scan].
    rewrite (step_start_quote _ _ _ st Hst).
    replace (Ascii.eqb csv.quotechar csv.LF) with false by reflexivity.
    rewrite scan_quoted by (unfold fits in Hfit; lia).
    cbn [append scan]. rewrite step_quote_delimiter. reflexivity.
  - destruct f as [| c f].
    + cbn [append scan]. rewrite (step_start_delimiter _ _ _ st Hst). reflexivity.
    + cbn [string_existsb] in Esp. apply orb_false_iff in Esp.
      destruct Esp as [Hc Hf]. destruct (fits_lt f c Hfit) as [H0 Hlen].
      cbn [append scan].
      rewrite (step_start_char _ _ _ st c Hst Hc H0).
      rewrite (proj2 (proj2 (proj2 (special_false c Hc)))).
      rewrite scan_plain by assumption.
      cbn [append scan]. rewrite step_field_delimiter. reflexivity.
Qed.

(** The last field of a record and the LF that ends the record. *)
Lemma scan_field_LF (f : string) (acc : list string) (p : bool) (rest : string) :
  fits f ->
  scan (csv.mkReader csv.START_FIELD acc EmptyString 0) p
    (csv.join_append f ++ String csv.LF rest)
  = let (rows, e) := scan csv.parse_reset false rest in
    ((acc ++ [f]) :: rows, e).
Proof.
  intros Hfit. unfold csv.join_append.
  assert (Hst : start_state csv.START_FIELD) by (right; reflexivity).
  destruct (string_existsb csv.special f) eqn:Esp.
  - cbn [append]. rewrite append_assoc. cbn [append scan].
    rewrite (step_start_quote _ _ _ _ Hst).
    replace (Ascii.eqb csv.quotechar csv.LF) with false by reflexivity.
    rewrite scan_quoted by (unfold fits in Hfit; lia).
    cbn [append scan]. rewrite step_quote_LF, Ascii.eqb_refl, step_eat_end_of_line.
    reflexivity.
  - destruct f as [| c f].
    + cbn [append scan].
      rewrite step_start_field_LF, Ascii.eqb_refl, step_eat_end_of_line.
      reflexivity.
    + cbn [string_existsb] in Esp. apply orb_false_iff in Esp.
      destruct Esp as [Hc Hf]. destruct (fits_lt f c Hfit) as [H0 Hlen].
      cbn [append scan].
      rewrite (step_start_char _ _ _ _ c Hst Hc H0).
      rewrite (proj2 (proj2 (proj2 (special_false c Hc)))).
      rewrite scan_plain by assumption.
      cbn [append scan].
      rewrite step_field_LF, Ascii.eqb_refl, step_eat_end_of_line.
      reflexivity.
Qed.

(** The fields of a record from the second one on. *)
Lemma scan_fields (fs : list string) :
  forall f acc p rest,
    Forall fits (f :: fs) ->
    scan (csv.mkReader csv.START_FIELD acc EmptyString 0) p
      (csv.join_fields (f :: fs) ++ String csv.LF rest)
    = let (rows, e) := scan csv.parse_reset false rest in
      ((acc ++ f :: fs) :: rows, e).
Proof.
  induction fs as [| f' fs IH]; intros f acc p rest Hfit.
  - cbn [csv.join_fields]. inversion Hfit; subst. apply scan_field_LF. assumption.
  - inversion Hfit as [| ? ? Hf Hfs]; subst.
    change (csv.join_fields (f :: f' :: fs))
      with (csv.join_append f ++ String csv.delimiter (csv.join_fields (f' :: fs)))%string.
    rewrite append_assoc. cbn [append].
    rewrite scan_field_delimiter by (assumption || (right; reflexivity)).
    rewrite IH by assumption. rewrite <- app_assoc. reflexivity.
Qed.

(** A record of at least two fields. *)
Lemma scan_record (f f' : string) (fs : list string) (rest : string) :
  Forall fits (f :: f' :: fs) ->
  scan csv.parse_reset false (csv.join_fields (f :: f' :: fs) ++ String csv.LF rest)
  = let (rows, e) := scan csv.parse_reset false rest in
    ((f :: f' :: fs) :: rows, e).
Proof.
  intros Hfit. inversion Hfit as [| ? ? Hf Hfs]; subst.
  change (csv.join_fields (f :: f' :: fs))
    with (csv.join_append f ++ String csv.delimiter (csv.join_fields (f' :: fs)))%string.
  rewrite append_assoc. cbn [append]. unfold csv.parse_reset at 1.
  rewrite scan_field_delimiter by (assumption || (left; reflexivity)).
  rewrite scan_fields by assumption. reflexivity.
Qed.

Lemma scan_rows (rows : list (list string)) :
  Forall good_row rows ->
  scan csv.parse_reset false (rows_text rows) = (rows, None).
Proof.
  induction 1 as [| row rows (Hlen & Hgood) _ IH]; [reflexivity|].
  destruct row as [| f [| f' fs]]; cbn [length] in Hlen; try lia.
  cbn [rows_text]. rewrite scan_record, IH; [reflexivity|].
  eapply Forall_impl; [|exact Hgood]. intros a (_ & Ha). exact Ha.
Qed.

(** *** Newlines *)

Lemma no_CR_app (a b : string) : no_CR a -> no_CR b -> no_CR (a ++ b).
Proof.
  unfold no_CR. induction a as [| c a IH]; cbn [append string_existsb]; [auto|].
  intros Ha Hb. apply orb_false_iff in Ha. destruct Ha as [-> Ha]. exact (IH Ha Hb).
Qed.

Lemma no_CR_cons (c : ascii) (a : string) :
  Ascii.eqb csv.CR c = false -> no_CR a -> no_CR (String c a).
Proof. unfold no_CR. cbn [string_existsb]. intros -> ->. reflexivity. Qed.

Lemma no_CR_double_quotes (s : string) : no_CR s -> no_CR (csv.double_quotes s).
Proof.
  unfold no_CR. induction s as [| c s IH]; cbn [csv.double_quotes string_existsb]; [auto|].
  intros H. apply orb_false_iff in H. destruct H as [Hc Hs].
  destruct (Ascii.eqb c csv.quotechar) eqn:E.
  - apply Ascii.eqb_eq in E. subst c. cbn [string_existsb]. rewrite Hc, (IH Hs). reflexivity.
  - cbn [string_existsb]. rewrite Hc, (IH Hs). reflexivity.
Qed.

Lemma no_CR_join_append (f : string) : no_CR f -> no_CR (csv.join_append f).
Proof.
  intros H. unfold csv.join_append. destruct (string_existsb csv.special f); [|exact H].
  apply no_CR_cons; [reflexivity|].
  apply no_CR_app; [apply no_CR_double_quotes; exact H | reflexivity].
Qed.

Lemma no_CR_join_fields (fs : list string) :
  Forall no_CR fs -> no_CR (csv.join_fields fs).
Proof.
  induction 1 as [| f fs Hf Hfs IH]; [reflexivity|].
  destruct fs as [| f' fs]; [apply no_CR_join_append; exact Hf|].
  change (csv.join_fields (f :: f' :: fs))
    with (csv.join_append f ++ String csv.delimiter (csv.join_fields (f' :: fs)))%string.
  apply no_CR_app; [apply no_CR_join_append; exact Hf|].
  apply no_CR_cons; [reflexivity | exact IH].
Qed.

Lemma translate_newlines_app (a b : string) :
  no_CR a -> translate_newlines (a ++ b) = (a ++ translate_newlines b)%string.
Proof.
  unfold no_CR. induction a as [| c a IH]; cbn [append string_existsb]; [reflexivity|].
  intros H. apply orb_false_iff in H. destruct H as [Hc Ha].
  cbn [translate_newlines]. rewrite Ascii.eqb_sym, Hc, (IH Ha). reflexivity.
Qed.

Lemma writerow_two (f f' : string) (fs : list string) :
  csv.writerow (f :: f' :: fs)
  = (csv.join_fields (f :: f' :: fs) ++ csv.lineterminator)%string.
Proof.
  unfold csv.writerow.
  change (csv.join_fields (f :: f' :: fs))
    with (csv.join_append f ++ String csv.delimiter (csv.join_fields (f' :: fs)))%string.
  destruct (csv.join_append f); reflexivity.
Qed.

Lemma translate_written (rows : list (list string)) :
  Forall good_row rows ->
  translate_newlines (written rows) = rows_text rows.
Proof.
  induction 1 as [| row rows (Hlen & Hgood) _ IH]; [reflexivity|].
  destruct row as [| f [| f' fs]]; cbn [length] in Hlen; try lia.
  cbn [written rows_text]. rewrite writerow_two, append_assoc.
  rewrite translate_newlines_app.
  - unfold csv.lineterminator. cbn [append translate_newlines].
    rewrite !Ascii.eqb_refl, IH. reflexivity.
  - apply no_CR_join_fields. eapply Forall_impl; [|exact Hgood].
    intros a (Ha & _). exact Ha.
Qed.

(** What the writer writes for rows of good fields, the reader reads back,
    when the text comes through universal newlines. *)
Theorem reader_writer (rows : list (list string)) :
  Forall good_row rows ->
  csv.reader_rows (read_lines (written rows)) = (rows, None).
Proof.
  intros H. unfold csv.reader_rows, read_lines.
  rewrite (rows_from_split _ csv.parse_reset EmptyString csv.parse_reset eq_refl).
  rewrite translate_written by exact H. apply scan_rows. exact H.
Qed.

(** *** Transactions through the file *)

Lemma digit_not_CR (c : ascii) : is_digit c = true -> Ascii.eqb csv.CR c = false.
Proof.
  intros H. destruct (Ascii.eqb csv.CR c) eqn:E; [|reflexivity].
  apply Ascii.eqb_eq in E. subst c. discriminate.
Qed.

Lemma good_field_strftime (d : datetime) : good_field (strftime_ymd d).
Proof.
  unfold strftime_ymd, pad4, pad2. cbn [append]. split.
  - unfold no_CR. cbn [string_existsb].
    repeat match goal with
           | |- context [Ascii.eqb csv.CR (digit_char ?z)] =>
               rewrite (digit_not_CR (digit_char z)) by apply digit_char_spec
           end.
    reflexivity.
  - unfold fits. cbn [String.length]. unfold csv.field_size_limit. lia.
Qed.

Lemma good_row_header : good_row FinanceManager.header.
Proof.
  split; [cbn; lia|]. unfold FinanceManager.header.
  repeat (apply Forall_cons;
          [split; [reflexivity | unfold fits, csv.field_size_limit; cbn; lia]|]).
  apply Forall_nil.
Qed.

Lemma good_row_transaction (t : Transaction.t) :
  saves_well t -> good_row (FinanceManager.transaction_row t).
Proof.
  intros (_ & _ & (Hty & _) & Hc & Hds & Ha & _). split; [cbn; lia|].
  unfold FinanceManager.transaction_row.
  apply Forall_cons; [apply good_field_strftime|].
  apply Forall_cons.
  { destruct Hty as [-> | ->]; (split; [reflexivity|]);
      unfold fits, csv.field_size_limit; cbn; lia. }
  apply Forall_cons; [exact Hc|]. apply Forall_cons; [exact Ha|].
  apply Forall_cons; [exact Hds|]. apply Forall_nil.
Qed.

Lemma parse_row_transaction (t : Transaction.t) :
  saves_well t -> parse_row (FinanceManager.transaction_row t) = Some (at_midnight t).
Proof.
  intros (Hd & _ & (Hty & Hc & Ha) & _ & _ & _ & Hf).
  unfold parse_row, FinanceManager.transaction_row.
  rewrite (strptime_strftime _ Hd), Hf.
  unfold Transaction.init. cbn [rbind as_number].
  assert (E : (Transaction.transaction_type t =? "income")
              || (Transaction.transaction_type t =? "expense") = true).
  { destruct Hty as [-> | ->]; reflexivity. }
  rewrite E, Hc, Ha. reflexivity.
Qed.

Lemma details_at_midnight (t : Transaction.t) :
  Transaction.get_details (at_midnight t) = Transaction.get_details t.
Proof. reflexivity. Qed.

Lemma write_rows_written (l : list Transaction.t) :
  FinanceManager.write_rows l = written (map FinanceManager.transaction_row l).
Proof.
  induction l as [| t l IH]; [reflexivity|]. cbn [FinanceManager.write_rows map written].
  rewrite IH. reflexivity.
Qed.

Lemma parsed_rows_transactions (l : list Transaction.t) :
  Forall saves_well l ->
  parsed_rows (map FinanceManager.transaction_row l) = map at_midnight l
  /\ skipped_rows (map FinanceManager.transaction_row l) = [].
Proof.
  induction 1 as [| t l Ht _ (IH1 & IH2)]; [split; reflexivity|].
  cbn [map parsed_rows skipped_rows]. rewrite (parse_row_transaction t Ht), IH1, IH2.
  split; reflexivity.
Qed.

Theorem save_then_load_transactions (self : FinanceManager.t) :
  usable (FinanceManager.transaction_file self) = true ->
  Forall saves_well (FinanceManager.transactions self) ->
  exists saved loaded,
    FinanceManager.save_transactions self = (Ok tt, saved)
    /\ FinanceManager.load_transactions saved = (Ok tt, loaded)
    /\ FinanceManager.transactions loaded
       = map at_midnight (FinanceManager.transactions self)
    /\ map Transaction.get_details (FinanceManager.transactions loaded)
       = map Transaction.get_details (FinanceManager.transactions self)
    /\ FinanceManager.stdout loaded = FinanceManager.stdout self.
Proof.
  intros Hfile Hts.
  set (text := (csv.writerow FinanceManager.header
                ++ FinanceManager.write_rows (FinanceManager.transactions self))%string).
  assert (Hrows : csv.reader_rows (read_lines text)
                  = (FinanceManager.header
                       :: map FinanceManager.transaction_row
                            (FinanceManager.transactions self), None)).
  { unfold text. rewrite write_rows_written.
    change (csv.reader_rows (read_lines
              (written (FinanceManager.header
                          :: map FinanceManager.transaction_row
                               (FinanceManager.transactions self))))
            = (FinanceManager.header
                 :: map FinanceManager.transaction_row
                      (FinanceManager.transactions self), None)).
    apply reader_writer. constructor; [apply good_row_header|].
    apply Forall_map. eapply Forall_impl; [|exact Hts].
    intros t Ht. apply good_row_transaction. exact Ht. }
  destruct (parsed_rows_transactions _ Hts) as (Hparsed & Hskipped).
  exists (FinanceManager.mk (FinanceManager.transactions self)
            (FinanceManager.budgets self) (File true true text)
            (FinanceManager.budget_file self) (FinanceManager.stdout self)).
  eexists. split; [|split].
  - unfold FinanceManager.save_transactions, FinanceManager.try_except,
      FinanceManager.bind, FinanceManager.gets, FinanceManager.lift,
      FinanceManager.set_transaction_file. fold text.
    destruct (FinanceManager.transaction_file self) as [| r w c]; [reflexivity|].
    cbn [usable] in Hfile. apply andb_true_iff in Hfile. destruct Hfile as [-> ->].
    reflexivity.
  - unfold FinanceManager.load_transactions, FinanceManager.try_except,
      FinanceManager.bind, FinanceManager.gets, FinanceManager.lift,
      FinanceManager.set_transactions, FinanceManager.ret.
    cbn [FinanceManager.transaction_file exists_ negb open_read].
    rewrite Hrows, load_rows_spec. cbn [FinanceManager.transactions
      FinanceManager.stdout FinanceManager.budgets FinanceManager.transaction_file
      FinanceManager.budget_file].
    rewrite Hparsed, Hskipped, app_nil_r. reflexivity.
  - cbn [FinanceManager.transactions FinanceManager.stdout app].
    split; [reflexivity|]. split; [|reflexivity].
    rewrite map_map. apply map_ext. intros t. apply details_at_midnight.
Qed.

(** The transactions of the tests are such transactions. *)
Example groceries_saves_well : saves_well groceries.
Proof.
  unfold saves_well, transaction_ok, good_field, no_CR, fits.
  repeat split; try reflexivity; try (right; reflexivity);
    vm_compute; discriminate.
Qed.

Example paycheck_saves_well : saves_well paycheck.
Proof.
  unfold saves_well, transaction_ok, good_field, no_CR, fits.
  repeat split; try reflexivity; try (left; reflexivity);
    vm_compute; discriminate.
Qed.

Example save_then_load_sample :
  exists saved loaded,
    FinanceManager.save_transactions
      (FinanceManager.mk [paycheck; groceries] [] NoFile NoFile [])
    = (Ok tt, saved)
    /\ FinanceManager.load_transactions saved = (Ok tt, loaded)
    /\ FinanceManager.transactions loaded = [paycheck; groceries].
Proof.
  destruct (save_then_load_transactions
              (FinanceManager.mk [paycheck; groceries] [] NoFile NoFile [])
              eq_refl
              (Forall_cons _ paycheck_saves_well
                 (Forall_cons _ groceries_saves_well (Forall_nil _))))
    as (saved & loaded & Hs & Hl & Ht & _).
  exists saved, loaded. auto.
Qed.

(** C1, at a failing input. A transaction whose description holds a
    carriage return is saved inside a quoted field; the file is read back
    with universal newlines, so the description comes back with a line feed
    in its place. *)
Theorem C1_roundtrip_alters_carriage_return :
  let self := FinanceManager.mk [note_with_CR] [] NoFile NoFile [] in
  let self' :=
    snd (FinanceManager.load_transactions
           (snd (FinanceManager.save_transactions self))) in
  FinanceManager.transactions self' = [note_with_LF]
  /\ map Transaction.get_details (FinanceManager.transactions self')
     <> map Transaction.get_details (FinanceManager.transactions self).
Proof.
  split; [vm_compute; reflexivity | vm_compute; discriminate].
Qed.

(** ** The scenarios of the specification *)

(** Add the budget ("Food", 500.00, "June 2025"), then the expense 50.00
    "Food": the budget has spent 50.00 and 450.00 remain. *)
Example scenario_expense_updates_budget :
  let self0 := FinanceManager.init NoFile NoFile in
  let self1 := snd (FinanceManager.add_budget (PyStr "Food") (PyFloat (Fin 500))
                      (PyStr "June 2025") self0) in
  let self2 := snd (FinanceManager.add_transaction (PyDatetime june_25)
                      (PyStr "expense") (PyStr "Food") (PyFloat (Fin 50))
                      (PyStr "Groceries") self1) in
  FinanceManager.transactions self2 = [groceries]
  /\ map Budget.spent_amount (FinanceManager.budgets self2) = [PyFloat (Fin 50)]
  /\ map Budget.get_remaining (FinanceManager.budgets self2)
     = [Ok (PyFloat (Fin 450))]
  /\ FinanceManager.stdout self2 = [].
Proof. repeat split. Qed.

(** Load a transaction file with one well-formed row and one row whose
    amount is not a number: the well-formed row alone is loaded and the
    other one is reported. *)
Example scenario_bad_row_is_skipped :
  FinanceManager.load_transactions
    (FinanceManager.mk [] [] (File true true file_with_bad_amount) NoFile [])
  = (Ok tt,
     FinanceManager.mk [groceries] [] (File true true file_with_bad_amount) NoFile
       [SkippingTransactionRow
          ["2025-06-26"; "expense"; "Food"; "abc"; "Lunch"]]).
Proof. vm_compute. reflexivity. Qed.

(** ** The two classes, further properties *)

(** X1. Details, then the constructor: the values of [get_details] are
    arguments the constructor accepts, and the transaction it returns is the
    one the details came from, at midnight. *)
Theorem details_then_construct (t : Transaction.t) :
  valid_datetime (Transaction.date t) = true ->
  (1000 <=? year (Transaction.date t))%Z = true ->
  transaction_ok t ->
  exists date transaction_type category amount description,
    Transaction.get_details t
    = [ ("date", date); ("transaction_type", transaction_type);
        ("category", category); ("amount", amount);
        ("description", description) ]
    /\ Transaction.init date transaction_type category amount description
       = Ok (at_midnight t).
Proof.
  intros Hd _ (Hty & Hc & Ha).
  eexists _, _, _, _, _. split; [reflexivity|].
  unfold Transaction.init.
  rewrite (strptime_strftime _ Hd). cbn [rbind].
  assert (E : (Transaction.transaction_type t =? "income")
              || (Transaction.transaction_type t =? "expense") = true).
  { destruct Hty as [-> | ->]; reflexivity. }
  rewrite E, Hc. cbn [rbind as_number]. rewrite Ha. reflexivity.
Qed.

Lemma details_then_construct_witness :
  exists date transaction_type category amount description,
    Transaction.get_details groceries
    = [ ("date", date); ("transaction_type", transaction_type);
        ("category", category); ("amount", amount);
        ("description", description) ]
    /\ Transaction.init date transaction_type category amount description
       = Ok (at_midnight groceries).
Proof.
  apply details_then_construct; try reflexivity.
  repeat split. right. reflexivity.
Defined.



Lemma add_expense_matching (b : Budget.t) (t : Transaction.t) (x : pyfloat) :
  as_number (Budget.spent_amount b) = Some x ->
  Transaction.transaction_type t = "expense" ->
  Transaction.category t = Budget.category b ->
  Budget.add_expense b (Obj t)
  = (Ok tt, with_spent b (PyFloat (float_add x (Transaction.amount t)))).
Proof.
  intros Hx Hty Hc. unfold Budget.add_expense, py_add_float.
  rewrite Hty, Hc, Hx. cbn [String.eqb negb].
  rewrite !String.eqb_refl. reflexivity.
Qed.

Lemma add_expenses_matching (ts : list Transaction.t) :
  forall (b : Budget.t) (x : pyfloat),
    as_number (Budget.spent_amount b) = Some x ->
    Forall (fun t => Transaction.transaction_type t = "expense"
                     /\ Transaction.category t = Budget.category b) ts ->
    exists spent,
      add_expenses b ts = (Ok tt, with_spent b spent)
      /\ as_number spent = Some (sum_from x (map Transaction.amount ts)).
Proof.
  induction ts as [| t ts IH]; intros b x Hx Hts.
  - exists (Budget.spent_amount b). split; [destruct b; reflexivity | exact Hx].
  - inversion Hts as [| ? ? [Hty Hc] Hts']; subst.
    cbn [add_expenses]. rewrite (add_expense_matching b t x Hx Hty Hc).
    destruct (IH (with_spent b (PyFloat (float_add x (Transaction.amount t))))
                (float_add x (Transaction.amount t)) eq_refl Hts')
      as (spent & E & Hs).
    exists spent. split; [exact E | exact Hs].
Qed.

Lemma not_below_ltb (x y : pyfloat) : not_below x y -> float_ltb y x = false.
Proof.
  destruct x as [p | s | ], y as [q | s' | ]; cbn [not_below float_ltb];
    try reflexivity.
  - intros H. apply Qltb_false. exact H.
  - intros ->. reflexivity.
  - intros ->. reflexivity.
  - intros [-> | ->]; [apply andb_false_r | reflexivity].
Qed.

Lemma not_below_add (x y a : pyfloat) :
  x <> NaN -> not_below x y -> float_ltb a float_zero = false ->
  not_below x (float_add y a).
Proof.
  intros Hx Hxy Ha.
  destruct x as [p | s | ]; [ | | congruence];
    destruct y as [q | s' | ], a as [r | s'' | ];
    cbn [float_add not_below float_ltb float_zero] in *; auto.
  - apply Qltb_false in Ha. rewrite Qred_correct.
    apply Qle_trans with (q + 0)%Q.
    + rewrite Qplus_0_r. exact Hxy.
    + apply Qplus_le_r. exact Ha.
  - destruct (Bool.eqb s' s'') eqn:E; auto.
  - destruct (Bool.eqb s' s'') eqn:E; auto.
Qed.

Lemma sum_from_not_below (amounts : list pyfloat) :
  forall x y : pyfloat,
    x <> NaN -> not_below x y ->
    Forall (fun a => float_ltb a float_zero = false) amounts ->
    not_below x (sum_from y amounts).
Proof.
  induction amounts as [| a l IH]; intros x y Hx Hxy Hl.
  - exact Hxy.
  - inversion Hl; subst. unfold sum_from. cbn [fold_left].
    apply IH; auto. apply not_below_add; auto.
Qed.

Lemma not_below_refl (x : pyfloat) : not_below x x.
Proof.
  destruct x as [p | s | ]; cbn; auto.
  - apply Qle_refl.
  - destruct s; auto.
Qed.

Lemma sum_from_not_less (amounts : list pyfloat) (x : pyfloat) :
  Forall (fun a => float_ltb a float_zero = false) amounts ->
  float_ltb (sum_from x amounts) x = false.
Proof.
  intros Hl. destruct x as [p | s | ] eqn:Ex.
  - apply not_below_ltb, sum_from_not_below; [discriminate | apply not_below_refl | exact Hl].
  - apply not_below_ltb, sum_from_not_below; [discriminate | apply not_below_refl | exact Hl].
  - destruct (sum_from NaN amounts); reflexivity.
Qed.



Lemma get_remaining_not_number (b : Budget.t) :
  as_number (Budget.spent_amount b) = None ->
  Budget.get_remaining b = Raise (TypeError "unsupported operand type(s) for -").
Proof.
  intros H. unfold Budget.get_remaining, py_float_sub. rewrite H. reflexivity.
Qed.

Lemma budget_data_not_number (bs : list Budget.t) (b : Budget.t) :
  In b bs -> as_number (Budget.spent_amount b) = None ->
  FinanceManager.budget_data bs
  = Raise (TypeError "unsupported operand type(s) for -").
Proof.
  intros Hin Hb. induction bs as [| b' bs IH]; [destruct Hin|].
  cbn [FinanceManager.budget_data]. unfold Budget.get_details.
  destruct (as_number (Budget.spent_amount b')) as [x|] eqn:Ex.
  - rewrite (get_remaining_number b' x Ex). cbn [rbind].
    destruct Hin as [-> | Hin]; [congruence|]. rewrite (IH Hin). reflexivity.
  - rewrite (get_remaining_not_number b' Ex). reflexivity.
Qed.



(** ** add_transaction and the budgets *)

Lemma add_expense_first_split (l1 : list Budget.t) (b : Budget.t)
  (l2 : list Budget.t) (c : string) (tr : Transaction.t) :
  (forall b', In b' l1 -> Budget.category b' <> c) ->
  Budget.category b = c ->
  FinanceManager.add_expense_first (l1 ++ b :: l2) (PyStr c) tr
  = Some (fst (Budget.add_expense b (Obj tr)),
          l1 ++ snd (Budget.add_expense b (Obj tr)) :: l2).
Proof.
  intros Hl1 Hb. induction l1 as [| b1 l1 IH].
  - cbn [app FinanceManager.add_expense_first str_eq]. rewrite Hb, String.eqb_refl.
    destruct (Budget.add_expense b (Obj tr)). reflexivity.
  - cbn [app FinanceManager.add_expense_first str_eq].
    assert (E : (Budget.category b1 =? c) = false).
    { apply String.eqb_neq. apply Hl1. left. reflexivity. }
    rewrite E, IH; [reflexivity|]. intros b' Hin. apply Hl1. right. exact Hin.
Qed.



(** ** Saving and loading, further properties *)

Lemma save_transactions_run (self : FinanceManager.t) :
  FinanceManager.save_transactions self
  = (Ok tt,
     with_printed
       (with_files self
          (if writable (FinanceManager.transaction_file self)
           then overwritten (FinanceManager.transaction_file self)
                  (transactions_text (FinanceManager.transactions self))
           else FinanceManager.transaction_file self)
          (FinanceManager.budget_file self))
       (save_report (FinanceManager.transaction_file self) ErrorSavingTransactions)).
Proof.
  unfold FinanceManager.save_transactions, FinanceManager.try_except,
    FinanceManager.bind, FinanceManager.gets, FinanceManager.lift,
    FinanceManager.set_transaction_file, save_report, with_printed, with_files.
  destruct self as [ts bs tf bf out].
  destruct tf as [| r [] c]; cbn; rewrite ?app_nil_r; reflexivity.
Qed.

Lemma save_budgets_run (self : FinanceManager.t) :
  Forall budget_ok (FinanceManager.budgets self) ->
  exists rs,
    length rs = length (FinanceManager.budgets self)
    /\ FinanceManager.save_budgets self
       = (Ok tt,
          with_printed
            (with_files self (FinanceManager.transaction_file self)
               (if writable (FinanceManager.budget_file self)
                then overwritten (FinanceManager.budget_file self)
                       (json.Document
                          (PyList (budget_entries (FinanceManager.budgets self) rs)))
                else FinanceManager.budget_file self))
            (save_report (FinanceManager.budget_file self) ErrorSavingBudgets)).
Proof.
  intros Hok. destruct (budget_data_ok _ Hok) as (rs & Hlen & Hdata & Hser).
  exists rs. split; [exact Hlen|].
  unfold FinanceManager.save_budgets, FinanceManager.try_except,
    FinanceManager.bind, FinanceManager.gets, FinanceManager.lift,
    FinanceManager.set_budget_file, json.dump, save_report, with_printed, with_files.
  rewrite Hdata, Hser. clear.
  destruct self as [ts bs tf bf out].
  destruct bf as [| r [] c]; cbn; rewrite ?app_nil_r; reflexivity.
Qed.



Lemma parsed_or_skipped (rows : list (list string)) :
  (length (parsed_rows rows) + length (skipped_rows rows))%nat = length rows.
Proof.
  induction rows as [| row rows IH]; [reflexivity|].
  cbn [parsed_rows skipped_rows]. destruct (parse_row row); cbn [length]; lia.
Qed.



Lemma load_entries_files (entries : list pyval) :
  forall self : FinanceManager.t,
    let self' := snd (FinanceManager.for_each entries FinanceManager.load_entry self) in
    FinanceManager.transactions self' = FinanceManager.transactions self
    /\ FinanceManager.transaction_file self' = FinanceManager.transaction_file self
    /\ FinanceManager.budget_file self' = FinanceManager.budget_file self.
Proof.
  induction entries as [| entry entries IH]; intros self; [repeat split|].
  cbn [FinanceManager.for_each]. unfold FinanceManager.bind.
  destruct (load_entry_outcomes entry self) as [(b & E) | [E | (msg & E)]];
    rewrite E.
  - specialize (IH (FinanceManager.mk (FinanceManager.transactions self)
                      (FinanceManager.budgets self ++ [b])
                      (FinanceManager.transaction_file self)
                      (FinanceManager.budget_file self) (FinanceManager.stdout self))).
    exact IH.
  - specialize (IH (FinanceManager.mk (FinanceManager.transactions self)
                      (FinanceManager.budgets self)
                      (FinanceManager.transaction_file self)
                      (FinanceManager.budget_file self)
                      (FinanceManager.stdout self ++ [SkippingBudgetEntry entry]))).
    exact IH.
  - repeat split.
Qed.

(** X8. Loading never writes: whatever the two files hold, [load_transactions]
    and [load_budgets] leave them as they are, and each leaves the list of
    the other alone. Where there is no file, the list is emptied, nothing
    is printed and nothing is raised. *)
Theorem load_leaves_files (self : FinanceManager.t) :
  (let self' := snd (FinanceManager.load_transactions self) in
   FinanceManager.transaction_file self' = FinanceManager.transaction_file self
   /\ FinanceManager.budget_file self' = FinanceManager.budget_file self
   /\ FinanceManager.budgets self' = FinanceManager.budgets self)
  /\ (let self' := snd (FinanceManager.load_budgets self) in
      FinanceManager.transaction_file self' = FinanceManager.transaction_file self
      /\ FinanceManager.budget_file self' = FinanceManager.budget_file self
      /\ FinanceManager.transactions self' = FinanceManager.transactions self)
  /\ (FinanceManager.transaction_file self = NoFile ->
      FinanceManager.load_transactions self = (Ok tt, with_transactions self []))
  /\ (FinanceManager.budget_file self = NoFile ->
      FinanceManager.load_budgets self = (Ok tt, with_budgets self [])).
Proof.
  split; [|split; [|split]].
  - destruct (load_transactions_budgets self) as [Hb Hf]. cbv zeta.
    split; [|split; [exact Hf | exact Hb]].
    destruct (FinanceManager.transaction_file self) as [| r w text] eqn:E.
    + unfold FinanceManager.load_transactions, FinanceManager.bind,
        FinanceManager.set_transactions, FinanceManager.gets, FinanceManager.ret.
      cbn [FinanceManager.transaction_file]. rewrite E. reflexivity.
    + destruct r.
      * rewrite (load_transactions_spec self w text E).
        destruct (csv.reader_rows (read_lines text)) as [[| header rows] err];
          exact E.
      * unfold FinanceManager.load_transactions, FinanceManager.bind,
          FinanceManager.set_transactions, FinanceManager.gets, FinanceManager.ret,
          FinanceManager.try_except, FinanceManager.lift.
        cbn [FinanceManager.transaction_file]. rewrite E. reflexivity.
  - cbv zeta.
    unfold FinanceManager.load_budgets, FinanceManager.bind,
      FinanceManager.set_budgets, FinanceManager.gets, FinanceManager.ret,
      FinanceManager.try_except, FinanceManager.lift.
    cbn [FinanceManager.budget_file].
    destruct (FinanceManager.budget_file self) as [| r w text] eqn:E;
      [repeat split; exact E|].
    cbn [exists_ negb open_read].
    destruct r; [|repeat split; exact E].
    destruct (json.load text) as [doc|e]; [|destruct (is_OSError e); repeat split; exact E].
    destruct (py_iter doc) as [entries|e];
      [|destruct (is_OSError e); repeat split; exact E].
    pose proof (load_entries_files entries
                  (FinanceManager.mk (FinanceManager.transactions self) []
                     (FinanceManager.transaction_file self) (File true w text)
                     (FinanceManager.stdout self))) as H.
    cbv zeta in H.
    destruct (FinanceManager.for_each entries FinanceManager.load_entry _)
      as [[[]|e] self'] eqn:Ef; cbn [snd] in H |- *.
    + destruct H as (H1 & H2 & H3). auto.
    + destruct (is_OSError e); cbn [snd FinanceManager.print
        FinanceManager.transaction_file FinanceManager.budget_file
        FinanceManager.transactions]; destruct H as (H1 & H2 & H3); auto.
  - intros E. unfold FinanceManager.load_transactions, FinanceManager.bind,
      FinanceManager.set_transactions, FinanceManager.gets, FinanceManager.ret.
    cbn [FinanceManager.transaction_file]. unfold with_transactions.
    rewrite E. reflexivity.
  - intros E. unfold FinanceManager.load_budgets, FinanceManager.bind,
      FinanceManager.set_budgets, FinanceManager.gets, FinanceManager.ret.
    cbn [FinanceManager.budget_file]. unfold with_budgets.
    rewrite E. reflexivity.
Qed.

Lemma load_leaves_files_witness :
  FinanceManager.load_transactions
    (FinanceManager.mk [groceries] [food_budget] NoFile NoFile [])
  = (Ok tt, FinanceManager.mk [] [food_budget] NoFile NoFile [])
  /\ FinanceManager.load_budgets
       (FinanceManager.mk [groceries] [food_budget] NoFile NoFile [])
     = (Ok tt, FinanceManager.mk [groceries] [] NoFile NoFile []).
Proof.
  destruct (load_leaves_files
              (FinanceManager.mk [groceries] [food_budget] NoFile NoFile []))
    as (_ & _ & H1 & H2).
  split; [exact (H1 eq_refl) | exact (H2 eq_refl)].
Defined.

Lemma saved_text_rows (l : list Transaction.t) :
  Forall saves_well l ->
  csv.reader_rows (read_lines (transactions_text l))
  = (FinanceManager.header :: map FinanceManager.transaction_row l, None).
Proof.
  intros Hl. unfold transactions_text. rewrite write_rows_written.
  change (csv.reader_rows (read_lines
            (written (FinanceManager.header :: map FinanceManager.transaction_row l)))
          = (FinanceManager.header :: map FinanceManager.transaction_row l, None)).
  apply reader_writer. constructor; [apply good_row_header|].
  apply Forall_map. eapply Forall_impl; [|exact Hl].
  intros t Ht. apply good_row_transaction. exact Ht.
Qed.

Lemma load_saved_transactions (self : FinanceManager.t) (w : bool)
  (l : list Transaction.t) :
  FinanceManager.transaction_file self = File true w (transactions_text l) ->
  Forall saves_well l ->
  FinanceManager.load_transactions self
  = (Ok tt, with_transactions self (map at_midnight l)).
Proof.
  intros Hf Hl. rewrite (load_transactions_spec self w _ Hf).
  rewrite (saved_text_rows l Hl).
  destruct (parsed_rows_transactions l Hl) as (-> & ->).
  rewrite app_nil_r. reflexivity.
Qed.

Lemma totals_at_midnight (ts : list Transaction.t) :
  forall i e, Console.totals (map at_midnight ts) i e = Console.totals ts i e.
Proof.
  induction ts as [| t ts IH]; intros i e; [reflexivity|].
  cbn [map Console.totals at_midnight Transaction.transaction_type
    Transaction.amount].
  rewrite !IH. reflexivity.
Qed.

Lemma category_totals_at_midnight (ts : list Transaction.t) :
  forall acc,
    Console.category_totals (map at_midnight ts) acc = Console.category_totals ts acc.
Proof.
  induction ts as [| t ts IH]; intros acc; [reflexivity|].
  cbn [map Console.category_totals at_midnight Transaction.transaction_type
    Transaction.amount Transaction.category].
  rewrite !IH. reflexivity.
Qed.

Lemma monthly_totals_at_midnight (ts : list Transaction.t) :
  forall acc,
    Console.monthly_totals (map at_midnight ts) acc = Console.monthly_totals ts acc.
Proof.
  induction ts as [| t ts IH]; intros acc; [reflexivity|].
  cbn [map Console.monthly_totals]. rewrite !IH. reflexivity.
Qed.

Lemma Transaction_str_at_midnight (t : Transaction.t) :
  Transaction_str (at_midnight t) = Transaction_str t.
Proof. reflexivity. Qed.

(** What is shown depends on the days, not on the times of day. *)
Lemma shown_at_midnight (a b : FinanceManager.t) :
  FinanceManager.transactions a = map at_midnight (FinanceManager.transactions b) ->
  FinanceManager.budgets a = FinanceManager.budgets b ->
  Console.view_transactions a = Console.view_transactions b
  /\ Console.view_budgets a = Console.view_budgets b
  /\ Console.report_totals a = Console.report_totals b
  /\ Console.report_category_spending a = Console.report_category_spending b
  /\ Console.report_monthly_summary a = Console.report_monthly_summary b.
Proof.
  intros Ht Hb.
  unfold Console.view_transactions, Console.view_budgets, Console.report_totals,
    Console.report_category_spending, Console.report_monthly_summary.
  rewrite Ht, Hb, totals_at_midnight, category_totals_at_midnight,
    monthly_totals_at_midnight.
  repeat split.
  destruct (FinanceManager.transactions b) as [| t ts]; [reflexivity|].
  cbn [map]. rewrite map_map.
  rewrite (map_ext _ Transaction_str Transaction_str_at_midnight).
  reflexivity.
Qed.



(** X10. Transactions through the file: when no category and no description
    holds a carriage return, the fields are within the size limit of the
    reader, the years have four digits and the amounts are read back from
    their [repr], [save_transactions] writes the header row and a row for
    each transaction, and [load_transactions] then gives back the
    transactions in their order, each at midnight of its day, with the
    details they had; nothing is reported, and the budgets and the files
    stay as they are. *)
Theorem transactions_survive_the_file (self : FinanceManager.t) :
  usable (FinanceManager.transaction_file self) = true ->
  Forall saves_well (FinanceManager.transactions self) ->
  exists saved loaded,
    FinanceManager.save_transactions self = (Ok tt, saved)
    /\ stored (FinanceManager.transaction_file saved)
       = Some (transactions_text (FinanceManager.transactions self))
    /\ FinanceManager.load_transactions saved = (Ok tt, loaded)
    /\ FinanceManager.transactions loaded
       = map at_midnight (FinanceManager.transactions self)
    /\ map Transaction.get_details (FinanceManager.transactions loaded)
       = map Transaction.get_details (FinanceManager.transactions self)
    /\ FinanceManager.budgets loaded = FinanceManager.budgets self
    /\ FinanceManager.transaction_file loaded = FinanceManager.transaction_file saved
    /\ FinanceManager.budget_file loaded = FinanceManager.budget_file self
    /\ FinanceManager.stdout loaded = FinanceManager.stdout self.
Proof.
  intros Hf Hts.
  assert (Hw : writable (FinanceManager.transaction_file self) = true).
  { destruct (FinanceManager.transaction_file self) as [| r w c]; [reflexivity|].
    cbn [usable] in Hf. apply andb_true_iff in Hf. tauto. }
  assert (Ho : overwritten (FinanceManager.transaction_file self)
                 (transactions_text (FinanceManager.transactions self))
               = File true true (transactions_text (FinanceManager.transactions self))).
  { destruct (FinanceManager.transaction_file self) as [| r w c]; [reflexivity|].
    cbn [usable] in Hf. apply andb_true_iff in Hf. destruct Hf as [-> ->].
    reflexivity. }
  pose proof (save_transactions_run self) as Es.
  unfold save_report in Es. rewrite Hw, Ho in Es.
  eexists. eexists. split; [exact Es|]. split; [reflexivity|].
  split; [apply (load_saved_transactions _ true (FinanceManager.transactions self));
          [reflexivity | exact Hts]|].
  cbn [with_transactions with_printed with_files FinanceManager.transactions
    FinanceManager.budgets FinanceManager.transaction_file
    FinanceManager.budget_file FinanceManager.stdout].
  split; [reflexivity|]. split.
  { rewrite map_map. apply map_ext. intros t. apply details_at_midnight. }
  split; [reflexivity|]. split; [reflexivity|]. split; [reflexivity|].
  apply app_nil_r.
Qed.

Lemma transactions_survive_the_file_witness :
  exists saved loaded,
    FinanceManager.save_transactions
      (FinanceManager.mk [paycheck; groceries] [] NoFile NoFile [])
    = (Ok tt, saved)
    /\ stored (FinanceManager.transaction_file saved)
       = Some (transactions_text [paycheck; groceries])
    /\ FinanceManager.load_transactions saved = (Ok tt, loaded)
    /\ FinanceManager.transactions loaded = [paycheck; groceries]
    /\ map Transaction.get_details (FinanceManager.transactions loaded)
       = map Transaction.get_details [paycheck; groceries]
    /\ FinanceManager.budgets loaded = []
    /\ FinanceManager.transaction_file loaded = FinanceManager.transaction_file saved
    /\ FinanceManager.budget_file loaded = NoFile
    /\ FinanceManager.stdout loaded = [].
Proof.
  apply (transactions_survive_the_file
           (FinanceManager.mk [paycheck; groceries] [] NoFile NoFile [])).
  - reflexivity.
  - exact (Forall_cons _ paycheck_saves_well
             (Forall_cons _ groceries_saves_well (Forall_nil _))).
Defined.

Lemma reachable_invariant (start self : FinanceManager.t) :
  invariant start -> reachable start self -> invariant self.
Proof.
  intros H0 Hr. induction Hr as [| self self' _ IH Hs]; [exact H0|].
  exact (step_invariant _ _ Hs IH).
Qed.

Lemma Budget_str_ok (b : Budget.t) :
  budget_ok b -> exists s, Budget_str b = Ok s.
Proof.
  intros Hb. destruct (budget_ok_number b Hb) as (x & Hx).
  unfold Budget_str. rewrite (get_remaining_number b x Hx). cbn [rbind].
  assert (E : py_format_2f (Budget.spent_amount b) = Ok (format_2f x)).
  { unfold py_format_2f. destruct (Budget.spent_amount b); try discriminate;
      rewrite Hx; reflexivity. }
  rewrite E. cbn [rbind py_format_2f as_number]. eexists. reflexivity.
Qed.

Lemma print_budgets_ok (bs : list Budget.t) :
  Forall budget_ok bs ->
  exists lines,
    Console.print_budgets bs = (lines, Ok tt) /\ length lines = length bs.
Proof.
  induction 1 as [| b bs Hb _ (lines & E & Hlen)].
  - exists []. split; reflexivity.
  - destruct (Budget_str_ok b Hb) as (s & Hs).
    exists (s :: lines). cbn [Console.print_budgets]. rewrite Hs, E.
    split; [reflexivity | cbn [length]; congruence].
Qed.



(** ** The reports *)

Lemma totals_sums (ts : list Transaction.t) :
  forall i e : pyfloat,
    Console.totals ts i e
    = (sum_from i (amounts_of "income" ts), sum_from e (amounts_of "expense" ts)).
Proof.
  induction ts as [| t ts IH]; intros i e; [reflexivity|].
  cbn [Console.totals]. unfold amounts_of. cbn [filter].
  destruct (Transaction.transaction_type t =? "income") eqn:Ei.
  - apply String.eqb_eq in Ei. rewrite Ei.
    change ("income" =? "expense") with false. cbn [map].
    rewrite IH. reflexivity.
  - destruct (Transaction.transaction_type t =? "expense") eqn:Ee.
    + cbn [map]. rewrite IH. reflexivity.
    + rewrite IH. reflexivity.
Qed.

Lemma add_zero_iff (x a : pyfloat) :
  float_ltb x float_zero = false -> float_ltb a float_zero = false ->
  float_ltb (float_add x a) float_zero = false
  /\ float_eqb (float_add x a) float_zero
     = float_eqb x float_zero && float_eqb a float_zero.
Proof.
  destruct x as [p | s | ], a as [q | s' | ];
    cbn [float_add float_ltb float_eqb float_zero];
    intros Hx Ha; try (split; [reflexivity | now rewrite ?andb_false_r]).
  - apply Qltb_false in Hx, Ha. split.
    + apply Qltb_false. rewrite Qred_correct.
      apply Qle_trans with (0 + 0)%Q; [apply Qle_refl|].
      apply Qplus_le_compat; assumption.
    + apply eq_true_iff_eq. rewrite andb_true_iff, !Qeq_bool_iff, Qred_correct.
      split.
      * intros H. split.
        -- apply Qle_antisym; [|exact Hx].
           rewrite <- H. rewrite <- (Qplus_0_r p) at 1.
           apply Qplus_le_r. exact Ha.
        -- apply Qle_antisym; [|exact Ha].
           rewrite <- H. rewrite <- (Qplus_0_l q) at 1.
           apply Qplus_le_l. exact Hx.
      * intros [-> ->]. reflexivity.
  - subst s'. split; [reflexivity | now rewrite andb_false_r].
  - subst s. split; reflexivity.
  - subst s s'. split; reflexivity.
Qed.

Lemma totals_zero (ts : list Transaction.t) :
  Forall transaction_ok ts ->
  forall i e : pyfloat,
    float_ltb i float_zero = false -> float_ltb e float_zero = false ->
    float_ltb (fst (Console.totals ts i e)) float_zero = false
    /\ float_ltb (snd (Console.totals ts i e)) float_zero = false
    /\ float_eqb (fst (Console.totals ts i e)) float_zero
       && float_eqb (snd (Console.totals ts i e)) float_zero
       = float_eqb i float_zero && float_eqb e float_zero
         && forallb zero_amount ts.
Proof.
  induction 1 as [| t ts (Hty & _ & Ha) _ IH]; intros i e Hi He.
  - cbn. rewrite andb_true_r. auto.
  - cbn [Console.totals forallb]. unfold zero_amount at 1.
    destruct Hty as [E | E]; rewrite E.
    + change ("income" =? "income") with true. cbv iota.
      destruct (add_zero_iff i _ Hi Ha) as (Hi' & Ez).
      destruct (IH _ e Hi' He) as (H1 & H2 & H3).
      split; [exact H1|]. split; [exact H2|]. rewrite H3, Ez.
      destruct (float_eqb i float_zero), (float_eqb e float_zero),
        (float_eqb (Transaction.amount t) float_zero); reflexivity.
    + change ("expense" =? "income") with false.
      change ("expense" =? "expense") with true. cbv iota.
      destruct (add_zero_iff e _ He Ha) as (He' & Ez).
      destruct (IH i _ Hi He') as (H1 & H2 & H3).
      split; [exact H1|]. split; [exact H2|]. rewrite H3, Ez.
      destruct (float_eqb i float_zero), (float_eqb e float_zero),
        (float_eqb (Transaction.amount t) float_zero); reflexivity.
Qed.

(** X12. [report_totals] prints one line. The totals are the amounts of the
    incomes and of the expenses, added up in the order of the list, and
    the net balance is the first less the second. The report says that no
    transactions are available exactly when every amount is zero: also when
    there are transactions, all of amount zero. *)
Theorem report_totals_line (self : FinanceManager.t) :
  Forall transaction_ok (FinanceManager.transactions self) ->
  let total_income :=
    sum_from float_zero (amounts_of "income" (FinanceManager.transactions self)) in
  let total_expenses :=
    sum_from float_zero (amounts_of "expense" (FinanceManager.transactions self)) in
  Console.report_totals self
  = (if forallb zero_amount (FinanceManager.transactions self)
     then ["No transactions available for report"]
     else [("Total Income: $" ++ format_2f total_income
            ++ ", Total Expenses: $" ++ format_2f total_expenses
            ++ ", Net: $" ++ format_2f (float_sub total_income total_expenses))%string],
     Ok tt).
Proof.
  intros Hts. cbv zeta. unfold Console.report_totals.
  destruct (totals_zero _ Hts float_zero float_zero eq_refl eq_refl)
    as (_ & _ & Hz).
  rewrite (totals_sums (FinanceManager.transactions self)) in Hz |- *.
  cbn [fst snd] in Hz. rewrite Hz.
  change (float_eqb float_zero float_zero) with true. cbn [andb].
  destruct (forallb zero_amount (FinanceManager.transactions self)); reflexivity.
Qed.

Lemma expense_ok (d : datetime) (c : string) (a : pyfloat) (ds : string) :
  is_empty (strip c) = false -> float_ltb a float_zero = false ->
  transaction_ok (Transaction.mk d "expense" c a ds).
Proof.
  intros Hc Ha. split; [right; reflexivity | split; assumption].
Qed.

Lemma income_ok (d : datetime) (c : string) (a : pyfloat) (ds : string) :
  is_empty (strip c) = false -> float_ltb a float_zero = false ->
  transaction_ok (Transaction.mk d "income" c a ds).
Proof.
  intros Hc Ha. split; [left; reflexivity | split; assumption].
Qed.

Lemma report_totals_line_witness :
  Console.report_totals (FinanceManager.mk [paycheck; groceries] [] NoFile NoFile [])
  = (["Total Income: $1000.00, Total Expenses: $50.00, Net: $950.00"], Ok tt)
  /\ Console.report_totals
       (FinanceManager.mk
          [Transaction.mk june_25 "expense" "Food" (Fin 0) "Free sample"]
          [] NoFile NoFile [])
     = (["No transactions available for report"], Ok tt).
Proof.
  split.
  - apply (report_totals_line
             (FinanceManager.mk [paycheck; groceries] [] NoFile NoFile [])).
    apply Forall_cons; [apply income_ok; reflexivity|].
    apply Forall_cons; [apply expense_ok; reflexivity|]. apply Forall_nil.
  - apply (report_totals_line
             (FinanceManager.mk
                [Transaction.mk june_25 "expense" "Food" (Fin 0) "Free sample"]
                [] NoFile NoFile [])).
    apply Forall_cons; [apply expense_ok; reflexivity|]. apply Forall_nil.
Defined.

(** *** Dictionaries and grouping *)

Lemma dict_contains_set {V} (d : list (string * V)) (k k' : string) (v : V) :
  dict_contains (dict_set d k v) k' = dict_contains d k' || (k =? k').
Proof.
  induction d as [| [k0 v0] d IH]; cbn [dict_set dict_contains].
  - rewrite orb_false_r. reflexivity.
  - destruct (k0 =? k) eqn:E0; cbn [dict_contains].
    + apply String.eqb_eq in E0. subst k0. clear IH.
      destruct (k =? k'); cbn [orb]; [reflexivity | symmetry; apply orb_false_r].
    + rewrite IH. rewrite orb_assoc. reflexivity.
Qed.

Lemma dict_contains_In {V} (d : list (string * V)) (k : string) :
  dict_contains d k = true <-> In k (map fst d).
Proof.
  induction d as [| [k0 v0] d IH]; cbn [dict_contains map In fst].
  - split; [discriminate | tauto].
  - rewrite orb_true_iff, IH, String.eqb_eq. tauto.
Qed.

Lemma dict_set_keys {V} (d : list (string * V)) (k : string) (v : V) :
  map fst (dict_set d k v)
  = map fst d ++ (if dict_contains d k then [] else [k]).
Proof.
  induction d as [| [k0 v0] d IH]; cbn [dict_set dict_contains map fst app].
  - reflexivity.
  - destruct (k0 =? k) eqn:E0; cbn [orb map fst].
    + rewrite app_nil_r. reflexivity.
    + rewrite IH. reflexivity.
Qed.

Lemma dict_set_NoDup {V} (d : list (string * V)) (k : string) (v : V) :
  NoDup (map fst d) -> NoDup (map fst (dict_set d k v)).
Proof.
  intros Hd. rewrite dict_set_keys.
  destruct (dict_contains d k) eqn:E; [rewrite app_nil_r; exact Hd|].
  apply NoDup_app; [exact Hd | repeat constructor; intros [] |].
  intros x Hx [<- | []].
  apply dict_contains_In in Hx. congruence.
Qed.

Section GroupingFacts.

Context {T V : Type}.
Variable key : T -> string.
Variable update : V -> T -> V.
Variable initial : V.

Let of_item (ts : list T) (kv : string * V) : string * V :=
  (fst kv, fold_left update (group_of key (fst kv) ts) (snd kv)).

Let of_key (ts : list T) (k : string) : string * V :=
  (k, fold_left update (group_of key k ts) initial).

Lemma group_of_other (t : T) (ts : list T) (k : string) :
  key t <> k -> group_of key k (t :: ts) = group_of key k ts.
Proof.
  intros H. unfold group_of. cbn [filter].
  apply String.eqb_neq in H. rewrite H. reflexivity.
Qed.

Lemma group_of_same (t : T) (ts : list T) :
  group_of key (key t) (t :: ts) = t :: group_of key (key t) ts.
Proof.
  unfold group_of. cbn [filter]. rewrite String.eqb_refl. reflexivity.
Qed.

Lemma of_item_set (t : T) (ts : list T) (d : list (string * V)) :
  NoDup (map fst d) ->
  map (of_item ts) (dict_set d (key t) (update (dict_get d (key t) initial) t))
  = map (of_item (t :: ts)) d
    ++ (if dict_contains d (key t) then [] else [of_key (t :: ts) (key t)]).
Proof.
  induction d as [| [k0 v0] d IH]; intros Hd.
  - cbn [dict_set dict_get dict_contains map app]. unfold of_item, of_key.
    cbn [fst snd]. rewrite group_of_same. reflexivity.
  - inversion Hd as [| ? ? Hk0 Hd']; subst.
    cbn [dict_set dict_get dict_contains].
    destruct (k0 =? key t) eqn:E0.
    + apply String.eqb_eq in E0. subst k0.
      cbn [orb map app]. rewrite app_nil_r. f_equal.
      * unfold of_item. cbn [fst snd]. rewrite group_of_same. reflexivity.
      * apply map_ext_in. intros [k1 v1] Hin. unfold of_item. cbn [fst snd].
        rewrite group_of_other; [reflexivity|].
        intros <-. apply Hk0. apply (in_map fst) in Hin. exact Hin.
    + cbn [orb map app]. rewrite (IH Hd'). f_equal.
      unfold of_item. cbn [fst snd]. rewrite group_of_other; [reflexivity|].
      apply String.eqb_neq in E0. congruence.
Qed.

Lemma filter_not_key (k : string) (l : list string) :
  Forall (fun x => x <> k) (filter (fun y => negb (y =? k)) l).
Proof.
  apply Forall_forall. intros x Hx. apply filter_In in Hx as [_ Hx].
  apply negb_true_iff, String.eqb_neq in Hx. exact Hx.
Qed.

Lemma grouped_spec (ts : list T) :
  forall d : list (string * V),
    NoDup (map fst d) ->
    grouped key update initial ts d
    = map (of_item ts) d
      ++ map (of_key ts)
           (filter (fun k => negb (dict_contains d k)) (distinct (map key ts))).
Proof.
  induction ts as [| t ts IH]; intros d Hd.
  - cbn [grouped map distinct filter]. rewrite app_nil_r.
    unfold of_item. cbn [group_of filter fold_left].
    symmetry. rewrite <- (map_id d) at 2. apply map_ext. intros [k v]. reflexivity.
  - cbn [grouped map distinct]. rewrite IH by (apply dict_set_NoDup; exact Hd).
    rewrite of_item_set by exact Hd. rewrite <- app_assoc. f_equal.
    cbn [filter].
    assert (E : filter (fun k => negb (dict_contains
                  (dict_set d (key t) (update (dict_get d (key t) initial) t)) k))
                  (distinct (map key ts))
                = filter (fun k => negb (dict_contains d k))
                    (filter (fun y => negb (y =? key t)) (distinct (map key ts)))).
    { generalize (distinct (map key ts)). intros l.
      induction l as [| x l IHl]; [reflexivity|].
      cbn [filter]. rewrite dict_contains_set, IHl.
      rewrite (String.eqb_sym (key t) x).
      destruct (x =? key t); cbn [negb filter];
        [rewrite orb_true_r | rewrite orb_false_r]; reflexivity. }
    rewrite E.
    assert (E2 : map (of_key ts)
                   (filter (fun k => negb (dict_contains d k))
                      (filter (fun y => negb (y =? key t)) (distinct (map key ts))))
                 = map (of_key (t :: ts))
                     (filter (fun k => negb (dict_contains d k))
                        (filter (fun y => negb (y =? key t)) (distinct (map key ts))))).
    { apply map_ext_in. intros x Hx. apply filter_In in Hx as [Hx _].
      apply filter_In in Hx as [_ Hx].
      apply negb_true_iff, String.eqb_neq in Hx.
      unfold of_key. rewrite group_of_other; [reflexivity | congruence]. }
    rewrite E2.
    destruct (dict_contains d (key t)); reflexivity.
Qed.

End GroupingFacts.

Lemma distinct_In (l : list string) (x : string) :
  In x (distinct l) <-> In x l.
Proof.
  induction l as [| y l IH]; [reflexivity|].
  cbn [distinct In]. rewrite filter_In, IH, negb_true_iff, String.eqb_neq.
  destruct (String.eqb_spec y x) as [-> | Hn]; [tauto|].
  split; [tauto|]. intros [H | H]; [tauto|]. right. split; [exact H | congruence].
Qed.

Lemma distinct_NoDup (l : list string) : NoDup (distinct l).
Proof.
  induction l as [| y l IH]; [constructor|].
  cbn [distinct]. constructor.
  - rewrite filter_In, String.eqb_refl. intros [_ H]. discriminate.
  - apply NoDup_filter. exact IH.
Qed.

(** *** report_category_spending *)

Lemma category_totals_grouped (ts : list Transaction.t) :
  forall acc : list (string * pyfloat),
    Console.category_totals ts acc
    = grouped Transaction.category
        (fun total t => float_add total (Transaction.amount t)) float_zero
        (expenses_in ts) acc.
Proof.
  induction ts as [| t ts IH]; intros acc; [reflexivity|].
  cbn [Console.category_totals expenses_in filter].
  destruct (Transaction.transaction_type t =? "expense").
  - cbn [grouped]. apply IH.
  - apply IH.
Qed.

Lemma fold_add_amounts (l : list Transaction.t) (x : pyfloat) :
  fold_left (fun total t => float_add total (Transaction.amount t)) l x
  = sum_from x (map Transaction.amount l).
Proof.
  revert x. induction l as [| t l IH]; intros x; [reflexivity|].
  cbn [fold_left map]. rewrite IH. reflexivity.
Qed.

(** X13. [report_category_spending] groups the expenses by category. It prints
    a line for each category that has an expense, and for no other, in
    the order in which the categories come first among the transactions;
    no category has two lines; the total of a category is the sum of the
    amounts of its expenses, in their order. Incomes do not count; when
    there is no expense the report says so. *)
Theorem report_category_spending_lines (self : FinanceManager.t) :
  let ts := FinanceManager.transactions self in
  let categories := distinct (map Transaction.category (expenses_in ts)) in
  Console.report_category_spending self
  = (match categories with
     | [] => ["No expenses available for report"]
     | _ =>
         "Category Spending Breakdown:"
         :: map (fun c => (c ++ ": $" ++ format_2f (spent_on c ts))%string) categories
     end, Ok tt)
  /\ NoDup categories
  /\ (forall c, In c categories
                <-> exists t, In t ts
                              /\ Transaction.transaction_type t = "expense"
                              /\ Transaction.category t = c).
Proof.
  cbv zeta. split; [|split].
  - unfold Console.report_category_spending.
    rewrite category_totals_grouped, grouped_spec by constructor.
    cbn [map app dict_contains negb].
    rewrite (filter_ext (fun _ : string => true)
               (fun k : string => negb false)) by reflexivity.
    assert (Ef : forall l : list string, filter (fun _ => true) l = l).
    { induction l as [| x l IHl]; [reflexivity|]. cbn [filter]. congruence. }
    rewrite (filter_ext _ (fun _ : string => true)) by reflexivity.
    rewrite Ef.
    set (cats := distinct (map Transaction.category
                   (expenses_in (FinanceManager.transactions self)))).
    set (of_key := fun k : string =>
           (k, fold_left (fun total t => float_add total (Transaction.amount t))
                 (group_of Transaction.category k
                    (expenses_in (FinanceManager.transactions self)))
                 float_zero)).
    assert (Em : map Console.category_line (map of_key cats)
                 = map (fun c => (c ++ ": $" ++ format_2f
                          (spent_on c (FinanceManager.transactions self)))%string) cats).
    { rewrite map_map. apply map_ext. intros k.
      unfold Console.category_line, spent_on, of_key. cbn [fst snd].
      rewrite fold_add_amounts. reflexivity. }
    destruct cats as [| c cs]; [reflexivity|].
    cbn [map] in Em |- *. rewrite Em. reflexivity.
  - apply distinct_NoDup.
  - intros c. rewrite distinct_In, in_map_iff. unfold expenses_in. split.
    + intros (t & Hc & Ht). apply filter_In in Ht as [Hin Hty].
      apply String.eqb_eq in Hty. exists t. auto.
    + intros (t & Hin & Hty & Hc). exists t. split; [exact Hc|].
      apply filter_In. split; [exact Hin|]. rewrite Hty. reflexivity.
Qed.

Lemma report_category_spending_lines_witness :
  Console.report_category_spending
    (FinanceManager.mk
       [groceries; paycheck;
        Transaction.mk june_25 "expense" "Rent" (Fin 300) "Apartment";
        Transaction.mk june_25 "expense" "Food" (Fin 12) "Lunch"]
       [] NoFile NoFile [])
  = (["Category Spending Breakdown:"; "Food: $62.00"; "Rent: $300.00"], Ok tt).
Proof.
  destruct (report_category_spending_lines
              (FinanceManager.mk
                 [groceries; paycheck;
                  Transaction.mk june_25 "expense" "Rent" (Fin 300) "Apartment";
                  Transaction.mk june_25 "expense" "Food" (Fin 12) "Lunch"]
                 [] NoFile NoFile [])) as [H _].
  exact H.
Defined.

(** *** report_monthly_summary *)

Lemma dict_get_set {V} (d : list (string * V)) (k : string) (v default : V) :
  dict_get (dict_set d k v) k default = v.
Proof.
  induction d as [| [k0 v0] d IH]; cbn [dict_set dict_get].
  - rewrite String.eqb_refl. reflexivity.
  - destruct (k0 =? k) eqn:E0; cbn [dict_get]; rewrite E0; [reflexivity | exact IH].
Qed.

Lemma dict_get_absent {V} (d : list (string * V)) (k : string) (default : V) :
  dict_contains d k = false -> dict_get d k default = default.
Proof.
  induction d as [| [k0 v0] d IH]; cbn [dict_contains dict_get]; [reflexivity|].
  intros H. apply orb_false_iff in H as [-> H]. exact (IH H).
Qed.

Lemma dict_set_set {V} (d : list (string * V)) (k : string) (v v' : V) :
  dict_set (dict_set d k v) k v' = dict_set d k v'.
Proof.
  induction d as [| [k0 v0] d IH]; cbn [dict_set].
  - rewrite String.eqb_refl. reflexivity.
  - destruct (k0 =? k) eqn:E0; cbn [dict_set]; rewrite E0; [reflexivity|].
    rewrite IH. reflexivity.
Qed.

Lemma dict_set_get {V} (d : list (string * V)) (k : string) (default : V) :
  dict_contains d k = true -> dict_set d k (dict_get d k default) = d.
Proof.
  induction d as [| [k0 v0] d IH]; cbn [dict_contains dict_set dict_get];
    [discriminate|].
  destruct (k0 =? k) eqn:E0; [reflexivity|].
  cbn [orb]. intros H. rewrite (IH H). reflexivity.
Qed.

Lemma monthly_totals_grouped (ts : list Transaction.t) :
  forall acc : list (string * Console.month_totals),
    Console.monthly_totals ts acc
    = grouped month_of add_to_month (Console.mkTotals float_zero float_zero) ts acc.
Proof.
  induction ts as [| t ts IH]; intros acc; [reflexivity|].
  cbn [Console.monthly_totals grouped]. cbv zeta. rewrite IH. f_equal.
  fold (month_of t). unfold add_to_month.
  set (zero := Console.mkTotals float_zero float_zero).
  destruct (dict_contains acc (month_of t)) eqn:Ec.
  - destruct (Transaction.transaction_type t =? "income"); [reflexivity|].
    destruct (Transaction.transaction_type t =? "expense"); [reflexivity|].
    symmetry. apply dict_set_get. exact Ec.
  - rewrite dict_get_set, (dict_get_absent acc _ zero Ec).
    destruct (Transaction.transaction_type t =? "income");
      [apply dict_set_set|].
    destruct (Transaction.transaction_type t =? "expense");
      [apply dict_set_set | reflexivity].
Qed.

Lemma fold_add_to_month (l : list Transaction.t) :
  forall totals : Console.month_totals,
    fold_left add_to_month l totals
    = Console.mkTotals
        (sum_from (Console.income totals) (amounts_of "income" l))
        (sum_from (Console.expenses totals) (amounts_of "expense" l)).
Proof.
  induction l as [| t l IH]; intros totals; [destruct totals; reflexivity|].
  cbn [fold_left]. rewrite IH. unfold add_to_month, amounts_of. cbn [filter].
  destruct (Transaction.transaction_type t =? "income") eqn:Ei.
  - apply String.eqb_eq in Ei. rewrite Ei.
    change ("income" =? "expense") with false. reflexivity.
  - destruct (Transaction.transaction_type t =? "expense"); reflexivity.
Qed.

Lemma dict_get_of_key {V} (f : string -> V) (l : list string) (k : string)
  (default : V) :
  In k l -> dict_get (map (fun x => (x, f x)) l) k default = f k.
Proof.
  induction l as [| x l IH]; [intros []|].
  cbn [map dict_get]. intros Hin.
  destruct (String.eqb_spec x k) as [-> | Hn]; [reflexivity|].
  destruct Hin as [-> | Hin]; [congruence | exact (IH Hin)].
Qed.

(** Sorting. *)

Lemma insert_sorted_In (s x : string) (l : list string) :
  In x (insert_sorted s l) <-> x = s \/ In x l.
Proof.
  induction l as [| y l IH]; cbn [insert_sorted In]; [intuition congruence|].
  destruct (String.leb s y); cbn [In]; [intuition congruence|].
  rewrite IH. intuition congruence.
Qed.

Lemma sorted_In (l : list string) (x : string) : In x (sorted l) <-> In x l.
Proof.
  induction l as [| y l IH]; [reflexivity|].
  cbn [sorted In]. rewrite insert_sorted_In, IH. intuition congruence.
Qed.

Lemma compare_refl (s : string) : (s ?= s)%string = Eq.
Proof.
  induction s as [| c s IH]; [reflexivity|].
  cbn [String.compare]. unfold Ascii.compare. rewrite N.compare_refl. exact IH.
Qed.

Lemma compare_Lt_trans (a : string) :
  forall b c : string,
    (a ?= b)%string = Lt -> (b ?= c)%string = Lt -> (a ?= c)%string = Lt.
Proof.
  induction a as [| x a IH]; intros [| y b] [| z c]; cbn [String.compare];
    try discriminate; try reflexivity.
  unfold Ascii.compare.
  destruct (N.compare_spec (N_of_ascii x) (N_of_ascii y)) as [Exy | Lxy | Gxy];
    try discriminate;
    destruct (N.compare_spec (N_of_ascii y) (N_of_ascii z)) as [Eyz | Lyz | Gyz];
    try discriminate; intros H1 H2.
  - rewrite Exy, Eyz, N.compare_refl. exact (IH _ _ H1 H2).
  - rewrite Exy. apply N.compare_lt_iff in Lyz. rewrite Lyz. reflexivity.
  - rewrite <- Eyz. apply N.compare_lt_iff in Lxy. rewrite Lxy. reflexivity.
  - assert (L : (N_of_ascii x < N_of_ascii z)%N) by lia.
    apply N.compare_lt_iff in L. rewrite L. reflexivity.
Qed.

Lemma ltb_trans (a b c : string) :
  (a <? b)%string = true -> (b <? c)%string = true -> (a <? c)%string = true.
Proof.
  unfold String.ltb. intros H1 H2.
  destruct (a ?= b)%string eqn:E1; try discriminate.
  destruct (b ?= c)%string eqn:E2; try discriminate.
  rewrite (compare_Lt_trans _ _ _ E1 E2). reflexivity.
Qed.

Lemma insert_sorted_increasing (s : string) (l : list string) :
  ~ In s l ->
  StronglySorted (fun a b => (a <? b)%string = true) l ->
  StronglySorted (fun a b => (a <? b)%string = true) (insert_sorted s l).
Proof.
  intros Hs Hl. induction Hl as [| y l Hl IH Hy]; cbn [insert_sorted].
  - repeat constructor.
  - assert (Hne : s <> y) by (intros ->; apply Hs; left; reflexivity).
    unfold String.leb.
    destruct (s ?= y)%string eqn:E.
    + apply String.compare_eq_iff in E. congruence.
    + constructor; [constructor; assumption|].
      assert (Hsy : (s <? y)%string = true) by (unfold String.ltb; rewrite E; reflexivity).
      constructor; [exact Hsy|].
      eapply Forall_impl; [|exact Hy]. intros z Hz. exact (ltb_trans _ _ _ Hsy Hz).
    + constructor.
      * apply IH. intros Hin. apply Hs. right. exact Hin.
      * apply Forall_forall. intros z Hz. apply insert_sorted_In in Hz as [-> | Hz].
        -- unfold String.ltb. rewrite String.compare_antisym, E. reflexivity.
        -- rewrite Forall_forall in Hy. exact (Hy z Hz).
Qed.

Lemma sorted_increasing (l : list string) :
  NoDup l -> StronglySorted (fun a b => (a <? b)%string = true) (sorted l).
Proof.
  induction 1 as [| x l Hx _ IH]; cbn [sorted]; [constructor|].
  apply insert_sorted_increasing; [|exact IH].
  rewrite sorted_In. exact Hx.
Qed.

(** The names of the months compare as the months do. *)

Lemma digit_char_compare (a b : Z) :
  Ascii.compare (digit_char a) (digit_char b) = (a mod 10 ?= b mod 10)%Z.
Proof.
  unfold Ascii.compare, digit_char.
  assert (Ha : (0 <= a mod 10 < 10)%Z) by (apply Z.mod_pos_bound; lia).
  assert (Hb : (0 <= b mod 10 < 10)%Z) by (apply Z.mod_pos_bound; lia).
  rewrite !N_ascii_embedding by lia.
  rewrite Z2N.inj_compare by lia.
  apply Z.add_compare_mono_l.
Qed.

Lemma strftime_ym_compare (d1 d2 : datetime) :
  (0 <= year d1 < 10000)%Z -> (0 <= year d2 < 10000)%Z ->
  (0 <= month d1 < 100)%Z -> (0 <= month d2 < 100)%Z ->
  (strftime_ym d1 ?= strftime_ym d2)%string
  = match (year d1 ?= year d2)%Z with
    | Eq => (month d1 ?= month d2)%Z
    | c => c
    end.
Proof.
  intros Hy1 Hy2 Hm1 Hm2. unfold strftime_ym, pad4, pad2.
  cbn [append String.compare]. rewrite !digit_char_compare.
  change (Ascii.compare "-" "-") with Eq. cbv iota.
  generalize (year d1) (year d2) (month d1) (month d2) Hy1 Hy2 Hm1 Hm2.
  clear. intros y1 y2 m1 m2 Hy1 Hy2 Hm1 Hm2.
  repeat match goal with
         | |- context [(?a mod 10 ?= ?b mod 10)%Z] =>
             destruct (Z.compare_spec (a mod 10) (b mod 10))
         end;
    destruct (Z.compare_spec y1 y2); try reflexivity;
    try (exfalso; Z.div_mod_to_equations; lia);
    destruct (Z.compare_spec m1 m2); try reflexivity;
    exfalso; Z.div_mod_to_equations; lia.
Qed.

Lemma month_of_before (t1 t2 : Transaction.t) :
  valid_datetime (Transaction.date t1) = true ->
  valid_datetime (Transaction.date t2) = true ->
  (month_of t1 <? month_of t2)%string = true
  <-> month_before (Transaction.date t1) (Transaction.date t2).
Proof.
  intros H1 H2.
  destruct (valid_datetime_bounds _ H1) as (Hy1 & Hm1 & _).
  destruct (valid_datetime_bounds _ H2) as (Hy2 & Hm2 & _).
  unfold month_of, String.ltb, month_before.
  rewrite strftime_ym_compare by lia.
  destruct (Z.compare_spec (year (Transaction.date t1)) (year (Transaction.date t2)));
    [destruct (Z.compare_spec (month (Transaction.date t1))
                 (month (Transaction.date t2))) | | ];
    split; intros Hlt; try discriminate; try reflexivity; lia.
Qed.

(** X14. [report_monthly_summary] groups the transactions by the month of their
    date. It prints a line for each month that has a transaction, and for
    no other, each month once, the months in increasing order of their
    names, which is the order of time; the two totals of a month are the
    sums of the amounts of its incomes and of its expenses, in their
    order. *)
Theorem report_monthly_summary_lines (self : FinanceManager.t) :
  let ts := FinanceManager.transactions self in
  let months := sorted (distinct (map month_of ts)) in
  Console.report_monthly_summary self
  = (match ts with
     | [] => ["No transactions available for report"]
     | _ =>
         "Monthly Summary:"
         :: map (fun m =>
                   (m ++ ": Income: $"
                    ++ format_2f (sum_from float_zero
                                    (amounts_of "income" (in_month m ts)))
                    ++ ", Expenses: $"
                    ++ format_2f (sum_from float_zero
                                    (amounts_of "expense" (in_month m ts))))%string)
              months
     end, Ok tt)
  /\ StronglySorted (fun a b => (a <? b)%string = true) months
  /\ (forall m, In m months <-> exists t, In t ts /\ month_of t = m)
  /\ (forall t1 t2,
        valid_datetime (Transaction.date t1) = true ->
        valid_datetime (Transaction.date t2) = true ->
        (1000 <=? year (Transaction.date t1))%Z = true ->
        (1000 <=? year (Transaction.date t2))%Z = true ->
        ((month_of t1 <? month_of t2)%string = true
         <-> month_before (Transaction.date t1) (Transaction.date t2))).
Proof.
  cbv zeta. split; [|split; [|split]].
  - unfold Console.report_monthly_summary.
    rewrite monthly_totals_grouped, grouped_spec by constructor.
    cbn [map app dict_contains negb].
    assert (Ef : forall l : list string, filter (fun _ => true) l = l).
    { induction l as [| x l IHl]; [reflexivity|]. cbn [filter]. congruence. }
    rewrite Ef.
    set (ts := FinanceManager.transactions self).
    set (of_key := fun k : string =>
           (k, fold_left add_to_month (group_of month_of k ts)
                 (Console.mkTotals float_zero float_zero))).
    set (keys := distinct (map month_of ts)).
    assert (Efst : map fst (map of_key keys) = keys).
    { rewrite map_map. cbn [of_key fst]. apply map_id. }
    assert (Em : map (Console.month_line (map of_key keys)) (sorted keys)
                 = map (fun m =>
                          (m ++ ": Income: $"
                           ++ format_2f (sum_from float_zero
                                           (amounts_of "income" (in_month m ts)))
                           ++ ", Expenses: $"
                           ++ format_2f (sum_from float_zero
                                           (amounts_of "expense" (in_month m ts))))%string)
                     (sorted keys)).
    { apply map_ext_in. intros m Hm. apply (proj1 (sorted_In _ _)) in Hm.
      unfold Console.month_line.
      rewrite (dict_get_of_key (fun k => snd (of_key k)) keys m _ Hm).
      unfold of_key. cbn [snd]. rewrite fold_add_to_month. reflexivity. }
    destruct ts as [| t ts'] eqn:Ets; [reflexivity|].
    assert (Hk : exists k ks, keys = k :: ks).
    { unfold keys. cbn [map distinct]. eauto. }
    destruct Hk as (k & ks & Hk).
    rewrite Hk in Efst, Em |- *. cbn [map] in Efst |- *.
    change (of_key k :: map of_key ks) with (map of_key (k :: ks)).
    rewrite Efst. rewrite <- Em. reflexivity.
  - apply sorted_increasing, distinct_NoDup.
  - intros m. rewrite sorted_In, distinct_In, in_map_iff.
    split; intros (t & H1 & H2); exists t; auto.
  - intros t1 t2 H1 H2 _ _. apply month_of_before; assumption.
Qed.

Lemma report_monthly_summary_lines_witness :
  Console.report_monthly_summary
    (FinanceManager.mk
       [Transaction.mk (mkDatetime 2025 7 1 0 0 0 0) "expense" "Rent" (Fin 300)
          "Apartment";
        paycheck; groceries]
       [] NoFile NoFile [])
  = (["Monthly Summary:";
      "2025-06: Income: $1000.00, Expenses: $50.00";
      "2025-07: Income: $0.00, Expenses: $300.00"], Ok tt)
  /\ ((month_of groceries
       <? month_of (Transaction.mk (mkDatetime 2025 7 1 0 0 0 0) "expense" "Rent"
                      (Fin 300) "Apartment"))%string = true
      <-> month_before june_25 (mkDatetime 2025 7 1 0 0 0 0)).
Proof.
  destruct (report_monthly_summary_lines
              (FinanceManager.mk
                 [Transaction.mk (mkDatetime 2025 7 1 0 0 0 0) "expense" "Rent"
                    (Fin 300) "Apartment";
                  paycheck; groceries]
                 [] NoFile NoFile [])) as (H1 & _ & _ & H4).
  split; [exact H1|].
  apply (H4 groceries
           (Transaction.mk (mkDatetime 2025 7 1 0 0 0 0) "expense" "Rent" (Fin 300)
              "Apartment")); reflexivity.
Defined.

(** ** The text of an amount *)

Lemma digits_value_app (s1 s2 : string) :
  forall a, digits_value a (s1 ++ s2) = digits_value (digits_value a s1) s2.
Proof.
  induction s1 as [| c s1 IH]; intros a; [reflexivity|].
  cbn [append digits_value]. apply IH.
Qed.

Lemma digits_only_app (s1 s2 : string) :
  digits_only s1 -> digits_only s2 -> digits_only (s1 ++ s2).
Proof.
  unfold digits_only. induction s1 as [| c s1 IH]; intros H1 H2; [exact H2|].
  cbn [append string_existsb] in *. apply orb_false_iff in H1 as [-> H1].
  exact (IH H1 H2).
Qed.

Lemma digits_only_digit (z : Z) : digits_only (String (digit_char z) EmptyString).
Proof.
  unfold digits_only. cbn [string_existsb].
  rewrite (proj1 (digit_char_spec z)). reflexivity.
Qed.

Lemma length_append (s1 s2 : string) :
  String.length (s1 ++ s2) = (String.length s1 + String.length s2)%nat.
Proof. induction s1 as [| c s1 IH]; [reflexivity | cbn; congruence]. Qed.

Lemma digits_of_pos_fuel_spec (fuel : nat) :
  forall (z : Z) (acc : string),
    (0 <= z < 2 ^ Z.of_nat (S fuel))%Z ->
    exists D,
      digits_of_pos_fuel (S fuel) z acc = (D ++ acc)%string
      /\ D <> EmptyString
      /\ digits_only D
      /\ forall a, digits_value a D
                   = (a * 10 ^ Z.of_nat (String.length D) + z)%Z.
Proof.
  induction fuel as [| fuel IH]; intros z acc Hz.
  - change (2 ^ Z.of_nat 1)%Z with 2%Z in Hz.
    exists (String (digit_char z) EmptyString).
    cbn [digits_of_pos_fuel].
    assert (E : (z <? 10)%Z = true) by (apply Z.ltb_lt; lia). rewrite E.
    split; [reflexivity|]. split; [discriminate|]. split; [apply digits_only_digit|].
    intros a. cbn [digits_value String.length].
    rewrite (proj2 (digit_char_spec z)). rewrite Z.mod_small by lia.
    change (10 ^ Z.of_nat 1)%Z with 10%Z. lia.
  - cbn [digits_of_pos_fuel]. destruct (z <? 10)%Z eqn:E.
    + apply Z.ltb_lt in E. exists (String (digit_char z) EmptyString).
      split; [reflexivity|]. split; [discriminate|].
      split; [apply digits_only_digit|].
      intros a. cbn [digits_value String.length].
      rewrite (proj2 (digit_char_spec z)). rewrite Z.mod_small by lia.
      change (10 ^ Z.of_nat 1)%Z with 10%Z. lia.
    + apply Z.ltb_ge in E.
      assert (Hz' : (0 <= z / 10 < 2 ^ Z.of_nat (S fuel))%Z).
      { rewrite Nat2Z.inj_succ, Z.pow_succ_r in Hz by lia.
        split; [apply Z.div_pos; lia|].
        apply Z.div_lt_upper_bound; lia. }
      destruct (IH (z / 10)%Z (String (digit_char z) acc) Hz')
        as (D & ED & Hne & Hd & Hv).
      exists (D ++ String (digit_char z) EmptyString)%string.
      split; [|split; [|split]].
      * change (digits_of_pos_fuel (S fuel) (z / 10) (String (digit_char z) acc)
                = ((D ++ String (digit_char z) EmptyString) ++ acc)%string).
        rewrite ED, append_assoc. reflexivity.
      * destruct D; [congruence | discriminate].
      * apply digits_only_app; [exact Hd | apply digits_only_digit].
      * intros a. rewrite digits_value_app, Hv. cbn [digits_value].
        rewrite (proj2 (digit_char_spec z)), length_append.
        cbn [String.length]. rewrite Nat2Z.inj_add, Z.pow_add_r by lia.
        change (10 ^ Z.of_nat 1)%Z with 10%Z.
        pose proof (Z.div_mod z 10 ltac:(lia)). lia.
Qed.

Lemma digits_of_Z_spec (z : Z) :
  (0 <= z)%Z ->
  digits_of_Z z <> EmptyString
  /\ digits_only (digits_of_Z z)
  /\ forall a, digits_value a (digits_of_Z z)
               = (a * 10 ^ Z.of_nat (String.length (digits_of_Z z)) + z)%Z.
Proof.
  intros Hz. unfold digits_of_Z.
  assert (Hb : (0 <= z < 2 ^ Z.of_nat (S (Z.to_nat (Z.log2 z))))%Z).
  { split; [exact Hz|]. rewrite Nat2Z.inj_succ, Z2Nat.id by apply Z.log2_nonneg.
    destruct (Z.eq_dec z 0) as [-> | Hn]; [reflexivity|].
    apply Z.log2_spec. lia. }
  destruct (digits_of_pos_fuel_spec _ z EmptyString Hb) as (D & ED & Hne & Hd & Hv).
  rewrite ED, append_empty_r. auto.
Qed.

Lemma digit_facts (c : ascii) :
  is_digit c = true ->
  is_float_space c = false /\ Ascii.eqb c "_" = false /\ lower c = c
  /\ Ascii.eqb c "i" = false /\ Ascii.eqb c "n" = false
  /\ c <> "-"%char /\ c <> "+"%char.
Proof.
  destruct c as [[] [] [] [] [] [] [] []]; vm_compute; intros H;
    try discriminate; repeat split; discriminate.
Qed.

Lemma parse_sign_other (c : ascii) (s : string) :
  c <> "-"%char -> c <> "+"%char -> parse_sign (String c s) = (false, String c s).
Proof.
  intros H1 H2. destruct c as [[] [] [] [] [] [] [] []]; try reflexivity; congruence.
Qed.

Lemma rstrip_keep (space : ascii -> bool) (s : string) (c : ascii) :
  space c = false ->
  rstrip space (s ++ String c EmptyString) = (s ++ String c EmptyString)%string.
Proof.
  intros Hc. induction s as [| a s IH].
  - cbn. rewrite Hc. reflexivity.
  - cbn [append rstrip]. rewrite IH. destruct s; reflexivity.
Qed.

Lemma no_underscore_app (a b : string) :
  no_underscore a -> no_underscore b -> no_underscore (a ++ b).
Proof.
  unfold no_underscore. induction a as [| c a IH]; intros Ha Hb; [exact Hb|].
  cbn [append string_existsb] in *. apply orb_false_iff in Ha as [-> Ha].
  exact (IH Ha Hb).
Qed.

Lemma digits_no_underscore (s : string) : digits_only s -> no_underscore s.
Proof.
  unfold digits_only, no_underscore. induction s as [| c s IH]; intros H; [reflexivity|].
  cbn [string_existsb] in *. apply orb_false_iff in H as [Hc H].
  apply negb_false_iff in Hc. destruct (digit_facts c Hc) as (_ & -> & _).
  exact (IH H).
Qed.

Lemma drop_underscores_none (s : string) :
  no_underscore s -> forall prev, drop_underscores prev s = Some s.
Proof.
  unfold no_underscore. induction s as [| c s IH]; intros H prev; [reflexivity|].
  cbn [string_existsb drop_underscores] in *. apply orb_false_iff in H as [-> H].
  rewrite (IH H). reflexivity.
Qed.

Lemma span_digits_all (D : string) (c : ascii) (rest : string) :
  digits_only D -> is_digit c = false ->
  span_digits (D ++ String c rest) = (D, String c rest).
Proof.
  unfold digits_only. intros HD Hc. induction D as [| d D IH].
  - cbn. rewrite Hc. reflexivity.
  - cbn [append span_digits string_existsb] in *.
    apply orb_false_iff in HD as [Hd HD]. apply negb_false_iff in Hd.
    rewrite Hd, (IH HD). reflexivity.
Qed.

Lemma scale10_cents (m : Z) : scale10 m (-2) = Qred (Qmake m 100).
Proof. reflexivity. Qed.

Lemma float_of_fixed (neg : bool) (D : string) (d1 d0 : Z) :
  digits_only D -> D <> EmptyString ->
  float_of_string ((if neg then "-" else EmptyString) ++ D ++ "."
                   ++ String (digit_char d1) (String (digit_char d0) EmptyString))
  = Some (Fin (let q := Qred (Qmake (10 * (10 * digits_value 0 D + d1 mod 10)
                                     + d0 mod 10) 100) in
               if neg then Qred (- q) else q)).
Proof.
  intros HD Hne.
  set (dd := String (digit_char d1) (String (digit_char d0) EmptyString)).
  set (body := (D ++ "." ++ dd)%string).
  assert (Hfirst : exists c D', D = String c D' /\ is_digit c = true).
  { destruct D as [| c D']; [congruence|]. exists c, D'. split; [reflexivity|].
    unfold digits_only in HD. cbn [string_existsb] in HD.
    apply orb_false_iff in HD as [Hc _]. apply negb_false_iff in Hc. exact Hc. }
  destruct Hfirst as (c & D' & ED & Hc).
  destruct (digit_facts c Hc) as (Hsp & Hus & Hlow & Hi & Hn & Hm & Hp).
  destruct (digit_facts _ (proj1 (digit_char_spec d0))) as (Hsp0 & _).
  assert (Hbody : body = String c (D' ++ "." ++ dd)%string).
  { unfold body. rewrite ED. reflexivity. }
  set (T := ((if neg then "-" else EmptyString) ++ body)%string).
  assert (Hl : lstrip is_float_space T = T).
  { unfold T. destruct neg; [reflexivity|].
    cbn [append]. rewrite Hbody. cbn [lstrip]. rewrite Hsp. reflexivity. }
  assert (Hr : rstrip is_float_space T = T).
  { unfold T, body, dd.
    replace ((if neg then "-" else EmptyString) ++ D ++ "."
             ++ String (digit_char d1) (String (digit_char d0) EmptyString))%string
      with (((if neg then "-" else EmptyString) ++ D ++ "."
             ++ String (digit_char d1) EmptyString)
            ++ String (digit_char d0) EmptyString)%string.
    - apply rstrip_keep. exact Hsp0.
    - rewrite !append_assoc. reflexivity. }
  assert (Hu : no_underscore T).
  { unfold T, body, dd. apply no_underscore_app; [destruct neg; reflexivity|].
    apply no_underscore_app; [apply digits_no_underscore; exact HD|].
    apply (no_underscore_app "."); [reflexivity|].
    apply digits_no_underscore.
    apply (digits_only_app (String (digit_char d1) EmptyString)
             (String (digit_char d0) EmptyString)); apply digits_only_digit. }
  assert (Hs : parse_sign T = (neg, body)).
  { unfold T. destruct neg; [reflexivity|].
    cbn [append]. rewrite Hbody. apply parse_sign_other; assumption. }
  unfold float_of_string. fold T. rewrite Hl, Hr, (drop_underscores_none T Hu), Hs.
  assert (Hw : forall w, (string_lower body =? String "i" w) = false
                         /\ (string_lower body =? String "n" w) = false).
  { intros w. rewrite Hbody. cbn [string_lower String.eqb]. rewrite Hlow, Hi, Hn.
    split; reflexivity. }
  rewrite (proj1 (Hw "nf")), (proj1 (Hw "nfinity")), (proj2 (Hw "an")).
  cbn [orb]. unfold parse_decimal.
  change body with (D ++ String "." dd)%string.
  rewrite (span_digits_all D "." dd HD eq_refl).
  assert (Hdd : span_digits dd = (dd, EmptyString)).
  { unfold dd. cbn [span_digits].
    rewrite !(proj1 (digit_char_spec _)). reflexivity. }
  rewrite Hdd. rewrite andb_false_r. cbn [parse_exponent].
  rewrite digits_value_app. unfold dd. cbn [digits_value String.length].
  rewrite !(proj2 (digit_char_spec _)).
  change (0 - Z.of_nat 2)%Z with (-2)%Z. rewrite scale10_cents. reflexivity.
Qed.


Lemma round_half_even_near (n d : Z) :
  (0 <= n)%Z -> (0 < d)%Z ->
  (0 <= round_half_even n d)%Z
  /\ (- d <= 2 * (round_half_even n d * d - n) <= d)%Z.
Proof.
  intros Hn Hd. unfold round_half_even.
  pose proof (Z.div_mod n d ltac:(lia)) as E.
  pose proof (Z.mod_pos_bound n d Hd) as Hr.
  pose proof (Z.div_pos n d Hn Hd) as Hf.
  destruct (2 * (n mod d) <? d)%Z eqn:E1; [apply Z.ltb_lt in E1; nia|].
  apply Z.ltb_ge in E1.
  destruct (d <? 2 * (n mod d))%Z eqn:E2; [apply Z.ltb_lt in E2; nia|].
  apply Z.ltb_ge in E2.
  destruct (Z.even (n / d)); nia.
Qed.

Lemma cents_digits (n : Z) :
  (0 <= n)%Z ->
  (10 * (10 * (n / 100) + (n mod 100 / 10) mod 10) + (n mod 100) mod 10 = n)%Z.
Proof. intros Hn. Z.div_mod_to_equations. lia. Qed.

(** The text of [format(x, '.2f')] is read back by [float] as a value
    within half a cent of [x]. *)
Lemma format_2f_near (q : Q) :
  exists q',
    float_of_string (format_2f (Fin q)) = Some (Fin q')
    /\ (q - (1 # 200) <= q' <= q + (1 # 200))%Q.
Proof.
  unfold format_2f.
  set (n := round_half_even (Z.abs (Qnum q) * 100) (Z.pos (Qden q))).
  destruct (round_half_even_near (Z.abs (Qnum q) * 100) (Z.pos (Qden q))
              ltac:(lia) ltac:(lia)) as [Hn Hnear]. fold n in Hn, Hnear.
  assert (Hn100 : (0 <= n / 100)%Z) by (apply Z.div_pos; lia).
  destruct (digits_of_Z_spec (n / 100) Hn100) as (Hne & Hd & Hv).
  unfold pad2.
  rewrite (float_of_fixed (Qltb q 0) (digits_of_Z (n / 100))
             (n mod 100 / 10) (n mod 100) Hd Hne).
  rewrite Hv, Z.mul_0_l, Z.add_0_l, (cents_digits n Hn). cbv zeta.
  eexists. split; [reflexivity|].
  clear Hne Hd Hv Hn100. clearbody n.
  destruct q as [a b]. cbn [Qnum Qden] in *.
  destruct (Qltb (a # b) 0) eqn:Es.
  - apply Qltb_true in Es. rewrite !Qred_correct.
    unfold Qlt, Qle, Qminus, Qplus, Qopp in *. cbn [Qnum Qden] in *.
    rewrite !Pos2Z.inj_mul. lia.
  - apply Qltb_false in Es. rewrite !Qred_correct.
    unfold Qlt, Qle, Qminus, Qplus, Qopp in *. cbn [Qnum Qden] in *.
    rewrite !Pos2Z.inj_mul. lia.
Qed.

Lemma format_2f_to_the_cent (a : pyfloat) :
  exists b, float_of_string (format_2f a) = Some b /\ to_the_cent a b.
Proof.
  destruct a as [q | s | ].
  - destruct (format_2f_near q) as (q' & E & H). exists (Fin q'). split; assumption.
  - exists (Inf s). destruct s; split; reflexivity.
  - exists NaN. split; [reflexivity | exact I].
Qed.



(** ** The menu *)

Lemma safe_ret {A} (h : exn -> bool) (a : A) : safe h 0 (Menu.ret a).
Proof.
  intros w Hw. cbn. split; [exact Hw|].
  split; [exists []; split; [reflexivity | apply Nat.le_refl] | exact I].
Qed.

Lemma safe_bind {A B} (h : exn -> bool) (n1 n2 : nat) (m : Menu.IO A)
  (k : A -> Menu.IO B) :
  safe h n1 m -> (forall a, safe h n2 (k a)) -> safe h (n1 + n2) (Menu.bind m k).
Proof.
  intros Hm Hk w Hw. unfold Menu.bind.
  destruct (Hm w Hw) as (Hw1 & (u1 & Hu1 & Hn1) & Hr1).
  destruct (m w) as [[a | i] w1]; cbn [fst snd] in *.
  - destruct (Hk a w1 Hw1) as (Hw2 & (u2 & Hu2 & Hn2) & Hr2).
    split; [exact Hw2|]. split; [|exact Hr2].
    exists (u1 ++ u2). split; [rewrite <- app_assoc, <- Hu2; exact Hu1|].
    destruct (fst (k a w1)); [|exact I]. rewrite length_app. lia.
  - split; [exact Hw1|]. split; [exists u1; auto | exact Hr1].
Qed.

Lemma safe_less {A} (h : exn -> bool) (n n' : nat) (m : Menu.IO A) :
  (n' <= n)%nat -> safe h n m -> safe h n' m.
Proof.
  intros Hn Hm w Hw. destruct (Hm w Hw) as (H1 & (u & Hu & Hl) & H3).
  split; [exact H1|]. split; [|exact H3].
  exists u. split; [exact Hu|]. destruct (fst (m w)); [lia | exact I].
Qed.

(** The same, when it does not matter how much input is read. *)
Lemma safe_then {A B} (h : exn -> bool) (n1 n2 : nat) (m : Menu.IO A)
  (k : A -> Menu.IO B) :
  safe h n1 m -> (forall a, safe h n2 (k a)) -> safe h 0 (Menu.bind m k).
Proof.
  intros Hm Hk. apply (safe_less h (n1 + n2)); [lia|].
  apply safe_bind; assumption.
Qed.

Lemma safe_weaken {A} (h : exn -> bool) (n : nat) (m : Menu.IO A) :
  safe nothing n m -> safe h n m.
Proof.
  intros Hm w Hw. destruct (Hm w Hw) as (H1 & H2 & H3).
  split; [exact H1|]. split; [exact H2|].
  destruct (fst (m w)) as [a | [| e]]; auto. discriminate.
Qed.

Lemma safe_put (h : exn -> bool) (o : Menu.output) : safe h 0 (Menu.put o).
Proof.
  intros w Hw. cbn. split; [exact Hw|].
  split; [exists []; split; [reflexivity | apply Nat.le_refl] | exact I].
Qed.

Lemma safe_print_all (h : exn -> bool) (l : list string) :
  safe h 0 (Menu.print_all l).
Proof.
  induction l as [| s l IH]; [apply safe_ret|].
  cbn [Menu.print_all].
  apply (safe_then h 0 0); [apply safe_put | intros _; exact IH].
Qed.

Lemma safe_input (h : exn -> bool) (prompt : string) :
  safe h 1 (Menu.input prompt).
Proof.
  intros w [Hb Hs]. unfold Menu.input.
  destruct (Menu.stdin w) as [| line rest] eqn:E; cbn [fst snd].
  - split; [split; [exact Hb | constructor]|].
    split; [exists []; split; [reflexivity | exact I] | reflexivity].
  - inversion Hs; subst.
    split; [split; assumption|].
    split; [exists [line]; split; [reflexivity | apply Nat.le_refl] | exact I].
Qed.

(** The line that is read is one the user is to type. *)
Lemma safe_input_then {B} (h : exn -> bool) (n : nat) (prompt : string)
  (k : string -> Menu.IO B) :
  (forall line, no_load_no_chart line -> safe h n (k line)) ->
  safe h (1 + n) (Menu.bind (Menu.input prompt) k).
Proof.
  intros Hk w [Hb Hs]. unfold Menu.bind, Menu.input.
  destruct (Menu.stdin w) as [| line rest] eqn:E; cbn [fst snd].
  - split; [split; [exact Hb | constructor]|].
    split; [exists []; split; [reflexivity | exact I] | reflexivity].
  - inversion Hs as [| ? ? Hline Hrest]; subst.
    destruct (Hk line Hline
                (Menu.mkWorld (Menu.manager w) rest
                   (Menu.console w ++ [Menu.Prompt prompt])))
      as (H1 & (u & Hu & Hn) & H3); [split; assumption|].
    cbn [Menu.stdin] in Hu.
    destruct (k line _) as [r w']; cbn [fst snd] in *.
    split; [exact H1|]. split; [|exact H3].
    exists (line :: u). split; [rewrite Hu; reflexivity|].
    destruct r; [cbn [length]; lia | exact I].
Qed.

Lemma safe_raise {A} (h : exn -> bool) (e : exn) :
  h e = true -> safe h 0 (@Menu.raise A e).
Proof.
  intros He w Hw. cbn. split; [exact Hw|].
  split; [exists []; split; [reflexivity | exact I] | exact He].
Qed.

Lemma safe_try_ValueError (n : nat) (body : Menu.IO unit) :
  safe is_ValueError n body -> safe nothing 0 (Menu.try_ValueError body).
Proof.
  intros Hb w Hw. unfold Menu.try_ValueError.
  destruct (Hb w Hw) as (H1 & (u & Hu & Hn) & H3).
  destruct (body w) as [[a | [| e]] w1]; cbn [fst snd] in *.
  - split; [exact H1|]. split; [exists u; split; [exact Hu | lia] | exact I].
  - split; [exact H1|]. split; [exists u; auto | exact H3].
  - rewrite H3. cbn. split; [exact H1|].
    split; [exists u; split; [exact Hu | lia] | exact I].
Qed.

(** A call of a method that keeps the budgets in order and raises nothing
    but what is handled. *)
Lemma safe_call {A} (h : exn -> bool) (m : FinanceManager.M A) :
  (forall self, Forall budget_ok (FinanceManager.budgets self) ->
     Forall budget_ok (FinanceManager.budgets (snd (m self)))
     /\ match fst (m self) with Raise e => h e = true | Ok _ => True end) ->
  safe h 0 (Menu.call m).
Proof.
  intros Hm w [Hb Hs]. unfold Menu.call.
  destruct (Hm (Menu.manager w) Hb) as [H1 H2].
  destruct (m (Menu.manager w)) as [[a | e] self']; cbn [fst snd] in *.
  - split; [split; assumption|].
    split; [exists []; split; [reflexivity | apply Nat.le_refl] | exact I].
  - split; [split; assumption|].
    split; [exists []; split; [reflexivity | exact I] | exact H2].
Qed.

Lemma safe_show (h : exn -> bool) (m : FinanceManager.t -> Console.printed) :
  (forall self, Forall budget_ok (FinanceManager.budgets self) ->
     snd (m self) = Ok tt) ->
  safe h 0 (Menu.show m).
Proof.
  intros Hm w [Hb Hs]. unfold Menu.show.
  specialize (Hm (Menu.manager w) Hb).
  destruct (m (Menu.manager w)) as [lines r]; cbn [fst snd] in *. subst r.
  split; [split; assumption|].
  split; [exists []; split; [reflexivity | apply Nat.le_refl] | exact I].
Qed.

Lemma init_typed_raises (d : datetime) (ty c : string) (a : pyfloat) (ds : string)
  (e : exn) :
  Transaction.init (PyDatetime d) (PyStr ty) (PyStr c) (PyFloat a) (PyStr ds)
  = Raise e ->
  is_ValueError e = true.
Proof.
  unfold Transaction.init. cbn [rbind as_number].
  destruct ((ty =? "income") || (ty =? "expense")); cbn [rbind];
    [|intros [= <-]; reflexivity].
  destruct (is_empty (strip c)); cbn [rbind]; [intros [= <-]; reflexivity|].
  destruct (float_ltb a float_zero); cbn [rbind]; [intros [= <-]; reflexivity|].
  discriminate.
Qed.

Lemma add_expense_first_result (bs : list Budget.t) (c : string)
  (tr : Transaction.t) :
  Forall budget_ok bs ->
  Transaction.transaction_type tr = "expense" ->
  Transaction.category tr = c ->
  forall r bs',
    FinanceManager.add_expense_first bs (PyStr c) tr = Some (r, bs') -> r = Ok tt.
Proof.
  intros Hbs Hty Hc. induction Hbs as [| b bs Hb _ IH]; intros r bs'.
  - discriminate.
  - cbn [FinanceManager.add_expense_first str_eq].
    destruct (Budget.category b =? c) eqn:E.
    + apply String.eqb_eq in E.
      destruct (budget_ok_number b Hb) as (x & Hx).
      rewrite (add_expense_matching b tr x Hx Hty) by congruence.
      intros [= <- _]. reflexivity.
    + destruct (FinanceManager.add_expense_first bs (PyStr c) tr)
        as [[r0 l0]|]; [|discriminate].
      cbn [option_map]. intros [= <- _]. exact (IH r0 l0 eq_refl).
Qed.

Lemma add_transaction_typed (d : datetime) (ty c : string) (a : pyfloat)
  (ds : string) (self : FinanceManager.t) :
  Forall budget_ok (FinanceManager.budgets self) ->
  Forall budget_ok
    (FinanceManager.budgets
       (snd (FinanceManager.add_transaction (PyDatetime d) (PyStr ty) (PyStr c)
               (PyFloat a) (PyStr ds) self)))
  /\ match fst (FinanceManager.add_transaction (PyDatetime d) (PyStr ty) (PyStr c)
                  (PyFloat a) (PyStr ds) self) with
     | Raise e => is_ValueError e = true
     | Ok _ => True
     end.
Proof.
  intros Hb. split.
  - destruct (add_transaction_budgets (PyDatetime d) (PyStr ty) (PyStr c)
                (PyFloat a) (PyStr ds) self) as (_ & _ & H). exact (H Hb).
  - unfold FinanceManager.add_transaction, FinanceManager.append_transaction.
    unfold FinanceManager.bind, FinanceManager.lift, FinanceManager.gets,
      FinanceManager.set_transactions, FinanceManager.set_budgets,
      FinanceManager.ret.
    destruct (Transaction.init (PyDatetime d) (PyStr ty) (PyStr c) (PyFloat a)
                (PyStr ds)) as [tr | e] eqn:Ei;
      [|cbn [fst]; exact (init_typed_raises _ _ _ _ _ _ Ei)].
    destruct (init_inv _ _ _ _ _ _ Ei) as (_ & Hty & Hc & _).
    injection Hty as Hty. injection Hc as Hc.
    cbn [str_eq]. destruct ("expense" =? ty) eqn:Ee; [|exact I].
    apply String.eqb_eq in Ee.
    cbn [FinanceManager.budgets].
    destruct (FinanceManager.add_expense_first (FinanceManager.budgets self)
                (PyStr c) tr) as [[r bs']|] eqn:Ef; [|exact I].
    rewrite (add_expense_first_result _ c tr Hb (eq_trans (eq_sym Hty) (eq_sym Ee))
               (eq_sym Hc) r bs' Ef).
    exact I.
Qed.

Lemma add_budget_typed (c : string) (a : pyfloat) (p : string)
  (self : FinanceManager.t) :
  Forall budget_ok (FinanceManager.budgets self) ->
  Forall budget_ok
    (FinanceManager.budgets
       (snd (FinanceManager.add_budget (PyStr c) (PyFloat a) (PyStr p) self)))
  /\ match fst (FinanceManager.add_budget (PyStr c) (PyFloat a) (PyStr p) self) with
     | Raise e => is_ValueError e = true
     | Ok _ => True
     end.
Proof.
  intros Hb. unfold FinanceManager.add_budget, FinanceManager.append_budget.
  unfold FinanceManager.bind, FinanceManager.lift, FinanceManager.gets,
    FinanceManager.set_budgets, FinanceManager.raise.
  destruct (existsb _ (FinanceManager.budgets self)); cbn [fst snd];
    [split; [exact Hb | reflexivity]|].
  destruct (Budget.init (PyStr c) (PyFloat a) (PyStr p)) as [b | e] eqn:Ei;
    cbn [fst snd FinanceManager.budgets].
  - split; [|exact I]. apply Forall_app. split; [exact Hb|].
    constructor; [|constructor]. exact (proj1 (Budget_init_ok _ _ _ _ Ei)).
  - split; [exact Hb|]. revert Ei. unfold Budget.init. cbn [rbind as_number].
    destruct (is_empty (strip c)); cbn [rbind]; [intros [= <-]; reflexivity|].
    destruct (float_leb a float_zero); cbn [rbind]; [intros [= <-]; reflexivity|].
    discriminate.
Qed.

Lemma save_transactions_typed (self : FinanceManager.t) :
  FinanceManager.budgets (snd (FinanceManager.save_transactions self))
  = FinanceManager.budgets self
  /\ fst (FinanceManager.save_transactions self) = Ok tt.
Proof.
  split; [exact (proj1 (save_transactions_budgets self))|].
  unfold FinanceManager.save_transactions, FinanceManager.try_except,
    FinanceManager.bind, FinanceManager.gets, FinanceManager.lift,
    FinanceManager.set_transaction_file.
  destruct (FinanceManager.transaction_file self) as [| r [] c]; reflexivity.
Qed.

Lemma save_budgets_typed (self : FinanceManager.t) :
  Forall budget_ok (FinanceManager.budgets self) ->
  FinanceManager.budgets (snd (FinanceManager.save_budgets self))
  = FinanceManager.budgets self
  /\ fst (FinanceManager.save_budgets self) = Ok tt.
Proof.
  intros Hok. destruct (budget_data_ok _ Hok) as (rs & Hlen & Hdata & Hser).
  unfold FinanceManager.save_budgets, FinanceManager.try_except,
    FinanceManager.bind, FinanceManager.gets, FinanceManager.lift,
    FinanceManager.set_budget_file, json.dump.
  rewrite Hdata, Hser.
  destruct (FinanceManager.budget_file self) as [| r [] c]; split; reflexivity.
Qed.

Lemma view_budgets_ok (self : FinanceManager.t) :
  Forall budget_ok (FinanceManager.budgets self) ->
  snd (Console.view_budgets self) = Ok tt.
Proof.
  intros Hok. unfold Console.view_budgets.
  destruct (FinanceManager.budgets self) as [| b bs] eqn:E; [reflexivity|].
  destruct (print_budgets_ok _ Hok) as (lines & El & _). rewrite El. reflexivity.
Qed.

Lemma reports_ok (self : FinanceManager.t) :
  snd (Console.view_transactions self) = Ok tt
  /\ snd (Console.report_totals self) = Ok tt
  /\ snd (Console.report_category_spending self) = Ok tt
  /\ snd (Console.report_monthly_summary self) = Ok tt.
Proof.
  split; [|split; [|split]].
  - unfold Console.view_transactions.
    destruct (FinanceManager.transactions self); reflexivity.
  - unfold Console.report_totals.
    destruct (Console.totals _ _ _) as [i e].
    destruct (float_eqb i float_zero && float_eqb e float_zero); reflexivity.
  - unfold Console.report_category_spending.
    destruct (Console.category_totals _ _); reflexivity.
  - unfold Console.report_monthly_summary.
    destruct (Console.monthly_totals _ _); reflexivity.
Qed.

Lemma safe_enter_transaction : safe nothing 0 Menu.enter_transaction.
Proof.
  apply (safe_try_ValueError 0).
  apply (safe_then _ 1 0); [apply safe_input | intros date_str].
  apply (safe_then _ 0 0).
  { destruct (strptime_ymd (strip date_str));
      [apply safe_ret | apply safe_raise; reflexivity]. }
  intros date.
  apply (safe_then _ 1 0); [apply safe_input | intros transaction_type].
  apply (safe_then _ 1 0); [apply safe_input | intros category].
  apply (safe_then _ 1 0); [apply safe_input | intros amount_str].
  apply (safe_then _ 0 0).
  { destruct (float_of_string amount_str);
      [apply safe_ret | apply safe_raise; reflexivity]. }
  intros amount.
  apply (safe_then _ 1 0); [apply safe_input | intros description].
  apply safe_call. intros self Hb. apply add_transaction_typed. exact Hb.
Qed.

Lemma safe_enter_budget : safe nothing 0 Menu.enter_budget.
Proof.
  apply (safe_try_ValueError 0).
  apply (safe_then _ 1 0); [apply safe_input | intros category].
  apply (safe_then _ 1 0); [apply safe_input | intros amount_str].
  apply (safe_then _ 0 0).
  { destruct (float_of_string amount_str);
      [apply safe_ret | apply safe_raise; reflexivity]. }
  intros allocated_amount.
  apply (safe_then _ 1 0); [apply safe_input | intros period].
  apply safe_call. intros self Hb. apply add_budget_typed. exact Hb.
Qed.

Lemma safe_round (pie_chart : list pyfloat -> list string -> result unit) :
  safe nothing 1 (Menu.round pie_chart).
Proof.
  unfold Menu.round.
  apply (safe_bind _ 0 1); [apply safe_print_all | intros _].
  apply (safe_input_then _ 0). intros line [H6 H10].
  destruct (strip line =? "1");
    [apply (safe_then _ 0 0); [apply safe_enter_transaction | intros; apply safe_ret]|].
  destruct (strip line =? "2");
    [apply (safe_then _ 0 0); [apply safe_enter_budget | intros; apply safe_ret]|].
  destruct (strip line =? "3").
  { apply (safe_then _ 0 0); [|intros; apply safe_ret].
    apply safe_show. intros self _. apply reports_ok. }
  destruct (strip line =? "4").
  { apply (safe_then _ 0 0); [|intros; apply safe_ret].
    apply safe_show. intros self Hb. apply view_budgets_ok. exact Hb. }
  destruct (strip line =? "5").
  { apply (safe_then _ 0 0).
    { apply safe_call. intros self Hb.
      destruct (save_transactions_typed self) as [-> ->]. auto. }
    intros _. apply (safe_then _ 0 0).
    { apply safe_call. intros self Hb.
      destruct (save_budgets_typed self Hb) as [-> ->]. auto. }
    intros _. apply (safe_then _ 0 0); [apply safe_put | intros; apply safe_ret]. }
  destruct (strip line =? "6") eqn:E6;
    [apply String.eqb_eq in E6; contradiction|].
  destruct (strip line =? "7").
  { apply (safe_then _ 0 0); [|intros; apply safe_ret].
    apply safe_show. intros self _. apply reports_ok. }
  destruct (strip line =? "8").
  { apply (safe_then _ 0 0); [|intros; apply safe_ret].
    apply safe_show. intros self _. apply reports_ok. }
  destruct (strip line =? "9").
  { apply (safe_then _ 0 0); [|intros; apply safe_ret].
    apply safe_show. intros self _. apply reports_ok. }
  destruct (strip line =? "10") eqn:E10;
    [apply String.eqb_eq in E10; contradiction|].
  destruct (strip line =? "11");
    apply (safe_then _ 0 0); try apply safe_put; intros; apply safe_ret.
Qed.

Lemma loop_in_order (pie_chart : list pyfloat -> list string -> result unit)
  (fuel : nat) :
  forall w,
    (length (Menu.stdin w) < fuel)%nat ->
    in_order w ->
    exists w',
      (Menu.loop pie_chart fuel w = Some (Menu.Value tt, w')
       \/ (Menu.loop pie_chart fuel w = Some (Menu.Stop Menu.EOFError, w')
           /\ Menu.stdin w' = []))
      /\ in_order w'.
Proof.
  induction fuel as [| fuel IH]; intros w Hlen Hw; [lia|].
  cbn [Menu.loop].
  destruct (safe_round pie_chart w Hw) as (Hw1 & (u & Hu & Hn) & Hr).
  destruct (Menu.round pie_chart w) as [[[] | [| e]] w1]; cbn [fst snd] in *.
  - apply IH; [|exact Hw1]. rewrite Hu, length_app in Hlen. lia.
  - exists w1. auto.
  - exists w1. auto.
  - discriminate.
Qed.

(** Every round reads a line: the rounds [run_menu] allows are enough,
    in any world. *)

Lemma reads_ret {A} (a : A) : reads 0 (Menu.ret a).
Proof. intros w. exists []. split; [reflexivity | apply Nat.le_refl]. Qed.

Lemma reads_bind {A B} (n1 n2 : nat) (m : Menu.IO A) (k : A -> Menu.IO B) :
  reads n1 m -> (forall a, reads n2 (k a)) -> reads (n1 + n2) (Menu.bind m k).
Proof.
  intros Hm Hk w. unfold Menu.bind.
  destruct (Hm w) as (u1 & Hu1 & Hn1).
  destruct (m w) as [[a | i] w1]; cbn [fst snd] in *.
  - destruct (Hk a w1) as (u2 & Hu2 & Hn2).
    exists (u1 ++ u2). split; [rewrite <- app_assoc, <- Hu2; exact Hu1|].
    destruct (fst (k a w1)); [|exact I]. rewrite length_app. lia.
  - exists u1. auto.
Qed.

Lemma reads_then {A B} (m : Menu.IO A) (k : A -> Menu.IO B) :
  reads 0 m -> (forall a, reads 0 (k a)) -> reads 0 (Menu.bind m k).
Proof. intros Hm Hk. exact (reads_bind 0 0 m k Hm Hk). Qed.

Lemma reads_put (o : Menu.output) : reads 0 (Menu.put o).
Proof. intros w. exists []. split; [reflexivity | apply Nat.le_refl]. Qed.

Lemma reads_print (s : string) : reads 0 (Menu.print s).
Proof. apply reads_put. Qed.

Lemma reads_print_all (l : list string) : reads 0 (Menu.print_all l).
Proof.
  induction l as [| s l IH]; [apply reads_ret|].
  cbn [Menu.print_all]. apply reads_then; [apply reads_put | intros _; exact IH].
Qed.

Lemma reads_input (prompt : string) : reads 1 (Menu.input prompt).
Proof.
  intros w. unfold Menu.input.
  destruct (Menu.stdin w) as [| line rest]; cbn [fst snd Menu.stdin].
  - exists []. split; [reflexivity | exact I].
  - exists [line]. split; [reflexivity | apply Nat.le_refl].
Qed.

Lemma reads_input_then {B} (prompt : string) (k : string -> Menu.IO B) :
  (forall line, reads 0 (k line)) -> reads 0 (Menu.bind (Menu.input prompt) k).
Proof.
  intros Hk. apply (reads_bind 0 0); [|exact Hk].
  intros w. destruct (reads_input prompt w) as (u & Hu & _).
  exists u. split; [exact Hu|]. destruct (fst _); [apply Nat.le_0_l | exact I].
Qed.

Lemma reads_raise {A} (e : exn) : reads 0 (@Menu.raise A e).
Proof. intros w. exists []. split; [reflexivity | exact I]. Qed.

Lemma reads_call {A} (m : FinanceManager.M A) : reads 0 (Menu.call m).
Proof.
  intros w. unfold Menu.call. destruct (m (Menu.manager w)) as [r self'].
  exists []. split; [reflexivity|]. destruct r; [apply Nat.le_refl | exact I].
Qed.

Lemma reads_show (m : FinanceManager.t -> Console.printed) : reads 0 (Menu.show m).
Proof.
  intros w. unfold Menu.show. destruct (m (Menu.manager w)) as [lines r].
  exists []. split; [reflexivity|]. destruct r; [apply Nat.le_refl | exact I].
Qed.

Lemma reads_try_ValueError (body : Menu.IO unit) :
  reads 0 body -> reads 0 (Menu.try_ValueError body).
Proof.
  intros Hb w. unfold Menu.try_ValueError. destruct (Hb w) as (u & Hu & _).
  destruct (body w) as [[a | [| e]] w1]; cbn [fst snd] in *.
  - exists u. split; [exact Hu | apply Nat.le_0_l].
  - exists u. auto.
  - destruct (is_ValueError e); cbn [fst snd Menu.put Menu.stdin].
    + exists u. split; [exact Hu | apply Nat.le_0_l].
    + exists u. auto.
Qed.

Create HintDb reads.
#[local] Hint Resolve reads_ret reads_put reads_print reads_print_all
  reads_raise reads_call reads_show : reads.

Ltac reads_step :=
  first [ apply reads_try_ValueError
        | apply reads_input_then; intros ?
        | apply reads_then; [|intros ?]
        | match goal with
          | |- reads _ (match ?x with _ => _ end) => destruct x
          end
        | solve [auto with reads] ].

Lemma reads_round (pie_chart : list pyfloat -> list string -> result unit) :
  reads 1 (Menu.round pie_chart).
Proof.
  unfold Menu.round.
  apply (reads_bind 0 1); [apply reads_print_all | intros _].
  apply (reads_bind 1 0); [apply reads_input | intros line].
  unfold Menu.enter_transaction, Menu.enter_budget.
  repeat reads_step.
Qed.

Lemma loop_enough (pie_chart : list pyfloat -> list string -> result unit)
  (fuel : nat) :
  forall (fuel' : nat) (w : Menu.world),
    (length (Menu.stdin w) < fuel)%nat ->
    (length (Menu.stdin w) < fuel')%nat ->
    Menu.loop pie_chart fuel w = Menu.loop pie_chart fuel' w
    /\ Menu.loop pie_chart fuel w <> None.
Proof.
  induction fuel as [| fuel IH]; intros fuel' w H1 H2; [lia|].
  destruct fuel' as [| fuel']; [lia|].
  cbn [Menu.loop].
  destruct (reads_round pie_chart w) as (u & Hu & Hn).
  destruct (Menu.round pie_chart w) as [[[] | i] w1]; cbn [fst snd] in *.
  - apply IH; rewrite Hu, length_app in *; lia.
  - split; [reflexivity | discriminate].
  - split; [reflexivity | discriminate].
Qed.

Lemma run_menu_enough (pie_chart : list pyfloat -> list string -> result unit)
  (w : Menu.world) :
  Menu.run_menu pie_chart w <> None
  /\ forall fuel, (length (Menu.stdin w) < fuel)%nat ->
                  Menu.loop pie_chart fuel w = Menu.run_menu pie_chart w.
Proof.
  unfold Menu.run_menu. split.
  - apply (loop_enough pie_chart _ (S (length (Menu.stdin w))) w); lia.
  - intros fuel Hf. apply loop_enough; [exact Hf | lia].
Qed.


Lemma sample_session_lines : Forall no_load_no_chart sample_session.
Proof.
  unfold sample_session.
  repeat (apply Forall_cons; [split; vm_compute; discriminate|]).
  apply Forall_nil.
Qed.


(** The sample session ends when the user leaves; the last line is not
    read. *)
Example sample_session_run :
  exists w',
    Menu.run_menu (fun _ _ => Ok tt)
      (Menu.mkWorld (FinanceManager.init NoFile NoFile) sample_session [])
    = Some (Menu.Value tt, w')
    /\ Menu.stdin w' = ["3"]
    /\ FinanceManager.transactions (Menu.manager w') = [groceries]
    /\ FinanceManager.budgets (Menu.manager w')
       = [Budget.mk "Food" (Fin 500) (PyFloat (Fin 50)) "June 2025"].
Proof. eexists. vm_compute. repeat split. Qed.

Lemma skipn_length_app {A} (l l' : list A) : skipn (length l) (l ++ l') = l'.
Proof. induction l as [| x l IH]; [reflexivity | exact IH]. Qed.

Lemma print_all_run (l : list string) :
  forall w,
    Menu.print_all l w
    = (Menu.Value tt,
       Menu.mkWorld (Menu.manager w) (Menu.stdin w)
         (Menu.console w ++ map Menu.Line l)).
Proof.
  induction l as [| s l IH]; intros w.
  - cbn. rewrite app_nil_r. destruct w. reflexivity.
  - cbn [Menu.print_all map]. unfold Menu.bind, Menu.print, Menu.put.
    rewrite IH. cbn [Menu.manager Menu.stdin Menu.console].
    rewrite <- app_assoc. reflexivity.
Qed.

Lemma call_run {A} (m : FinanceManager.M A) (self : FinanceManager.t)
  (input : list string) (shown : list Menu.output) (a : A)
  (self' : FinanceManager.t) (out : list message) :
  m self = (Ok a, self') ->
  FinanceManager.stdout self' = FinanceManager.stdout self ++ out ->
  Menu.call m (Menu.mkWorld self input shown)
  = (Menu.Value a, Menu.mkWorld self' input (shown ++ map Menu.Said out)).
Proof.
  intros Hm Hout. unfold Menu.call. cbn [Menu.manager Menu.stdin Menu.console].
  rewrite Hm, Hout, skipn_length_app. reflexivity.
Qed.



Lemma load_budgets_malformed (self : FinanceManager.t) (w : bool) :
  FinanceManager.budget_file self = File true w json.Malformed ->
  FinanceManager.load_budgets self = (Raise JSONDecodeError, with_budgets self []).
Proof.
  intros E. unfold FinanceManager.load_budgets, FinanceManager.bind,
    FinanceManager.set_budgets, FinanceManager.gets, FinanceManager.try_except,
    FinanceManager.lift.
  cbn [FinanceManager.budget_file]. unfold with_budgets. rewrite E. reflexivity.
Qed.



(** *** visualize_category_spending *)

(** X19. What is drawn. [visualize_category_spending] hands to the pie chart the
    categories that have an expense, each once, in the order in which they
    come first, and for each the sum of the amounts of its expenses; none
    of these sums is negative. When there is no expense nothing is drawn.
    The method ends as the drawing does. *)
Theorem chart_of_category_spending
  (pie_chart : list pyfloat -> list string -> result unit)
  (self : FinanceManager.t) :
  let ts := FinanceManager.transactions self in
  let categories := distinct (map Transaction.category (expenses_in ts)) in
  let amounts := map (fun c => spent_on c ts) categories in
  Console.visualize_category_spending pie_chart self
  = match categories with
    | [] => (["No expenses available for visualization"], Ok tt)
    | _ =>
        match pie_chart amounts categories with
        | Ok _ => (["Pie chart saved to data/category_spending_pie.png"], Ok tt)
        | Raise e => ([], Raise e)
        end
    end
  /\ (Forall transaction_ok ts ->
      Forall (fun a => float_ltb a float_zero = false) amounts).
Proof.
  cbv zeta. split.
  - unfold Console.visualize_category_spending.
    rewrite category_totals_grouped, grouped_spec by constructor.
    cbn [map app dict_contains negb].
    assert (Ef : forall l : list string, filter (fun _ => true) l = l).
    { induction l as [| x l IHl]; [reflexivity|]. cbn [filter]. congruence. }
    rewrite Ef.
    set (ts := FinanceManager.transactions self).
    set (cats := distinct (map Transaction.category (expenses_in ts))).
    set (of_key := fun k : string =>
           (k, fold_left (fun total t => float_add total (Transaction.amount t))
                 (group_of Transaction.category k (expenses_in ts)) float_zero)).
    assert (E1 : map fst (map of_key cats) = cats).
    { rewrite map_map. cbn [of_key fst]. apply map_id. }
    assert (E2 : map snd (map of_key cats) = map (fun c => spent_on c ts) cats).
    { rewrite map_map. apply map_ext. intros k. unfold of_key, spent_on.
      cbn [snd]. rewrite fold_add_amounts. reflexivity. }
    destruct cats as [| c cs]; [reflexivity|].
    cbn [map] in E1, E2 |- *.
    change (of_key c :: map of_key cs) with (map of_key (c :: cs)).
    cbn [map]. rewrite E1, E2. reflexivity.
  - intros Hts. apply Forall_map. apply Forall_forall. intros c _.
    unfold spent_on. apply sum_from_not_less.
    apply Forall_map. apply Forall_forall. intros t Ht.
    unfold group_of, expenses_in in Ht.
    apply filter_In in Ht as [Ht _]. apply filter_In in Ht as [Ht _].
    rewrite Forall_forall in Hts. destruct (Hts t Ht) as (_ & _ & Ha). exact Ha.
Qed.

Lemma chart_of_category_spending_witness :
  Console.visualize_category_spending
    (fun amounts labels =>
       if forallb (fun a => negb (float_ltb a float_zero)) amounts
       then Ok tt else Raise (ValueError "Wedge sizes must be non negative values"))
    (FinanceManager.mk
       [groceries; paycheck;
        Transaction.mk june_25 "expense" "Rent" (Fin 300) "Apartment";
        Transaction.mk june_25 "expense" "Food" (Fin 12) "Lunch"]
       [] NoFile NoFile [])
  = (["Pie chart saved to data/category_spending_pie.png"], Ok tt)
  /\ Forall (fun a => float_ltb a float_zero = false)
       (map (fun c => spent_on c
                        [groceries; paycheck;
                         Transaction.mk june_25 "expense" "Rent" (Fin 300) "Apartment";
                         Transaction.mk june_25 "expense" "Food" (Fin 12) "Lunch"])
          ["Food"; "Rent"]).
Proof.
  destruct (chart_of_category_spending
              (fun amounts labels =>
                 if forallb (fun a => negb (float_ltb a float_zero)) amounts
                 then Ok tt
                 else Raise (ValueError "Wedge sizes must be non negative values"))
              (FinanceManager.mk
                 [groceries; paycheck;
                  Transaction.mk june_25 "expense" "Rent" (Fin 300) "Apartment";
                  Transaction.mk june_25 "expense" "Food" (Fin 12) "Lunch"]
                 [] NoFile NoFile [])) as [H1 H2].
  split; [exact H1|].
  apply H2.
  apply Forall_cons; [apply expense_ok; reflexivity|].
  apply Forall_cons; [apply income_ok; reflexivity|].
  apply Forall_cons; [apply expense_ok; reflexivity|].
  apply Forall_cons; [apply expense_ok; reflexivity|]. apply Forall_nil.
Defined.
